(** * Vemorak Python SDK: shallow embedding of [vemorak_sdk]

    The development follows the layout of the package:
    - [PyStr]      : the [str] methods the SDK relies on;
    - [errors.py]  : the exception classes;
    - [validate.py]: the input validators;
    - [client.py]  : [VmpClient] and [ProvisioningClient].

    Python strings are modelled as [string], one [ascii] per code point
    (code points below 256).  Values decoded from JSON are modelled by
    [pyval].  Exceptions are modelled by the error monad [outcome]; calls
    that touch the network, the clock or [time.sleep] run in the state
    monad [M] whose state is the trace of effects performed so far.  A
    Python [float] is an IEEE 754 binary64 number, modelled by
    [SpecFloat.spec_float] with the operations of [SpecFloat] at precision
    53 and maximal exponent 1024. *)

From Stdlib Require Import String Ascii List ZArith Bool Lia.
From Stdlib Require SpecFloat.
Import ListNotations.
Local Open Scope string_scope.
Local Open Scope Z_scope.
#[local] Set Warnings "-register-all".

(* ===================================================================== *)
(** ** Python [str] methods                                               *)
(* ===================================================================== *)

Module PyStr.

(** [ch.isspace()] for a code point below 256: TAB..CR, FS..US, SPACE,
    NEL and NBSP.  [str.strip()] removes exactly these characters. *)
Definition isspace (c : ascii) : bool :=
  let n := nat_of_ascii c in
  ((9 <=? n) && (n <=? 13))%nat || ((28 <=? n) && (n <=? 32))%nat
  || (n =? 133)%nat || (n =? 160)%nat.

Fixpoint lstrip (s : string) : string :=
  match s with
  | String c s' => if isspace c then lstrip s' else s
  | EmptyString => EmptyString
  end.

(** [rstrip_with p s] drops the longest suffix of [s] whose characters
    satisfy [p]. *)
Fixpoint rstrip_with (p : ascii -> bool) (s : string) : string :=
  match s with
  | EmptyString => EmptyString
  | String c s' =>
      match rstrip_with p s' with
      | EmptyString => if p c then EmptyString else String c EmptyString
      | r => String c r
      end
  end.

Definition rstrip (s : string) : string := rstrip_with isspace s.

Definition strip (s : string) : string := rstrip (lstrip s).

(** [s.rstrip("/")] *)
Definition rstrip_slash (s : string) : string :=
  rstrip_with (fun c => Ascii.eqb c "/"%char) s.

Definition is_empty (s : string) : bool :=
  match s with EmptyString => true | _ => false end.

(** Truthiness of a [str]: the empty string is falsy. *)
Definition truthy (s : string) : bool := negb (is_empty s).

Fixpoint any (p : ascii -> bool) (s : string) : bool :=
  match s with
  | EmptyString => false
  | String c s' => p c || any p s'
  end.

Fixpoint all (p : ascii -> bool) (s : string) : bool :=
  match s with
  | EmptyString => true
  | String c s' => p c && all p s'
  end.

(** [c in s] for a one-character [c]. *)
Definition contains (c : ascii) (s : string) : bool := any (Ascii.eqb c) s.

(** [s.startswith(p)] *)
Definition startswith (s p : string) : bool := String.prefix p s.

Fixpoint last_char (s : string) : option ascii :=
  match s with
  | EmptyString => None
  | String c EmptyString => Some c
  | String _ s' => last_char s'
  end.

(** [s.endswith(c)] for a one-character [c]. *)
Definition endswith_char (s : string) (c : ascii) : bool :=
  match last_char s with
  | Some d => Ascii.eqb d c
  | None => false
  end.

Fixpoint drop_last (s : string) : string :=
  match s with
  | EmptyString => EmptyString
  | String _ EmptyString => EmptyString
  | String c s' => String c (drop_last s')
  end.

Definition upper_char (c : ascii) : ascii :=
  let n := nat_of_ascii c in
  if ((97 <=? n) && (n <=? 122))%nat then ascii_of_nat (n - 32) else c.

Definition lower_char (c : ascii) : ascii :=
  let n := nat_of_ascii c in
  if ((65 <=? n) && (n <=? 90))%nat then ascii_of_nat (n + 32) else c.

Fixpoint map (f : ascii -> ascii) (s : string) : string :=
  match s with
  | EmptyString => EmptyString
  | String c s' => String (f c) (map f s')
  end.

(** [s.upper()] and [s.lower()] on ASCII letters. *)
Definition upper (s : string) : string := map upper_char s.
Definition lower (s : string) : string := map lower_char s.

(** [len(s)] *)
Definition len (s : string) : Z := Z.of_nat (String.length s).

End PyStr.

(* ===================================================================== *)
(** ** Values decoded from JSON                                           *)
(* ===================================================================== *)

(** A Python object as [json.loads] builds it.  A [float] is kept as a
    decimal [m * 10^e]; only its truthiness and [int()] are observed.  A
    [dict] is an association list read through its first binding of a
    key. *)
Inductive pyval : Type :=
  | PyNone
  | PyBool (b : bool)
  | PyInt (n : Z)
  | PyFloat (m e : Z)
  | PyStr (s : string)
  | PyList (l : list pyval)
  | PyDict (d : list (string * pyval)).

Definition pydict := list (string * pyval).

Fixpoint dict_lookup {A : Type} (d : list (string * A)) (k : string) : option A :=
  match d with
  | [] => None
  | (k', v) :: d' => if String.eqb k' k then Some v else dict_lookup d' k
  end.

(** [d[k] = v]: replaces the binding of [k] or appends a new one. *)
Fixpoint dict_set {A : Type} (d : list (string * A)) (k : string) (v : A)
  : list (string * A) :=
  match d with
  | [] => [(k, v)]
  | (k', v') :: d' =>
      if String.eqb k' k then (k, v) :: d' else (k', v') :: dict_set d' k v
  end.

(** [bool(v)] *)
Definition truthy (v : pyval) : bool :=
  match v with
  | PyNone => false
  | PyBool b => b
  | PyInt n => negb (n =? 0)
  | PyFloat m _ => negb (m =? 0)
  | PyStr s => PyStr.truthy s
  | PyList l => match l with [] => false | _ => true end
  | PyDict d => match d with [] => false | _ => true end
  end.

(** [a or b] *)
Definition py_or (a b : pyval) : pyval := if truthy a then a else b.

(** [v is None] *)
Definition is_none (v : pyval) : bool :=
  match v with PyNone => true | _ => false end.

(* ===================================================================== *)
(** ** errors.py                                                          *)
(* ===================================================================== *)

(** The SDK's exception classes, the built-in exceptions a response
    mapping can raise, and transport exceptions other than a timeout.
    [VemorakSdkError msg] is an instance of the base class itself. *)
Inductive exn : Type :=
  | VemorakSdkError (msg : string)
  | VmpHttpError (status : Z) (error : string) (raw_body_text : string)
                 (details : pyval)
  | VmpTimeoutError (msg : string)
  | KeyError (key : string)
  | TypeError
  | AttributeError
  | ValueError
  | OverflowError
  | JSONDecodeError
  | HttpxTimeoutException
  | HttpxError (name : string).

(** The error kinds of the SDK: a validation error is a plain
    [VemorakSdkError]; the other two are its subclasses. *)
Definition is_validation_error (e : exn) : bool :=
  match e with VemorakSdkError _ => true | _ => false end.

Definition is_VmpTimeoutError (e : exn) : bool :=
  match e with VmpTimeoutError _ => true | _ => false end.

Definition is_VmpHttpError (e : exn) : bool :=
  match e with VmpHttpError _ _ _ _ => true | _ => false end.

(** [isinstance(e, VemorakSdkError)] *)
Definition is_sdk_error (e : exn) : bool :=
  match e with
  | VemorakSdkError _ | VmpHttpError _ _ _ _ | VmpTimeoutError _ => true
  | _ => false
  end.

(** [VmpHttpError.__str__] is not needed by the properties below. *)

Inductive outcome (A : Type) : Type :=
  | Return (a : A)
  | Raise (e : exn).
Arguments Return {A} a.
Arguments Raise {A} e.

Definition obind {A B : Type} (m : outcome A) (f : A -> outcome B) : outcome B :=
  match m with
  | Return a => f a
  | Raise e => Raise e
  end.

Declare Scope exc_scope.
Delimit Scope exc_scope with exc.
Notation "x <- m ;; k" := (obind m (fun x => k))
  (at level 61, m at next level, right associativity) : exc_scope.
Notation "m ;;; k" := (obind m (fun _ => k))
  (at level 61, right associativity) : exc_scope.

Fixpoint omap {A B : Type} (f : A -> outcome B) (l : list A) : outcome (list B) :=
  match l with
  | [] => Return []
  | a :: l' =>
      (b <- f a ;; bs <- omap f l' ;; Return (b :: bs))%exc
  end.

(* ===================================================================== *)
(** ** Python [float]                                                     *)
(* ===================================================================== *)

Definition pyfloat : Type := SpecFloat.spec_float.

(** The binary64 number nearest to an integer (ties to even); it is an
    infinity when the integer is out of range. *)
Definition nearest_float (n : Z) : pyfloat :=
  SpecFloat.binary_normalize 53 1024 n 0 false.

(** The conversion of an [int] operand to [float]: [OverflowError] when
    the integer is too large to convert. *)
Definition float_of_int (n : Z) : outcome pyfloat :=
  match nearest_float n with
  | SpecFloat.S754_infinity _ => Raise OverflowError
  | x => Return x
  end.

(** [a + b] and [a > b] on floats. *)
Definition float_add (a b : pyfloat) : pyfloat := SpecFloat.SFadd 53 1024 a b.
Definition float_gt (a b : pyfloat) : bool := SpecFloat.SFltb b a.

(** [ms / 1000.0] for an [int] [ms]: the integer is converted to a
    [float], then divided. *)
Definition ms_to_seconds (ms : Z) : outcome pyfloat :=
  (x <- float_of_int ms ;;
   Return (SpecFloat.SFdiv 53 1024 x (nearest_float 1000)))%exc.

(* ===================================================================== *)
(** ** validate.py                                                        *)
(* ===================================================================== *)

Definition is_hex_or_dash (c : ascii) : bool :=
  let n := nat_of_ascii c in
  ((48 <=? n) && (n <=? 57))%nat || ((97 <=? n) && (n <=? 102))%nat
  || ((65 <=? n) && (n <=? 70))%nat || (n =? 45)%nat.

(** [_UUID_LIKE.match(value)] for [^[0-9a-fA-F-]{16,}$]: without
    [re.MULTILINE], [$] also matches just before a final newline. *)
Definition _UUID_LIKE_match (value : string) : bool :=
  let core :=
    if PyStr.endswith_char value "010"%char then PyStr.drop_last value
    else value in
  PyStr.all is_hex_or_dash core && (16 <=? PyStr.len core).

Definition assert_non_empty (name value : string) : outcome unit :=
  if negb (PyStr.truthy (PyStr.strip value))
  then Raise (VemorakSdkError (name ++ " must be a non-empty string"))
  else Return tt.

Definition assert_tenant_id (tenant_id : string) : outcome unit :=
  (assert_non_empty "tenant_id" tenant_id ;;;
   if PyStr.len tenant_id >? 128
   then Raise (VemorakSdkError "tenant_id must be 1..128 chars")
   else if PyStr.any PyStr.isspace tenant_id
   then Raise (VemorakSdkError "tenant_id must not contain spaces")
   else Return tt)%exc.

Definition assert_scope (scope : string) : outcome unit :=
  (assert_non_empty "scope" scope ;;;
   if PyStr.len scope >? 128
   then Raise (VemorakSdkError "scope must be 1..128 chars")
   else if negb (PyStr.contains ":"%char scope)
   then Raise (VemorakSdkError "scope must contain ':' for namespacing")
   else Return tt)%exc.

Definition assert_scope_prefix (scope_prefix : string) : outcome unit :=
  (assert_non_empty "scope_prefix" scope_prefix ;;;
   if negb (PyStr.endswith_char scope_prefix ":"%char)
   then Raise (VemorakSdkError
                 "scope_prefix must end with ':' (example: 'user:')")
   else Return tt)%exc.

Definition assert_scope_matches_prefix (scope scope_prefix : string)
  : outcome unit :=
  if negb (PyStr.startswith scope scope_prefix)
  then Raise (VemorakSdkError "scope outside key prefix")
  else Return tt.

Definition assert_uuid_like (name value : string) : outcome unit :=
  (assert_non_empty name value ;;;
   if negb (_UUID_LIKE_match value)
   then Raise (VemorakSdkError (name ++ " must look like a UUID"))
   else Return tt)%exc.

(** [limit: int | None]; the [isinstance(limit, int)] test always passes
    on an [int]. *)
Definition assert_limit (limit : option Z) : outcome unit :=
  match limit with
  | None => Return tt
  | Some n =>
      if (n <? 1) || (n >? 500)
      then Raise (VemorakSdkError "limit must be within 1..500")
      else Return tt
  end.

(** A validator applied to a value taken from a [dict]: the
    [isinstance(value, str)] test of [assert_non_empty] comes first in
    each of them. *)
Definition on_str (name : string) (check : string -> outcome unit) (v : pyval)
  : outcome unit :=
  match v with
  | PyStr s => check s
  | _ => Raise (VemorakSdkError (name ++ " must be a non-empty string"))
  end.

(* ===================================================================== *)
(** ** Dynamic operations used by the response mappings                   *)
(* ===================================================================== *)

(** [v[k]] with a [str] key: only a [dict] supports it. *)
Definition subscript (v : pyval) (k : string) : outcome pyval :=
  match v with
  | PyDict d =>
      match dict_lookup d k with
      | Some x => Return x
      | None => Raise (KeyError k)
      end
  | _ => Raise TypeError
  end.

(** [v.get(k)]: only a [dict] has the method. *)
Definition py_get (v : pyval) (k : string) : outcome pyval :=
  match v with
  | PyDict d =>
      match dict_lookup d k with
      | Some x => Return x
      | None => Return PyNone
      end
  | _ => Raise AttributeError
  end.

Fixpoint chars (s : string) : list pyval :=
  match s with
  | EmptyString => []
  | String c s' => PyStr (String c EmptyString) :: chars s'
  end.

(** The items a [for] loop visits: the elements of a [list], the keys of
    a [dict], the characters of a [str]. *)
Definition py_iter (v : pyval) : outcome (list pyval) :=
  match v with
  | PyList l => Return l
  | PyDict d => Return (List.map (fun kv => PyStr (fst kv)) d)
  | PyStr s => Return (chars s)
  | _ => Raise TypeError
  end.

(** [list(v)] *)
Definition py_list (v : pyval) : outcome pyval :=
  (l <- py_iter v ;; Return (PyList l))%exc.

(** [str(v)] is the identity on a [str]; other values are rendered by
    [str_of]. *)
Definition py_str (str_of : pyval -> string) (v : pyval) : pyval :=
  match v with
  | PyStr s => PyStr s
  | _ => PyStr (str_of v)
  end.

(** [int(v)]; parsing a [str] is left to [int_of_str]. *)
Definition py_int (int_of_str : string -> option Z) (v : pyval) : outcome pyval :=
  match v with
  | PyInt n => Return (PyInt n)
  | PyBool b => Return (PyInt (if b then 1 else 0))
  | PyFloat m e =>
      Return (PyInt (if 0 <=? e then m * 10 ^ e else Z.quot m (10 ^ (- e))))
  | PyStr s =>
      match int_of_str s with
      | Some n => Return (PyInt n)
      | None => Raise ValueError
      end
  | _ => Raise TypeError
  end.

(* ===================================================================== *)
(** ** types.py                                                           *)
(* ===================================================================== *)

(** The dataclasses do not check their fields at run time: a field holds
    whatever the mapping stored, so it is a [pyval] unless the mapping
    converts it ([bool(...)], a list comprehension). *)

Record IngestResponse := mkIngestResponse {
  ir_event_id : pyval;
  ir_event_hash_hex : pyval;
  ir_prev_hash_hex : pyval;
  ir_created_at : pyval }.

Record DeleteResponse := mkDeleteResponse {
  dr_delete_event_id : pyval;
  dr_delete_event_hash_hex : pyval;
  dr_receipt_id : pyval;
  dr_receipt_sig_base64 : pyval;
  dr_pubkey_id : pyval;
  dr_pubkey_base64 : pyval;
  dr_pubkey_hex : pyval;
  dr_created_at : pyval }.

Record ProofPathItem := mkProofPathItem {
  pp_sibling_hex : pyval;
  pp_sibling_is_left : bool }.

Record ProofResponse := mkProofResponse {
  pr_event_id : pyval;
  pr_tenant_id : pyval;
  pr_scope : pyval;
  pr_batch_id : pyval;
  pr_leaf_index : pyval;
  pr_leaf_hex : pyval;
  pr_root_hex : pyval;
  pr_path : list ProofPathItem;
  pr_sig_base64 : pyval;
  pr_pubkey_id : pyval;
  pr_pubkey_base64 : pyval;
  pr_pubkey_hex : pyval;
  pr_batch_created_at : pyval }.

Record DeletionReceiptResponse := mkDeletionReceiptResponse {
  rc_receipt_id : pyval;
  rc_tenant_id : pyval;
  rc_scope : pyval;
  rc_delete_event_id : pyval;
  rc_delete_event_hash_hex : pyval;
  rc_sig_base64 : pyval;
  rc_pubkey_id : pyval;
  rc_pubkey_base64 : pyval;
  rc_pubkey_hex : pyval;
  rc_created_at : pyval }.

Record AdminEventItem := mkAdminEventItem {
  ae_id : pyval;
  ae_tenant_id : pyval;
  ae_scope : pyval;
  ae_op : pyval;
  ae_created_at : pyval;
  ae_batch_id : pyval;
  ae_leaf_index : pyval }.

Record AdminListEventsResponse := mkAdminListEventsResponse {
  ale_items : list AdminEventItem }.

Record AdminBatchItem := mkAdminBatchItem {
  ab_id : pyval;
  ab_tenant_id : pyval;
  ab_root_hex : pyval;
  ab_sig_base64 : pyval;
  ab_pubkey_id : pyval;
  ab_pubkey_base64 : pyval;
  ab_pubkey_hex : pyval;
  ab_count : pyval;
  ab_created_at : pyval }.

Record AdminListBatchesResponse := mkAdminListBatchesResponse {
  alb_items : list AdminBatchItem }.

(** [AdminDeletionReceiptItem] has the fields of
    [DeletionReceiptResponse], in the same order. *)
Record AdminDeletionReceiptItem := mkAdminDeletionReceiptItem {
  ad_receipt_id : pyval;
  ad_tenant_id : pyval;
  ad_scope : pyval;
  ad_delete_event_id : pyval;
  ad_delete_event_hash_hex : pyval;
  ad_sig_base64 : pyval;
  ad_pubkey_id : pyval;
  ad_pubkey_base64 : pyval;
  ad_pubkey_hex : pyval;
  ad_created_at : pyval }.

Record AdminListDeletionReceiptsResponse := mkAdminListDeletionReceiptsResponse {
  ald_items : list AdminDeletionReceiptItem }.

Record EventBundleEvent := mkEventBundleEvent {
  ev_id : pyval;
  ev_tenant_id : pyval;
  ev_scope : pyval;
  ev_op : pyval;
  ev_created_at : pyval;
  ev_fields : pyval;
  ev_meta : pyval;
  ev_event_hash_hex : pyval;
  ev_prev_hash_hex : pyval;
  ev_fields_canon : pyval;
  ev_meta_canon : pyval;
  ev_c_fields_hex : pyval;
  ev_batch_id : pyval;
  ev_leaf_index : pyval }.

Record EventBundleRecompute := mkEventBundleRecompute {
  er_recomputed_event_hash_hex : pyval;
  er_matches_stored : bool }.

Record EventBundleResponse := mkEventBundleResponse {
  eb_kind : pyval;
  eb_event : EventBundleEvent;
  eb_proof : ProofResponse;
  eb_recompute : EventBundleRecompute }.

Record DeletionReceiptBundleVerification := mkDeletionReceiptBundleVerification {
  bv_receipt_id : pyval;
  bv_valid : bool }.

Record DeletionReceiptBundleResponse := mkDeletionReceiptBundleResponse {
  db_kind : pyval;
  db_receipt : DeletionReceiptResponse;
  db_verification : DeletionReceiptBundleVerification;
  db_delete_event_bundle : EventBundleResponse }.

Record VerifyBundleResponse := mkVerifyBundleResponse {
  vb_ok : bool;
  vb_checks : pyval }.

Record ProvisionListKeyItem := mkProvisionListKeyItem {
  pk_id : pyval;
  pk_tenant_id : pyval;
  pk_name : pyval;
  pk_key_prefix : pyval;
  pk_scopes : pyval;
  pk_created_at : pyval;
  pk_expires_at : pyval;
  pk_revoked_at : pyval }.

Record ProvisionListKeysResponse := mkProvisionListKeysResponse {
  pl_tenant_id : pyval;
  pl_items : list ProvisionListKeyItem }.

Record VerifyDeletionResponse := mkVerifyDeletionResponse {
  vd_receipt_id : pyval;
  vd_valid : bool;
  vd_tenant_id : pyval;
  vd_scope : pyval;
  vd_delete_event_id : pyval;
  vd_delete_event_hash_hex : pyval;
  vd_pubkey_id : pyval;
  vd_pubkey_base64 : pyval;
  vd_pubkey_hex : pyval;
  vd_created_at : pyval }.

Record WhoAmIResponse := mkWhoAmIResponse {
  wa_tenant_id : pyval;
  wa_key_id : pyval;
  wa_allowed_scopes : pyval;
  wa_scope_prefix : pyval }.

Record AdminStatsResponse := mkAdminStatsResponse {
  events_total : pyval;
  batches_total : pyval;
  receipts_total : pyval }.

Record PubkeyResponse := mkPubkeyResponse {
  pb_pubkey_id : pyval;
  pb_alg : pyval;
  pb_status : pyval;
  pb_pubkey_base64 : pyval;
  pb_pubkey_hex : pyval }.

Record ProvisionCreateKeyResponse := mkProvisionCreateKeyResponse {
  ck_id : pyval;
  ck_tenant_id : pyval;
  ck_name : pyval;
  ck_scopes : pyval;
  ck_scope_prefix : pyval;
  ck_created_at : pyval;
  ck_expires_at : pyval;
  ck_key_prefix : pyval;
  ck_secret : pyval }.

Record ProvisionRevokeKeyResponse := mkProvisionRevokeKeyResponse {
  rk_id : pyval;
  rk_tenant_id : pyval;
  rk_name : pyval;
  rk_key_prefix : pyval;
  rk_scopes : pyval;
  rk_created_at : pyval;
  rk_expires_at : pyval;
  rk_revoked_at : pyval }.

Record WaitForBatchOptions := mkWaitForBatchOptions {
  timeout_ms : Z;
  poll_interval_ms : Z }.

(** [WaitForBatchOptions()] *)
Definition WaitForBatchOptions_default : WaitForBatchOptions :=
  {| timeout_ms := 30000; poll_interval_ms := 800 |}.

(* ===================================================================== *)
(** ** Effects: the HTTP transport, the clock and [time.sleep]            *)
(* ===================================================================== *)

(** A request as [httpx] puts it on the wire. *)
Record Request := mkRequest {
  req_method : string;
  req_base_url : string;
  req_path : string;
  req_params : option pydict;
  req_json : option pyval;
  req_headers : list (string * string) }.

(** What the transport answers: a response with its status code and body
    text, [httpx.TimeoutException], or another transport exception. *)
Inductive transport_result : Type :=
  | Responded (status_code : Z) (text : string)
  | TimedOut
  | TransportFailed (name : string).

Record Response := mkResponse {
  status_code : Z;
  text : string }.

Inductive event : Type :=
  | EvRequest (r : Request)
  | EvTime
  | EvSleep (secs : pyfloat).

(** The world is the trace of effects performed so far, oldest first. *)
Definition World := list event.

Definition is_request (e : event) : bool :=
  match e with EvRequest _ => true | _ => false end.

(** The HTTP requests issued in a trace. *)
Fixpoint requests (w : World) : list Request :=
  match w with
  | [] => []
  | EvRequest r :: w' => r :: requests w'
  | _ :: w' => requests w'
  end.

Definition M (A : Type) : Type := World -> World * outcome A.

Definition ret {A : Type} (a : A) : M A := fun w => (w, Return a).

Definition raise {A : Type} (e : exn) : M A := fun w => (w, Raise e).

Definition lift {A : Type} (o : outcome A) : M A := fun w => (w, o).

Definition mbind {A B : Type} (m : M A) (f : A -> M B) : M B :=
  fun w =>
    match m w with
    | (w', Return a) => f a w'
    | (w', Raise e) => (w', Raise e)
    end.

(** [try: m except <class matched by handles>: handler] *)
Definition try_except {A : Type} (m : M A) (handles : exn -> bool)
  (handler : exn -> M A) : M A :=
  fun w =>
    match m w with
    | (w', Raise e) => if handles e then handler e w' else (w', Raise e)
    | r => r
    end.

Declare Scope eff_scope.
Delimit Scope eff_scope with eff.
Notation "x <- m ;; k" := (mbind m (fun x => k))
  (at level 61, m at next level, right associativity) : eff_scope.
Notation "m ;;; k" := (mbind m (fun _ => k))
  (at level 61, right associativity) : eff_scope.

(** *** The [httpx] client *)

(** Header names are case-insensitive. *)
Definition same_header (a b : string) : bool :=
  String.eqb (PyStr.lower a) (PyStr.lower b).

Fixpoint header_get (hs : list (string * string)) (k : string) : option string :=
  match hs with
  | [] => None
  | (k', v) :: hs' => if same_header k' k then Some v else header_get hs' k
  end.

Fixpoint header_set (hs : list (string * string)) (k v : string)
  : list (string * string) :=
  match hs with
  | [] => [(k, v)]
  | (k', v') :: hs' =>
      if same_header k' k then (k, v) :: hs' else (k', v') :: header_set hs' k v
  end.

(** [httpx.Client(base_url=..., timeout=..., headers=...)]: the headers
    given here are sent with every request of the client. *)
Record httpx_Client := mkHttpxClient {
  hc_base_url : string;
  hc_timeout : pyfloat;
  hc_headers : list (string * string) }.

(** [httpx] builds the headers of a request from the client's headers,
    updated with the headers passed to [request]: a per-request header
    replaces the client's header of the same name, and the client's other
    headers are kept. *)
Definition merge_headers (client_headers request_headers : list (string * string))
  : list (string * string) :=
  fold_left (fun acc kv => header_set acc (fst kv) (snd kv))
            request_headers client_headers.

Section Environment.

(** The environment: the transport's answer to a request and the reading
    of [time.time()], each a function of the trace so far; [json.loads];
    [int()] on a [str]; and [str()] on a value that is not a [str]. *)
Variable server : World -> Request -> transport_result.
Variable clock : World -> pyfloat.
Variable json_loads : string -> option pyval.
Variable int_of_str : string -> option Z.
Variable str_of : pyval -> string.

(** What [time.sleep(secs)] raises instead of sleeping, if anything (a
    negative or too large [secs]); and what the construction of
    [httpx.Timeout(timeout)] and of
    [httpx.Client(base_url=..., timeout=..., headers=...)] raises, if
    anything. *)
Variable sleep_error : pyfloat -> option exn.
Variable httpx_init_error :
  string -> pyfloat -> list (string * string) -> option exn.

(** [client.request(method, path, params=..., json=..., headers=...)] *)
Definition httpx_request (hc : httpx_Client) (method path : string)
  (params : option pydict) (json : option pyval)
  (headers : list (string * string)) : M Response :=
  fun w =>
    let r := mkRequest method (hc_base_url hc) path params json
                       (merge_headers (hc_headers hc) headers) in
    let w' := (w ++ [EvRequest r])%list in
    match server w r with
    | Responded st body => (w', Return (mkResponse st body))
    | TimedOut => (w', Raise HttpxTimeoutException)
    | TransportFailed name => (w', Raise (HttpxError name))
    end.

(** [resp.json()] *)
Definition Response_json (resp : Response) : outcome pyval :=
  match json_loads (text resp) with
  | Some v => Return v
  | None => Raise JSONDecodeError
  end.

(** [time.time()] *)
Definition time_time (w : World) : World * pyfloat :=
  ((w ++ [EvTime])%list, clock w).

(** [time.sleep(secs)]: raises without sleeping, or sleeps. *)
Definition time_sleep (secs : pyfloat) : M unit :=
  fun w =>
    match sleep_error secs with
    | Some e => (w, Raise e)
    | None => ((w ++ [EvSleep secs])%list, Return tt)
    end.

(** [httpx.Client(base_url=..., timeout=httpx.Timeout(timeout),
    headers=...)] *)
Definition httpx_Client_new (base_url : string) (timeout : pyfloat)
  (headers : list (string * string)) : outcome httpx_Client :=
  match httpx_init_error base_url timeout headers with
  | Some e => Raise e
  | None => Return (mkHttpxClient base_url timeout headers)
  end.

(* ===================================================================== *)
(** ** client.py: response classification                                 *)
(* ===================================================================== *)

(** The non-2xx branch shared by both [_request_json]: the message and
    the details of the [VmpHttpError] raised for [resp]. *)
Definition http_error_of (resp : Response) : exn :=
  let text := text resp in
  let err_str :=
    if PyStr.truthy (PyStr.strip text) then PyStr.strip text
    else "unknown error" in
  let '(err_str, details) :=
    match Response_json resp with
    | Return (PyDict parsed) =>
        let err_str :=
          match dict_lookup parsed "error" with
          | Some (PyStr e) => e
          | _ => err_str
          end in
        let details :=
          match dict_lookup parsed "details" with
          | Some d => d
          | None => PyNone
          end in
        (err_str, details)
    | _ => (err_str, PyNone)
    end in
  VmpHttpError (status_code resp) err_str text details.

(** Everything in [_request_json] after the response has arrived; the
    two clients have the same text there. *)
Definition classify_response (resp : Response) : outcome pyval :=
  if (status_code resp <? 200) || (status_code resp >=? 300)
  then Raise (http_error_of resp)
  else if negb (PyStr.truthy (PyStr.strip (text resp)))
  then Return (PyDict [])
  else Response_json resp.

(* ===================================================================== *)
(** ** client.py: [VmpClient]                                             *)
(* ===================================================================== *)

Record VmpClient := mkVmpClient {
  _base_url : string;
  _api_key : string;
  _tenant_guardrail : option string;
  _scope_prefix_guardrail : option string;
  _timeout : pyfloat;
  _client : httpx_Client }.

(** [VmpClient.__init__] *)
Definition VmpClient_init (base_url api_key : string)
  (tenant_id : option string) (timeout_ms : Z) (scope_prefix : option string)
  : outcome VmpClient :=
  (assert_non_empty "base_url" base_url ;;;
   assert_non_empty "api_key" api_key ;;;
   match scope_prefix with
   | Some p => assert_scope_prefix p
   | None => Return tt
   end ;;;
   let base := PyStr.rstrip_slash base_url in
   timeout <- ms_to_seconds timeout_ms ;;
   client <- httpx_Client_new base timeout
               [("Accept", "application/json");
                ("Authorization", "Bearer " ++ api_key)] ;;
   Return (mkVmpClient base api_key tenant_id scope_prefix timeout
             client))%exc.

(** [self._tenant_guardrail and tenant_id != self._tenant_guardrail] *)
Definition tenant_mismatch (guardrail : option string) (tenant_id : string)
  : bool :=
  match guardrail with
  | None => false
  | Some g => PyStr.truthy g && negb (String.eqb tenant_id g)
  end.

Definition guardrail_text (guardrail : option string) : string :=
  match guardrail with Some g => g | None => "None" end.

Definition _enforce_tenant (self : VmpClient) (tenant_id : string)
  : outcome unit :=
  (assert_tenant_id tenant_id ;;;
   if tenant_mismatch (_tenant_guardrail self) tenant_id
   then Raise (VemorakSdkError
                 ("tenant_id mismatch: client is configured for "
                  ++ guardrail_text (_tenant_guardrail self)
                  ++ " but request used " ++ tenant_id))
   else Return tt)%exc.

Definition _enforce_scope_prefix (self : VmpClient) (scope : string)
  : outcome unit :=
  match _scope_prefix_guardrail self with
  | None => Return tt
  | Some p => assert_scope_matches_prefix scope p
  end.

(** Truthiness of an optional [str] argument. *)
Definition opt_truthy (o : option string) : bool :=
  match o with Some s => PyStr.truthy s | None => false end.

Definition _request_json (self : VmpClient) (method path : string)
  (query : option pydict) (body : option pyval)
  (idempotency_key : option string) (auth : bool) : M pyval :=
  let headers := [("Accept", "application/json")] in
  let headers :=
    if auth then dict_set headers "Authorization" ("Bearer " ++ _api_key self)
    else headers in
  let headers :=
    match idempotency_key with
    | Some k =>
        if PyStr.truthy k then dict_set headers "x-idempotency-key" k
        else headers
    | None => headers
    end in
  (resp <- try_except
             (httpx_request (_client self) method path query
                (if negb (String.eqb (PyStr.upper method) "GET") then body
                 else None)
                headers)
             (fun e => match e with HttpxTimeoutException => true | _ => false end)
             (fun _ => raise (VmpTimeoutError "VMP request timed out")) ;;
   lift (classify_response resp))%eff.

(** [meta or {}] *)
Definition or_empty_dict (meta : option pydict) : pyval :=
  match meta with
  | Some (kv :: d) => PyDict (kv :: d)
  | _ => PyDict []
  end.

Definition ingest (self : VmpClient) (tenant_id scope : string)
  (fields : pydict) (meta : option pydict) (op : string)
  (idempotency_key : option string) : M IngestResponse :=
  (lift (_enforce_tenant self tenant_id) ;;;
   lift (assert_scope scope) ;;;
   lift (_enforce_scope_prefix self scope) ;;;
   let payload :=
     PyDict [("tenant_id", PyStr tenant_id); ("scope", PyStr scope);
             ("op", PyStr op); ("fields", PyDict fields);
             ("meta", or_empty_dict meta)] in
   data <- _request_json self "POST" "/v1/ingest" None (Some payload)
             idempotency_key true ;;
   lift (a <- subscript data "event_id" ;;
         b <- subscript data "event_hash_hex" ;;
         c <- py_get data "prev_hash_hex" ;;
         d <- subscript data "created_at" ;;
         Return (mkIngestResponse a b c d))%exc)%eff.

Definition delete (self : VmpClient) (tenant_id scope target_event_id : string)
  (meta : option pydict) : M DeleteResponse :=
  (lift (_enforce_tenant self tenant_id) ;;;
   lift (assert_scope scope) ;;;
   lift (_enforce_scope_prefix self scope) ;;;
   lift (assert_uuid_like "target_event_id" target_event_id) ;;;
   let payload :=
     PyDict [("tenant_id", PyStr tenant_id); ("scope", PyStr scope);
             ("target_event_id", PyStr target_event_id);
             ("meta", or_empty_dict meta)] in
   data <- _request_json self "POST" "/v1/delete" None (Some payload)
             None true ;;
   lift (a <- subscript data "delete_event_id" ;;
         b <- subscript data "delete_event_hash_hex" ;;
         c <- subscript data "receipt_id" ;;
         d <- subscript data "receipt_sig_base64" ;;
         e <- subscript data "pubkey_id" ;;
         f <- subscript data "pubkey_base64" ;;
         g <- subscript data "pubkey_hex" ;;
         h <- subscript data "created_at" ;;
         Return (mkDeleteResponse a b c d e f g h))%exc)%eff.

(** [[ProofPathItem(sibling_hex=p["sibling_hex"],
      sibling_is_left=bool(p["sibling_is_left"])) for p in raw_path]] *)
Definition parse_path_items (raw_path : pyval) : outcome (list ProofPathItem) :=
  (items <- py_iter raw_path ;;
   omap (fun item =>
           h <- subscript item "sibling_hex" ;;
           l <- subscript item "sibling_is_left" ;;
           Return (mkProofPathItem h (truthy l))) items)%exc.

Definition get_proof (self : VmpClient) (event_id : string) : M ProofResponse :=
  (lift (assert_uuid_like "event_id" event_id) ;;;
   data <- _request_json self "GET" ("/v1/proof/" ++ event_id) None None
             None true ;;
   lift (p <- py_get data "path" ;;
         let raw_path := py_or p (PyList []) in
         path_items <- parse_path_items raw_path ;;
         a <- subscript data "event_id" ;;
         b <- subscript data "tenant_id" ;;
         c <- subscript data "scope" ;;
         d <- py_get data "batch_id" ;;
         e <- py_get data "leaf_index" ;;
         f <- py_get data "leaf_hex" ;;
         g <- py_get data "root_hex" ;;
         h <- py_get data "sig_base64" ;;
         i <- py_get data "pubkey_id" ;;
         j <- py_get data "pubkey_base64" ;;
         k <- py_get data "pubkey_hex" ;;
         l <- py_get data "batch_created_at" ;;
         Return (mkProofResponse a b c d e f g path_items h i j k l))%exc)%eff.

(** The [while True] loop of [wait_for_batch]; [fuel] bounds the number
    of iterations and [None] means that the bound was reached. *)
Fixpoint wait_for_batch_loop (fuel : nat) (self : VmpClient)
  (event_id : string) (options : WaitForBatchOptions) (deadline : pyfloat)
  (w : World) : option (World * outcome ProofResponse) :=
  match fuel with
  | O => None
  | S fuel' =>
      match get_proof self event_id w with
      | (w1, Raise e) => Some (w1, Raise e)
      | (w1, Return proof) =>
          if negb (is_none (pr_batch_id proof)) then Some (w1, Return proof)
          else
            let (w2, now) := time_time w1 in
            if float_gt now deadline
            then Some (w2, Raise (VemorakSdkError
                                    ("wait_for_batch timed out for event_id="
                                     ++ event_id)))
            else
              match ms_to_seconds (poll_interval_ms options) with
              | Raise e => Some (w2, Raise e)
              | Return secs =>
                  match time_sleep secs w2 with
                  | (w3, Raise e) => Some (w3, Raise e)
                  | (w3, Return _) =>
                      wait_for_batch_loop fuel' self event_id options
                        deadline w3
                  end
              end
      end
  end.

Definition wait_for_batch (fuel : nat) (self : VmpClient) (event_id : string)
  (opts : option WaitForBatchOptions) (w : World)
  : option (World * outcome ProofResponse) :=
  let options :=
    match opts with Some o => o | None => WaitForBatchOptions_default end in
  let (w0, now) := time_time w in
  match ms_to_seconds (timeout_ms options) with
  | Raise e => Some (w0, Raise e)
  | Return secs =>
      let deadline := float_add now secs in
      wait_for_batch_loop fuel self event_id options deadline w0
  end.

(** *** Bundles *)

(** [get_event_bundle], client.py lines 318-375: the mapping is written
    out in the body of the method. *)
Definition get_event_bundle (self : VmpClient) (event_id : string)
  : M EventBundleResponse :=
  (lift (assert_uuid_like "event_id" event_id) ;;;
   data <- _request_json self "GET" ("/v1/events/" ++ event_id ++ "/bundle")
             None None None true ;;
   lift
  (ev <- subscript data "event" ;;
     proof <- subscript data "proof" ;;
     recompute <- subscript data "recompute" ;;
     pp <- py_get proof "path" ;;
     let proof_path := py_or pp (PyList []) in
     proof_path_items <- parse_path_items proof_path ;;
     proof_obj <-
       (a <- subscript proof "event_id" ;;
        b <- subscript proof "tenant_id" ;;
        c <- subscript proof "scope" ;;
        d <- py_get proof "batch_id" ;;
        e <- py_get proof "leaf_index" ;;
        f <- py_get proof "leaf_hex" ;;
        g <- py_get proof "root_hex" ;;
        h <- py_get proof "sig_base64" ;;
        i <- py_get proof "pubkey_id" ;;
        j <- py_get proof "pubkey_base64" ;;
        k <- py_get proof "pubkey_hex" ;;
        l <- py_get proof "batch_created_at" ;;
        Return (mkProofResponse a b c d e f g proof_path_items h i j k l)) ;;
     event_obj <-
       (a <- subscript ev "id" ;;
        b <- subscript ev "tenant_id" ;;
        c <- subscript ev "scope" ;;
        d <- subscript ev "op" ;;
        e <- subscript ev "created_at" ;;
        f <- py_get ev "fields" ;;
        g <- py_get ev "meta" ;;
        h <- subscript ev "event_hash_hex" ;;
        i <- py_get ev "prev_hash_hex" ;;
        j <- subscript ev "fields_canon" ;;
        k <- subscript ev "meta_canon" ;;
        l <- subscript ev "c_fields_hex" ;;
        m <- py_get ev "batch_id" ;;
        n <- py_get ev "leaf_index" ;;
        Return (mkEventBundleEvent a b c d e (py_or f (PyDict []))
                  (py_or g (PyDict [])) h i j k l m n)) ;;
     recompute_obj <-
       (a <- subscript recompute "recomputed_event_hash_hex" ;;
        b <- subscript recompute "matches_stored" ;;
        Return (mkEventBundleRecompute a (truthy b))) ;;
     kind <- subscript data "kind" ;;
     Return (mkEventBundleResponse kind event_obj proof_obj recompute_obj))%exc)%eff.

(** [_parse_event_bundle_from_dict], client.py lines 414-468. *)
Definition _parse_event_bundle_from_dict (data : pyval)
  : outcome EventBundleResponse :=
  (ev <- subscript data "event" ;;
   proof <- subscript data "proof" ;;
   recompute <- subscript data "recompute" ;;
   pp <- py_get proof "path" ;;
   let proof_path := py_or pp (PyList []) in
   proof_path_items <- parse_path_items proof_path ;;
   proof_obj <-
     (a <- subscript proof "event_id" ;;
      b <- subscript proof "tenant_id" ;;
      c <- subscript proof "scope" ;;
      d <- py_get proof "batch_id" ;;
      e <- py_get proof "leaf_index" ;;
      f <- py_get proof "leaf_hex" ;;
      g <- py_get proof "root_hex" ;;
      h <- py_get proof "sig_base64" ;;
      i <- py_get proof "pubkey_id" ;;
      j <- py_get proof "pubkey_base64" ;;
      k <- py_get proof "pubkey_hex" ;;
      l <- py_get proof "batch_created_at" ;;
      Return (mkProofResponse a b c d e f g proof_path_items h i j k l)) ;;
   event_obj <-
     (a <- subscript ev "id" ;;
      b <- subscript ev "tenant_id" ;;
      c <- subscript ev "scope" ;;
      d <- subscript ev "op" ;;
      e <- subscript ev "created_at" ;;
      f <- py_get ev "fields" ;;
      g <- py_get ev "meta" ;;
      h <- subscript ev "event_hash_hex" ;;
      i <- py_get ev "prev_hash_hex" ;;
      j <- subscript ev "fields_canon" ;;
      k <- subscript ev "meta_canon" ;;
      l <- subscript ev "c_fields_hex" ;;
      m <- py_get ev "batch_id" ;;
      n <- py_get ev "leaf_index" ;;
      Return (mkEventBundleEvent a b c d e (py_or f (PyDict []))
                (py_or g (PyDict [])) h i j k l m n)) ;;
   recompute_obj <-
     (a <- subscript recompute "recomputed_event_hash_hex" ;;
      b <- subscript recompute "matches_stored" ;;
      Return (mkEventBundleRecompute a (truthy b))) ;;
   kind <- subscript data "kind" ;;
   Return (mkEventBundleResponse kind event_obj proof_obj recompute_obj))%exc.

Definition get_deletion_receipt_bundle (self : VmpClient) (receipt_id : string)
  : M DeletionReceiptBundleResponse :=
  (lift (assert_uuid_like "receipt_id" receipt_id) ;;;
   data <- _request_json self "GET"
             ("/v1/deletion-receipts/" ++ receipt_id ++ "/bundle")
             None None None true ;;
   lift
     (receipt <- subscript data "receipt" ;;
      ver <- subscript data "verification" ;;
      delete_event_bundle <- subscript data "delete_event_bundle" ;;
      receipt_obj <-
        (a <- subscript receipt "receipt_id" ;;
         b <- subscript receipt "tenant_id" ;;
         c <- subscript receipt "scope" ;;
         d <- subscript receipt "delete_event_id" ;;
         e <- subscript receipt "delete_event_hash_hex" ;;
         f <- subscript receipt "sig_base64" ;;
         g <- subscript receipt "pubkey_id" ;;
         h <- subscript receipt "pubkey_base64" ;;
         i <- subscript receipt "pubkey_hex" ;;
         j <- subscript receipt "created_at" ;;
         Return (mkDeletionReceiptResponse a b c d e f g h i j)) ;;
      ver_obj <-
        (a <- subscript ver "receipt_id" ;;
         b <- subscript ver "valid" ;;
         Return (mkDeletionReceiptBundleVerification a (truthy b))) ;;
      bundle_obj <- _parse_event_bundle_from_dict delete_event_bundle ;;
      kind <- subscript data "kind" ;;
      Return (mkDeletionReceiptBundleResponse kind receipt_obj ver_obj
                bundle_obj))%exc)%eff.

(** *** Offline verify endpoints *)

Definition verify_event_bundle_offline (self : VmpClient) (bundle : pyval)
  : M VerifyBundleResponse :=
  (data <- _request_json self "POST" "/v1/verify/bundle" None (Some bundle)
             None false ;;
   lift (ok <- py_get data "ok" ;;
         checks <- py_get data "checks" ;;
         Return (mkVerifyBundleResponse (truthy ok)
                   (py_or checks (PyDict []))))%exc)%eff.

Definition verify_deletion_bundle_offline (self : VmpClient) (bundle : pyval)
  : M VerifyBundleResponse :=
  (data <- _request_json self "POST" "/v1/verify/deletion-bundle" None
             (Some bundle) None false ;;
   lift (ok <- py_get data "ok" ;;
         checks <- py_get data "checks" ;;
         Return (mkVerifyBundleResponse (truthy ok)
                   (py_or checks (PyDict []))))%exc)%eff.

(** *** Admin endpoints *)

(** [if scope is not None: query["scope"] = scope] and the same for
    [limit]. *)
Definition query_add_scope (query : pydict) (scope : option string) : pydict :=
  match scope with Some s => dict_set query "scope" (PyStr s) | None => query end.

Definition query_add_limit (query : pydict) (limit : option Z) : pydict :=
  match limit with Some n => dict_set query "limit" (PyInt n) | None => query end.

(** [data.get("items") or []], then the list comprehension over it. *)
Definition map_items {A : Type} (data : pyval) (f : pyval -> outcome A)
  : outcome (list A) :=
  (raw <- py_get data "items" ;;
   items <- py_iter (py_or raw (PyList [])) ;;
   omap f items)%exc.

Definition admin_list_events (self : VmpClient) (tenant_id : string)
  (scope : option string) (limit : option Z) : M AdminListEventsResponse :=
  (lift (_enforce_tenant self tenant_id) ;;;
   lift (match scope with
         | Some s => (assert_scope s ;;; _enforce_scope_prefix self s)%exc
         | None => Return tt
         end) ;;;
   lift (assert_limit limit) ;;;
   let query := [("tenant_id", PyStr tenant_id)] in
   let query := query_add_scope query scope in
   let query := query_add_limit query limit in
   data <- _request_json self "GET" "/v1/admin/events" (Some query) None
             None true ;;
   lift (items <- map_items data (fun item =>
           a <- subscript item "id" ;;
           b <- subscript item "tenant_id" ;;
           c <- subscript item "scope" ;;
           d <- subscript item "op" ;;
           e <- subscript item "created_at" ;;
           f <- py_get item "batch_id" ;;
           g <- py_get item "leaf_index" ;;
           Return (mkAdminEventItem a b c d e f g)) ;;
         Return (mkAdminListEventsResponse items))%exc)%eff.

(** The inline check of [admin_list_batches],
    [admin_list_deletion_receipts] and [list_api_keys]:
    [not isinstance(limit, int) or limit < 1]. *)
Definition check_positive_limit (limit : option Z) : outcome unit :=
  match limit with
  | None => Return tt
  | Some n =>
      if n <? 1 then Raise (VemorakSdkError "limit must be a positive integer")
      else Return tt
  end.

Definition admin_list_batches (self : VmpClient) (tenant_id : string)
  (limit : option Z) : M AdminListBatchesResponse :=
  (lift (_enforce_tenant self tenant_id) ;;;
   let query := [("tenant_id", PyStr tenant_id)] in
   lift (check_positive_limit limit) ;;;
   let query := query_add_limit query limit in
   data <- _request_json self "GET" "/v1/admin/batches" (Some query) None
             None true ;;
   lift (items <- map_items data (fun item =>
           a <- subscript item "id" ;;
           b <- subscript item "tenant_id" ;;
           c <- subscript item "root_hex" ;;
           d <- py_get item "sig_base64" ;;
           e <- py_get item "pubkey_id" ;;
           f <- py_get item "pubkey_base64" ;;
           g <- py_get item "pubkey_hex" ;;
           h <- subscript item "count" ;;
           h' <- py_int int_of_str h ;;
           i <- subscript item "created_at" ;;
           Return (mkAdminBatchItem a b c d e f g h' i)) ;;
         Return (mkAdminListBatchesResponse items))%exc)%eff.

Definition admin_list_deletion_receipts (self : VmpClient) (tenant_id : string)
  (scope : option string) (limit : option Z)
  : M AdminListDeletionReceiptsResponse :=
  (lift (_enforce_tenant self tenant_id) ;;;
   lift (match scope with
         | Some s => (assert_scope s ;;; _enforce_scope_prefix self s)%exc
         | None => Return tt
         end) ;;;
   let query := [("tenant_id", PyStr tenant_id)] in
   let query := query_add_scope query scope in
   lift (check_positive_limit limit) ;;;
   let query := query_add_limit query limit in
   data <- _request_json self "GET" "/v1/admin/deletion-receipts" (Some query)
             None None true ;;
   lift (items <- map_items data (fun item =>
           a <- subscript item "receipt_id" ;;
           b <- subscript item "tenant_id" ;;
           c <- subscript item "scope" ;;
           d <- subscript item "delete_event_id" ;;
           e <- subscript item "delete_event_hash_hex" ;;
           f <- subscript item "sig_base64" ;;
           g <- subscript item "pubkey_id" ;;
           h <- subscript item "pubkey_base64" ;;
           i <- subscript item "pubkey_hex" ;;
           j <- subscript item "created_at" ;;
           Return (mkAdminDeletionReceiptItem a b c d e f g h i j)) ;;
         Return (mkAdminListDeletionReceiptsResponse items))%exc)%eff.

Definition admin_stats (self : VmpClient) : M AdminStatsResponse :=
  (data <- _request_json self "GET" "/v1/admin/stats" None None None true ;;
   lift (a <- subscript data "events_total" ;;
         a' <- py_int int_of_str a ;;
         b <- subscript data "batches_total" ;;
         b' <- py_int int_of_str b ;;
         c <- subscript data "receipts_total" ;;
         c' <- py_int int_of_str c ;;
         Return (mkAdminStatsResponse a' b' c'))%exc)%eff.

Definition get_pubkey (self : VmpClient) (pubkey_id : string)
  : M PubkeyResponse :=
  (lift (assert_non_empty "pubkey_id" pubkey_id) ;;;
   data <- _request_json self "GET" ("/v1/pubkeys/" ++ pubkey_id) None None
             None true ;;
   lift (a <- subscript data "pubkey_id" ;;
         b <- subscript data "alg" ;;
         c <- subscript data "status" ;;
         d <- subscript data "pubkey_base64" ;;
         e <- subscript data "pubkey_hex" ;;
         Return (mkPubkeyResponse a b c d e))%exc)%eff.

(** *** Introspection and receipts *)

Definition whoami (self : VmpClient) : M WhoAmIResponse :=
  (data <- _request_json self "GET" "/v1/whoami" None None None true ;;
   lift (a <- subscript data "tenant_id" ;;
         b <- subscript data "key_id" ;;
         c <- py_get data "allowed_scopes" ;;
         c' <- py_list (py_or c (PyList [])) ;;
         d <- py_get data "scope_prefix" ;;
         Return (mkWhoAmIResponse a (py_str str_of b) c' d))%exc)%eff.

Definition get_deletion_receipt (self : VmpClient) (receipt_id : string)
  : M DeletionReceiptResponse :=
  (lift (assert_uuid_like "receipt_id" receipt_id) ;;;
   data <- _request_json self "GET" ("/v1/deletion-receipts/" ++ receipt_id)
             None None None true ;;
   lift (a <- subscript data "receipt_id" ;;
         b <- subscript data "tenant_id" ;;
         c <- subscript data "scope" ;;
         d <- subscript data "delete_event_id" ;;
         e <- subscript data "delete_event_hash_hex" ;;
         f <- subscript data "sig_base64" ;;
         g <- subscript data "pubkey_id" ;;
         h <- subscript data "pubkey_base64" ;;
         i <- subscript data "pubkey_hex" ;;
         j <- subscript data "created_at" ;;
         Return (mkDeletionReceiptResponse a b c d e f g h i j))%exc)%eff.

Definition verify_deletion (self : VmpClient) (receipt_id : string)
  : M VerifyDeletionResponse :=
  (lift (assert_uuid_like "receipt_id" receipt_id) ;;;
   data <- _request_json self "GET" ("/v1/verify-deletion/" ++ receipt_id)
             None None None true ;;
   lift (a <- subscript data "receipt_id" ;;
         b <- subscript data "valid" ;;
         c <- subscript data "tenant_id" ;;
         d <- subscript data "scope" ;;
         e <- subscript data "delete_event_id" ;;
         f <- subscript data "delete_event_hash_hex" ;;
         g <- subscript data "pubkey_id" ;;
         h <- subscript data "pubkey_base64" ;;
         i <- subscript data "pubkey_hex" ;;
         j <- subscript data "created_at" ;;
         Return (mkVerifyDeletionResponse a (truthy b) c d e f g h i j))%exc)%eff.

(* ===================================================================== *)
(** ** client.py: [ProvisioningClient]                                    *)
(* ===================================================================== *)

Record ProvisioningClient := mkProvisioningClient {
  _prov_base_url : string;
  _token : string;
  _prov_timeout : pyfloat;
  _prov_client : httpx_Client }.

(** [ProvisioningClient.__init__] *)
Definition ProvisioningClient_init (base_url provision_token : string)
  (timeout_ms : Z) : outcome ProvisioningClient :=
  (assert_non_empty "base_url" base_url ;;;
   assert_non_empty "provision_token" provision_token ;;;
   let base := PyStr.rstrip_slash base_url in
   timeout <- ms_to_seconds timeout_ms ;;
   client <- httpx_Client_new base timeout
               [("Accept", "application/json");
                ("Authorization", "Bearer " ++ provision_token)] ;;
   Return (mkProvisioningClient base provision_token timeout client))%exc.

(** [ProvisioningClient._request_json] *)
Definition Provisioning_request_json (self : ProvisioningClient) (method path : string)
  (query : option pydict) (body : option pyval) : M pyval :=
  (resp <- try_except
             (httpx_request (_prov_client self) method path query
                (if negb (String.eqb method "GET") then body else None)
                [])
             (fun e => match e with HttpxTimeoutException => true | _ => false end)
             (fun _ => raise (VmpTimeoutError "VMP request timed out")) ;;
   lift (classify_response resp))%eff.

Definition list_api_keys (self : ProvisioningClient) (tenant_id : string)
  (limit : option Z) : M ProvisionListKeysResponse :=
  (lift (assert_tenant_id tenant_id) ;;;
   lift (check_positive_limit limit) ;;;
   let query := [("tenant_id", PyStr tenant_id)] in
   let query := query_add_limit query limit in
   data <- Provisioning_request_json self "GET" "/v1/admin/api-keys"
             (Some query) None ;;
   lift (items <- map_items data (fun i =>
           a <- subscript i "id" ;;
           b <- subscript i "tenant_id" ;;
           c <- subscript i "name" ;;
           d <- subscript i "key_prefix" ;;
           e <- py_get i "scopes" ;;
           e' <- py_list (py_or e (PyList [])) ;;
           f <- subscript i "created_at" ;;
           g <- py_get i "expires_at" ;;
           h <- py_get i "revoked_at" ;;
           Return (mkProvisionListKeyItem a b c d e' f g h)) ;;
         t <- subscript data "tenant_id" ;;
         Return (mkProvisionListKeysResponse t items))%exc)%eff.

(** [payload] is the [dict] the caller passes; its values are not typed. *)
Definition create_api_key (self : ProvisioningClient) (payload : pydict)
  : M ProvisionCreateKeyResponse :=
  (t <- lift (subscript (PyDict payload) "tenant_id") ;;
   lift (on_str "tenant_id" assert_tenant_id t) ;;;
   lift (match dict_lookup payload "scope_prefix" with
         | Some PyNone | None => Return tt
         | Some p => on_str "scope_prefix" assert_scope_prefix p
         end) ;;;
   data <- Provisioning_request_json self "POST" "/v1/admin/api-keys" None
             (Some (PyDict payload)) ;;
   lift (a <- subscript data "id" ;;
         b <- subscript data "tenant_id" ;;
         c <- subscript data "name" ;;
         d <- py_get data "scopes" ;;
         d' <- py_list (py_or d (PyList [])) ;;
         e <- py_get data "scope_prefix" ;;
         f <- subscript data "created_at" ;;
         g <- py_get data "expires_at" ;;
         h <- subscript data "key_prefix" ;;
         i <- subscript data "secret" ;;
         Return (mkProvisionCreateKeyResponse a b c d' e f g h i))%exc)%eff.

Definition revoke_api_key (self : ProvisioningClient) (key_id : string)
  : M ProvisionRevokeKeyResponse :=
  (lift (assert_uuid_like "id" key_id) ;;;
   data <- Provisioning_request_json self "POST" "/v1/admin/api-keys/revoke"
             None (Some (PyDict [("id", PyStr key_id)])) ;;
   lift (a <- subscript data "id" ;;
         b <- subscript data "tenant_id" ;;
         c <- subscript data "name" ;;
         d <- subscript data "key_prefix" ;;
         e <- py_get data "scopes" ;;
         e' <- py_list (py_or e (PyList [])) ;;
         f <- subscript data "created_at" ;;
         g <- py_get data "expires_at" ;;
         h <- subscript data "revoked_at" ;;
         Return (mkProvisionRevokeKeyResponse a b c d e' f g h))%exc)%eff.

End Environment.

(* ===================================================================== *)
(** ** Observations on a call                                             *)
(* ===================================================================== *)

(** The call raises a validation error (a plain [VemorakSdkError]) and
    leaves the trace as it found it: no request was issued, the clock was
    not read and nothing slept. *)
Definition rejected_before_network {A : Type} (m : M A) : Prop :=
  forall w, exists msg, m w = (w, Raise (VemorakSdkError msg)).

(** A validator either passes or raises a validation error. *)
Definition checks (o : outcome unit) : Prop :=
  o = Return tt \/ exists msg, o = Raise (VemorakSdkError msg).

(** What [_request_json] makes of the transport's answer. *)
Definition answer (json_loads : string -> option pyval) (a : transport_result)
  : outcome pyval :=
  match a with
  | Responded st body => classify_response json_loads (mkResponse st body)
  | TimedOut => Raise (VmpTimeoutError "VMP request timed out")
  | TransportFailed name => Raise (HttpxError name)
  end.

(** The message the error contract falls back to: the trimmed body, or
    [unknown error] when nothing is left of it. *)
Definition fallback_message (body : string) : string :=
  match PyStr.strip body with
  | EmptyString => "unknown error"
  | trimmed => trimmed
  end.

(** The call issues exactly the request [r] from the world [w]. *)
Definition issues {A : Type} (m : M A) (w : World) (r : Request) : Prop :=
  fst (m w) = (w ++ [EvRequest r])%list.

(** The call is rejected by validation and leaves the trace as it found
    it, or it adds exactly one request to the trace and nothing else. *)
Definition one_request_or_rejected {A : Type} (m : M A) : Prop :=
  forall w,
    (exists msg, m w = (w, Raise (VemorakSdkError msg))) \/
    (exists r, fst (m w) = (w ++ [EvRequest r])%list).

(** Whatever [_request_json] raises for the answer to the request of the
    call, the call raises. *)
Definition propagates {A : Type}
  (server : World -> Request -> transport_result)
  (json_loads : string -> option pyval) (m : M A) : Prop :=
  forall w r e,
    issues m w r ->
    answer json_loads (server w r) = Raise e ->
    snd (m w) = Raise e.

(** The shape every endpoint method has: local checks that raise
    validation errors, then one request whose answer is decoded. *)
Definition call_shape {A : Type}
  (server : World -> Request -> transport_result)
  (json_loads : string -> option pyval) (m : M A) : Prop :=
  forall w,
    (exists msg, m w = (w, Raise (VemorakSdkError msg))) \/
    (exists r decode,
        m w = ((w ++ [EvRequest r])%list,
               obind (answer json_loads (server w r)) decode)).


(** Number of clock readings in a trace. *)
Fixpoint clock_reads (w : World) : nat :=
  match w with
  | [] => O
  | EvTime :: w' => S (clock_reads w')
  | _ :: w' => clock_reads w'
  end.

(** [polls_pending n w w']: from [w], the loop of [wait_for_batch] runs
    [n] full iterations and reaches [w']: each [get_proof] returned a
    proof without a batch, the clock had not passed the deadline, the
    poll interval was converted to seconds and [time.sleep] slept. *)
Inductive polls_pending
  (server : World -> Request -> transport_result) (clock : World -> pyfloat)
  (json_loads : string -> option pyval)
  (sleep_error : pyfloat -> option exn)
  (self : VmpClient) (event_id : string) (options : WaitForBatchOptions)
  (deadline : pyfloat) : nat -> World -> World -> Prop :=
  | polls_done : forall w,
      polls_pending server clock json_loads sleep_error self event_id options
        deadline O w w
  | polls_again : forall n w w1 proof secs w',
      get_proof server json_loads self event_id w = (w1, Return proof) ->
      is_none (pr_batch_id proof) = true ->
      float_gt (clock w1) deadline = false ->
      ms_to_seconds (poll_interval_ms options) = Return secs ->
      sleep_error secs = None ->
      polls_pending server clock json_loads sleep_error self event_id options
        deadline n ((w1 ++ [EvTime]) ++ [EvSleep secs])%list w' ->
      polls_pending server clock json_loads sleep_error self event_id options
        deadline (S n) w w'.

(* ===================================================================== *)
(** ** Sample environments                                                *)
(* ===================================================================== *)

(** A reader for a subset of JSON (no fractions, exponents or [\u]
    escapes), used to run the model on concrete bodies. *)
Module Json.

Definition is_ws (c : ascii) : bool :=
  let n := nat_of_ascii c in
  ((n =? 32) || (n =? 9) || (n =? 10) || (n =? 13))%nat.

Fixpoint skip_ws (s : string) : string :=
  match s with
  | String c s' => if is_ws c then skip_ws s' else s
  | EmptyString => EmptyString
  end.

Definition unescape (c : ascii) : option ascii :=
  match c with
  | "034"%char => Some "034"%char
  | "\"%char => Some "\"%char
  | "/"%char => Some "/"%char
  | "n"%char => Some "010"%char
  | "t"%char => Some "009"%char
  | "r"%char => Some "013"%char
  | "b"%char => Some "008"%char
  | "f"%char => Some "012"%char
  | _ => None
  end.

(** The rest of a string literal, after its opening quote. *)
Fixpoint read_string (s : string) : option (string * string) :=
  match s with
  | EmptyString => None
  | String c s' =>
      if Ascii.eqb c "034"%char then Some (EmptyString, s')
      else if Ascii.eqb c "\"%char then
        match s' with
        | String e s'' =>
            match unescape e, read_string s'' with
            | Some ch, Some (r, rest) => Some (String ch r, rest)
            | _, _ => None
            end
        | EmptyString => None
        end
      else
        match read_string s' with
        | Some (r, rest) => Some (String c r, rest)
        | None => None
        end
  end.

Definition digit (c : ascii) : option Z :=
  let n := nat_of_ascii c in
  if ((48 <=? n) && (n <=? 57))%nat then Some (Z.of_nat (n - 48)) else None.

Fixpoint read_digits (acc : Z) (s : string) : Z * string :=
  match s with
  | String c s' =>
      match digit c with
      | Some d => read_digits (10 * acc + d) s'
      | None => (acc, s)
      end
  | EmptyString => (acc, s)
  end.

Definition starts_fraction (s : string) : bool :=
  match s with
  | String c _ =>
      Ascii.eqb c "."%char || Ascii.eqb c "e"%char || Ascii.eqb c "E"%char
  | EmptyString => false
  end.

Definition read_int (s : string) : option (pyval * string) :=
  let '(neg, s1) :=
    match s with
    | String "-"%char s' => (true, s')
    | _ => (false, s)
    end in
  match s1 with
  | String c _ =>
      match digit c with
      | Some _ =>
          let '(n, rest) := read_digits 0 s1 in
          if starts_fraction rest then None
          else Some (PyInt (if neg then - n else n), rest)
      | None => None
      end
  | EmptyString => None
  end.

Definition read_literal (s : string) : option (pyval * string) :=
  if String.prefix "null" s then Some (PyNone, String.substring 4 (String.length s - 4) s)
  else if String.prefix "true" s
  then Some (PyBool true, String.substring 4 (String.length s - 4) s)
  else if String.prefix "false" s
  then Some (PyBool false, String.substring 5 (String.length s - 5) s)
  else read_int s.

Inductive mode : Type :=
  | MValue
  | MElems (acc : list pyval)
  | MMembers (acc : pydict).

Fixpoint read (fuel : nat) (m : mode) (s : string) : option (pyval * string) :=
  match fuel with
  | O => None
  | S fuel' =>
      match m with
      | MValue =>
          match skip_ws s with
          | String "{"%char rest =>
              match skip_ws rest with
              | String "}"%char r => Some (PyDict [], r)
              | _ => read fuel' (MMembers []) rest
              end
          | String "["%char rest =>
              match skip_ws rest with
              | String "]"%char r => Some (PyList [], r)
              | _ => read fuel' (MElems []) rest
              end
          | String "034"%char rest =>
              match read_string rest with
              | Some (x, r) => Some (PyStr x, r)
              | None => None
              end
          | s0 => read_literal s0
          end
      | MElems acc =>
          match read fuel' MValue s with
          | Some (v, r) =>
              match skip_ws r with
              | String ","%char r' => read fuel' (MElems (acc ++ [v])) r'
              | String "]"%char r' => Some (PyList (acc ++ [v]), r')
              | _ => None
              end
          | None => None
          end
      | MMembers acc =>
          match skip_ws s with
          | String "034"%char r =>
              match read_string r with
              | Some (k, r1) =>
                  match skip_ws r1 with
                  | String ":"%char r2 =>
                      match read fuel' MValue r2 with
                      | Some (v, r3) =>
                          match skip_ws r3 with
                          | String ","%char r4 =>
                              read fuel' (MMembers (dict_set acc k v)) r4
                          | String "}"%char r4 =>
                              Some (PyDict (dict_set acc k v), r4)
                          | _ => None
                          end
                      | None => None
                      end
                  | _ => None
                  end
              | None => None
              end
          | _ => None
          end
      end
  end.

Definition loads (s : string) : option pyval :=
  match read (2 * String.length s + 2) MValue s with
  | Some (v, rest) =>
      match skip_ws rest with
      | EmptyString => Some v
      | _ => None
      end
  | None => None
  end.

(** A printer for values whose strings need no escape, used to write
    response bodies. *)
Definition dq : string := String "034"%char EmptyString.

Fixpoint digits_of (fuel : nat) (n : Z) (acc : string) : string :=
  match fuel with
  | O => acc
  | S fuel' =>
      let acc' := String (ascii_of_nat (48 + Z.to_nat (n mod 10))) acc in
      if n <? 10 then acc' else digits_of fuel' (n / 10) acc'
  end.

Definition dumps_int (n : Z) : string :=
  if n <? 0 then "-" ++ digits_of (Z.to_nat (- n)) (- n) EmptyString
  else digits_of (S (Z.to_nat n)) n EmptyString.

Fixpoint dumps (v : pyval) : string :=
  match v with
  | PyNone => "null"
  | PyBool true => "true"
  | PyBool false => "false"
  | PyInt n => dumps_int n
  | PyFloat m e => dumps_int m ++ "e" ++ dumps_int e
  | PyStr s => dq ++ s ++ dq
  | PyList l =>
      "[" ++ (fix items (l : list pyval) : string :=
                match l with
                | [] => EmptyString
                | [x] => dumps x
                | x :: l' => dumps x ++ "," ++ items l'
                end) l ++ "]"
  | PyDict d =>
      "{" ++ (fix members (d : list (string * pyval)) : string :=
                match d with
                | [] => EmptyString
                | [(k, x)] => dq ++ k ++ dq ++ ":" ++ dumps x
                | (k, x) :: d' =>
                    dq ++ k ++ dq ++ ":" ++ dumps x ++ "," ++ members d'
                end) d ++ "}"
  end.

End Json.

Module Mock.

(** A server that gives the same answer to every request. *)
Definition constant_server (status : Z) (body : string)
  : World -> Request -> transport_result :=
  fun _ _ => Responded status body.

(** A server that answers its [k]-th request with the [k]-th entry of
    [script], and with the last entry from then on. *)
Definition scripted_server (script : list transport_result)
  : World -> Request -> transport_result :=
  fun w _ =>
    nth (length (requests w)) script (last script (TransportFailed "ConnectError")).

(** A clock whose [k]-th reading is the [k]-th entry of [readings], and
    the last entry from then on. *)
Definition scripted_clock (readings : list pyfloat) : World -> pyfloat :=
  fun w => nth (clock_reads w) readings (last readings (nearest_float 0)).

(** [time.sleep] as CPython checks its argument: not a number is a
    [ValueError]; the seconds are turned into nanoseconds, which must fit
    a signed 64-bit integer ([OverflowError] otherwise) and must not be
    negative ([ValueError]). *)
Definition sleep_error (secs : pyfloat) : option exn :=
  match secs with
  | SpecFloat.S754_nan => Some ValueError
  | _ =>
      let ns := SpecFloat.SFmul 53 1024 secs (nearest_float (10 ^ 9)) in
      if SpecFloat.SFleb (nearest_float (- 2 ^ 63)) ns
         && SpecFloat.SFltb ns (nearest_float (2 ^ 63))
      then if SpecFloat.SFltb ns (nearest_float 0) then Some ValueError
           else None
      else Some OverflowError
  end.

(** An [httpx] that accepts every base URL, timeout and header. *)
Definition httpx_ok : string -> pyfloat -> list (string * string) -> option exn :=
  fun _ _ _ => None.

(** [15000 / 1000.0] and [30000 / 1000.0] *)
Definition seconds_15 : pyfloat :=
  SpecFloat.SFdiv 53 1024 (nearest_float 15000) (nearest_float 1000).

Definition seconds_30 : pyfloat :=
  SpecFloat.SFdiv 53 1024 (nearest_float 30000) (nearest_float 1000).

Definition no_int_of_str : string -> option Z := fun _ => None.

(** [VmpClient(base_url="https://vmp.example/", api_key=...,
    tenant_id=..., scope_prefix=...)] with the default timeout. *)
Definition vmp_client (api_key : string) (tenant_id scope_prefix : option string)
  : VmpClient :=
  mkVmpClient "https://vmp.example" api_key tenant_id scope_prefix
    seconds_15
    (mkHttpxClient "https://vmp.example" seconds_15
       [("Accept", "application/json");
        ("Authorization", "Bearer " ++ api_key)]).

(** A client with no guardrail, and one bound to tenant [acme]. *)
Definition client : VmpClient := vmp_client "secret" None None.
Definition acme_client : VmpClient := vmp_client "secret" (Some "acme") None.

Definition prov_client : ProvisioningClient :=
  mkProvisioningClient "https://vmp.example" "console-token"
    seconds_15
    (mkHttpxClient "https://vmp.example" seconds_15
       [("Accept", "application/json");
        ("Authorization", "Bearer console-token")]).

Definition an_event_id : string := "0123456789abcdef".
Definition a_receipt_id : string := "fedcba9876543210".

(** The proof of an event before and after the server anchored it. *)
Definition proof_pending : pyval :=
  PyDict [("event_id", PyStr an_event_id); ("tenant_id", PyStr "acme");
          ("scope", PyStr "user:1"); ("batch_id", PyNone);
          ("path", PyList [])].

Definition proof_batched : pyval :=
  PyDict [("event_id", PyStr an_event_id); ("tenant_id", PyStr "acme");
          ("scope", PyStr "user:1"); ("batch_id", PyStr "batch-1");
          ("leaf_index", PyInt 0);
          ("path", PyList [PyDict [("sibling_hex", PyStr "ab");
                                   ("sibling_is_left", PyBool true)]])].

Definition event_bundle : pyval :=
  PyDict [("kind", PyStr "event.bundle");
          ("event",
           PyDict [("id", PyStr an_event_id); ("tenant_id", PyStr "acme");
                   ("scope", PyStr "user:1"); ("op", PyStr "delete");
                   ("created_at", PyStr "2024-01-01T00:00:00Z");
                   ("fields", PyDict [("n", PyInt 7)]);
                   ("event_hash_hex", PyStr "aa");
                   ("fields_canon", PyStr "fc"); ("meta_canon", PyStr "mc");
                   ("c_fields_hex", PyStr "cf")]);
          ("proof", proof_batched);
          ("recompute",
           PyDict [("recomputed_event_hash_hex", PyStr "aa");
                   ("matches_stored", PyBool true)])].

Definition deletion_bundle : pyval :=
  PyDict [("kind", PyStr "deletion_receipt.bundle");
          ("receipt",
           PyDict [("receipt_id", PyStr a_receipt_id);
                   ("tenant_id", PyStr "acme"); ("scope", PyStr "user:1");
                   ("delete_event_id", PyStr an_event_id);
                   ("delete_event_hash_hex", PyStr "aa");
                   ("sig_base64", PyStr "c2ln"); ("pubkey_id", PyStr "k1");
                   ("pubkey_base64", PyStr "cGs="); ("pubkey_hex", PyStr "70");
                   ("created_at", PyStr "2024-01-01T00:00:00Z")]);
          ("verification",
           PyDict [("receipt_id", PyStr a_receipt_id);
                   ("valid", PyBool true)]);
          ("delete_event_bundle", event_bundle)].

(** A server that serves the event bundle, then the deletion bundle. *)
Definition bundle_server : World -> Request -> transport_result :=
  scripted_server [Responded 200 (Json.dumps event_bundle);
                   Responded 200 (Json.dumps deletion_bundle)].

(** A server that anchors the event between the first and the second
    poll, one that never does, and one that already has. *)
Definition poll_server : World -> Request -> transport_result :=
  scripted_server [Responded 200 (Json.dumps proof_pending);
                   Responded 200 (Json.dumps proof_batched)].

Definition pending_server : World -> Request -> transport_result :=
  constant_server 200 (Json.dumps proof_pending).

Definition batched_server : World -> Request -> transport_result :=
  constant_server 200 (Json.dumps proof_batched).

(** A clock that reads 0 s, then 1 s, then 31 s. *)
Definition poll_clock : World -> pyfloat :=
  scripted_clock [nearest_float 0; nearest_float 1; nearest_float 31].

Definition ok_server : World -> Request -> transport_result :=
  constant_server 200 EmptyString.

(** A transport that always times out, and a server that answers one
    poll and then lets the transport time out. *)
Definition timeout_server : World -> Request -> transport_result :=
  fun _ _ => TimedOut.

Definition flaky_server : World -> Request -> transport_result :=
  scripted_server [Responded 200 (Json.dumps proof_pending); TimedOut].

(** The response to an [ingest], and one page of [admin_list_events]. *)
Definition ingest_response : pyval :=
  PyDict [("event_id", PyStr an_event_id); ("event_hash_hex", PyStr "aa");
          ("created_at", PyStr "2024-01-01T00:00:00Z")].

Definition events_page : pyval :=
  PyDict [("items",
           PyList [PyDict [("id", PyStr "e1"); ("tenant_id", PyStr "acme");
                           ("scope", PyStr "user:1"); ("op", PyStr "write");
                           ("created_at", PyStr "2024-01-01T00:00:00Z")];
                   PyDict [("id", PyStr "e2"); ("tenant_id", PyStr "acme");
                           ("scope", PyStr "user:2"); ("op", PyStr "delete");
                           ("created_at", PyStr "2024-01-02T00:00:00Z");
                           ("batch_id", PyStr "batch-1")]])].

(** The request a client built with the key [secret] sends. *)
Definition request_of (method path : string) (query : option pydict)
  (body : option pyval) : Request :=
  mkRequest method "https://vmp.example" path query body
    [("Accept", "application/json"); ("Authorization", "Bearer secret")].

End Mock.

(** A JSON string literal. *)
Definition q (s : string) : string :=
  String "034"%char (s ++ String "034"%char EmptyString).

(** The body [{ error: invalid input, details: { field: scope } }] of the
    error contract, and the object it decodes to. *)
Definition body_422 : string :=
  "{" ++ q "error" ++ ":" ++ q "invalid input" ++ ","
      ++ q "details" ++ ":{" ++ q "field" ++ ":" ++ q "scope" ++ "}}".

Definition details_422 : pyval := PyDict [("field", PyStr "scope")].

Definition parsed_422 : pyval :=
  PyDict [("error", PyStr "invalid input"); ("details", details_422)].

(* ===================================================================== *)
(** ** Properties                                                         *)
(* ===================================================================== *)

Section Properties.

Variable server : World -> Request -> transport_result.
Variable clock : World -> pyfloat.
Variable json_loads : string -> option pyval.
Variable int_of_str : string -> option Z.
Variable sleep_error : pyfloat -> option exn.
Variable httpx_init_error :
  string -> pyfloat -> list (string * string) -> option exn.

(** *** The monad *)

Lemma mbind_lift_return {A B : Type} (a : A) (k : A -> M B) (w : World) :
  mbind (lift (Return a)) k w = k a w.
Proof. reflexivity. Qed.

Lemma mbind_lift_raise {A B : Type} (e : exn) (k : A -> M B) (w : World) :
  mbind (lift (Raise e)) k w = (w, Raise e).
Proof. reflexivity. Qed.

Lemma rejected_raise {A B : Type} (o : outcome A) (k : A -> M B) :
  (exists msg, o = Raise (VemorakSdkError msg)) ->
  rejected_before_network (mbind (lift o) k).
Proof.
  intros [msg ->] w. exists msg. apply mbind_lift_raise.
Qed.

Lemma rejected_next {A : Type} (o : outcome unit) (k : unit -> M A) :
  (o = Return tt \/ exists msg, o = Raise (VemorakSdkError msg)) ->
  rejected_before_network (k tt) ->
  rejected_before_network (mbind (lift o) k).
Proof.
  intros [-> | H] Hk.
  - intros w. rewrite mbind_lift_return. apply Hk.
  - now apply rejected_raise.
Qed.

(** *** The validators raise validation errors only *)

Ltac split_checks :=
  repeat match goal with
         | |- context [if ?b then _ else _] => destruct b
         | |- context [match ?o with Some _ => _ | None => _ end] => destruct o
         end;
  simpl; unfold checks; eauto.

Lemma assert_non_empty_checks (name value : string) :
  checks (assert_non_empty name value).
Proof. unfold assert_non_empty. split_checks. Qed.

Lemma assert_tenant_id_checks (tenant_id : string) :
  checks (assert_tenant_id tenant_id).
Proof. unfold assert_tenant_id, assert_non_empty, obind. split_checks. Qed.

Lemma assert_scope_checks (scope : string) : checks (assert_scope scope).
Proof. unfold assert_scope, assert_non_empty, obind. split_checks. Qed.

Lemma _enforce_tenant_checks (self : VmpClient) (tenant_id : string) :
  checks (_enforce_tenant self tenant_id).
Proof.
  unfold _enforce_tenant, obind.
  destruct (assert_tenant_id_checks tenant_id) as [-> | [msg ->]];
    [split_checks | right; eauto].
Qed.

Lemma _enforce_scope_prefix_checks (self : VmpClient) (scope : string) :
  checks (_enforce_scope_prefix self scope).
Proof.
  unfold _enforce_scope_prefix, assert_scope_matches_prefix. split_checks.
Qed.

Lemma assert_scope_needs_separator (scope : string) :
  PyStr.contains ":"%char scope = false ->
  exists msg, assert_scope scope = Raise (VemorakSdkError msg).
Proof.
  intros H. unfold assert_scope, assert_non_empty, obind. rewrite H. simpl.
  destruct (negb (PyStr.truthy (PyStr.strip scope))); [eauto |].
  destruct (PyStr.len scope >? 128); eauto.
Qed.

Lemma _enforce_scope_prefix_mismatch (self : VmpClient) (scope p : string) :
  _scope_prefix_guardrail self = Some p ->
  PyStr.startswith scope p = false ->
  exists msg, _enforce_scope_prefix self scope = Raise (VemorakSdkError msg).
Proof.
  intros Hp H. unfold _enforce_scope_prefix, assert_scope_matches_prefix.
  rewrite Hp, H. simpl. eauto.
Qed.

(** A scope without separator, or outside the configured prefix, does not
    get past [assert_scope] followed by [_enforce_scope_prefix]. *)
Lemma scope_checks_fail (self : VmpClient) (scope : string) :
  (PyStr.contains ":"%char scope = false \/
   exists p, _scope_prefix_guardrail self = Some p /\
             PyStr.startswith scope p = false) ->
  exists msg,
    (assert_scope scope ;;; _enforce_scope_prefix self scope)%exc
    = Raise (VemorakSdkError msg).
Proof.
  intros [H | [p [Hp H]]].
  - destruct (assert_scope_needs_separator scope H) as [msg ->]. simpl. eauto.
  - destruct (assert_scope_checks scope) as [-> | [msg ->]]; simpl; eauto.
    eapply _enforce_scope_prefix_mismatch; eauto.
Qed.

Lemma _enforce_tenant_mismatch (self : VmpClient) (t0 t1 : string) :
  _tenant_guardrail self = Some t0 -> t0 <> EmptyString -> t1 <> t0 ->
  exists msg, _enforce_tenant self t1 = Raise (VemorakSdkError msg).
Proof.
  intros Hg Hne Hneq. unfold _enforce_tenant, obind.
  destruct (assert_tenant_id_checks t1) as [-> | [msg ->]]; [| eauto].
  unfold tenant_mismatch. rewrite Hg.
  destruct t0 as [| c t0']; [congruence |]. simpl.
  destruct (String.eqb_spec t1 (String c t0')); [congruence |]. simpl. eauto.
Qed.

(** [C8] For every scope string that lacks the ':' separator, and for
    every scope that does not start with the configured scope-prefix
    guardrail, [ingest], [delete] and the admin listing calls that take a
    scope raise a validation error before any network call. *)
Theorem scope_checks_reject_before_network :
  forall (self : VmpClient) (tenant_id scope : string) (fields : pydict)
         (meta : option pydict) (op : string) (idempotency_key : option string)
         (target_event_id : string) (limit : option Z),
    (PyStr.contains ":"%char scope = false \/
     exists p, _scope_prefix_guardrail self = Some p /\
               PyStr.startswith scope p = false) ->
    rejected_before_network
      (ingest server json_loads self tenant_id scope fields meta op
         idempotency_key) /\
    rejected_before_network
      (delete server json_loads self tenant_id scope target_event_id meta) /\
    rejected_before_network
      (admin_list_events server json_loads self tenant_id (Some scope) limit) /\
    rejected_before_network
      (admin_list_deletion_receipts server json_loads self tenant_id
         (Some scope) limit).
Proof.
  intros self tenant_id scope fields meta op idem target limit H.
  pose proof (scope_checks_fail self scope H) as [msg Hs].
  assert (Hsplit :
    forall (A : Type) (k : unit -> M A),
      rejected_before_network
        (mbind (lift (assert_scope scope))
           (fun _ => mbind (lift (_enforce_scope_prefix self scope)) k))).
  { intros A k. unfold obind in Hs.
    destruct (assert_scope scope) as [[] | e] eqn:E.
    - intros w. rewrite mbind_lift_return. apply rejected_raise. eauto.
    - apply rejected_raise. inversion Hs. eauto. }
  repeat split.
  - unfold ingest. apply rejected_next; [apply _enforce_tenant_checks |].
    apply Hsplit.
  - unfold delete. apply rejected_next; [apply _enforce_tenant_checks |].
    apply Hsplit.
  - unfold admin_list_events.
    apply rejected_next; [apply _enforce_tenant_checks |].
    apply rejected_raise. eauto.
  - unfold admin_list_deletion_receipts.
    apply rejected_next; [apply _enforce_tenant_checks |].
    apply rejected_raise. eauto.
Qed.

(** [C7] (amended) For every client whose tenant guardrail is a non-empty
    string [t0] and every tenant-scoped operation called with a tenant id
    [t1] different from [t0], the operation raises a validation error
    before any network call. *)
Theorem tenant_guardrail_rejects_before_network :
  forall (self : VmpClient) (t0 t1 scope : string) (fields : pydict)
         (meta : option pydict) (op : string) (idempotency_key : option string)
         (target_event_id : string) (opt_scope : option string)
         (limit : option Z),
    _tenant_guardrail self = Some t0 -> t0 <> EmptyString -> t1 <> t0 ->
    rejected_before_network
      (ingest server json_loads self t1 scope fields meta op idempotency_key) /\
    rejected_before_network
      (delete server json_loads self t1 scope target_event_id meta) /\
    rejected_before_network
      (admin_list_events server json_loads self t1 opt_scope limit) /\
    rejected_before_network
      (admin_list_batches server json_loads int_of_str self t1 limit) /\
    rejected_before_network
      (admin_list_deletion_receipts server json_loads self t1 opt_scope limit).
Proof.
  intros self t0 t1 scope fields meta op idem target opt_scope limit Hg Hne Hneq.
  pose proof (_enforce_tenant_mismatch self t0 t1 Hg Hne Hneq) as Hm.
  repeat split; apply rejected_raise; exact Hm.
Qed.

(** *** The constructor *)

Lemma VmpClient_init_inv (base_url api_key : string) (tenant_id : option string)
  (timeout_ms : Z) (scope_prefix : option string) (self : VmpClient) :
  VmpClient_init httpx_init_error base_url api_key tenant_id timeout_ms
    scope_prefix
  = Return self ->
  exists timeout,
    ms_to_seconds timeout_ms = Return timeout /\
    httpx_init_error (PyStr.rstrip_slash base_url) timeout
      [("Accept", "application/json");
       ("Authorization", "Bearer " ++ api_key)] = None /\
    self = mkVmpClient (PyStr.rstrip_slash base_url) api_key tenant_id
             scope_prefix timeout
             (mkHttpxClient (PyStr.rstrip_slash base_url) timeout
                [("Accept", "application/json");
                 ("Authorization", "Bearer " ++ api_key)]).
Proof.
  unfold VmpClient_init, httpx_Client_new, obind.
  destruct (assert_non_empty "base_url" base_url); [| discriminate].
  destruct (assert_non_empty "api_key" api_key); [| discriminate].
  destruct scope_prefix as [p |];
    [destruct (assert_scope_prefix p); [| discriminate] |];
    (destruct (ms_to_seconds timeout_ms) as [timeout | e]; [| discriminate];
     destruct (httpx_init_error _ timeout _) eqn:Eh; [discriminate |];
     intros E; injection E as <-; eauto).
Qed.

Lemma assert_tenant_id_messages (tenant_id msg : string) :
  assert_tenant_id tenant_id = Raise (VemorakSdkError msg) ->
  String.prefix "tenant_id mismatch" msg = false.
Proof.
  unfold assert_tenant_id, assert_non_empty, obind.
  destruct (negb (PyStr.truthy (PyStr.strip tenant_id)));
    [intros H; inversion H; reflexivity |].
  destruct (PyStr.len tenant_id >? 128);
    [intros H; inversion H; reflexivity |].
  destruct (PyStr.any PyStr.isspace tenant_id);
    [intros H; inversion H; reflexivity | discriminate].
Qed.

(** [C10] A client constructed with [tenant_id] equal to the empty string
    behaves as if no tenant guardrail were configured: [_enforce_tenant]
    only applies [assert_tenant_id], accepts every well-formed tenant id,
    never raises the tenant-mismatch error, and the tenant-scoped
    operations coincide with those of the client built without
    [tenant_id]. *)
Theorem empty_tenant_guardrail_is_no_guardrail :
  forall (base_url api_key : string) (timeout_ms : Z)
         (scope_prefix : option string) (self : VmpClient),
    VmpClient_init httpx_init_error base_url api_key (Some EmptyString) timeout_ms scope_prefix
    = Return self ->
    forall tenant_id : string,
      _enforce_tenant self tenant_id = assert_tenant_id tenant_id /\
      (assert_tenant_id tenant_id = Return tt ->
       _enforce_tenant self tenant_id = Return tt) /\
      (forall msg, _enforce_tenant self tenant_id = Raise (VemorakSdkError msg) ->
                   String.prefix "tenant_id mismatch" msg = false) /\
      (forall self0 : VmpClient,
          VmpClient_init httpx_init_error base_url api_key None timeout_ms scope_prefix
          = Return self0 ->
          _enforce_tenant self tenant_id = _enforce_tenant self0 tenant_id /\
          (forall scope fields meta op idempotency_key w,
              ingest server json_loads self tenant_id scope fields meta op
                idempotency_key w
              = ingest server json_loads self0 tenant_id scope fields meta op
                  idempotency_key w) /\
          (forall scope target_event_id meta w,
              delete server json_loads self tenant_id scope target_event_id
                meta w
              = delete server json_loads self0 tenant_id scope target_event_id
                  meta w) /\
          (forall scope limit w,
              admin_list_events server json_loads self tenant_id scope limit w
              = admin_list_events server json_loads self0 tenant_id scope
                  limit w) /\
          (forall limit w,
              admin_list_batches server json_loads int_of_str self tenant_id
                limit w
              = admin_list_batches server json_loads int_of_str self0
                  tenant_id limit w) /\
          (forall scope limit w,
              admin_list_deletion_receipts server json_loads self tenant_id
                scope limit w
              = admin_list_deletion_receipts server json_loads self0 tenant_id
                  scope limit w)).
Proof.
  intros base_url api_key timeout_ms scope_prefix self Hinit tenant_id.
  apply VmpClient_init_inv in Hinit. destruct Hinit as (t & Ht & _ & ->).
  assert (He : forall g,
             _enforce_tenant
               (mkVmpClient (PyStr.rstrip_slash base_url) api_key
                  (Some EmptyString) scope_prefix t g) tenant_id
             = assert_tenant_id tenant_id).
  { intros g. unfold _enforce_tenant, obind. simpl.
    destruct (assert_tenant_id tenant_id) as [[] | e]; reflexivity. }
  split; [apply He |].
  split; [intros H; rewrite He; exact H |].
  split; [intros msg H; rewrite He in H; eapply assert_tenant_id_messages; eauto |].
  intros self0 Hinit0. apply VmpClient_init_inv in Hinit0.
  destruct Hinit0 as (t0 & Ht0 & _ & ->).
  rewrite Ht in Ht0. injection Ht0 as <-.
  repeat split; intros; reflexivity.
Qed.

(** *** Limits *)

Lemma assert_limit_out_of_range (n : Z) :
  n < 1 \/ 500 < n ->
  exists msg, assert_limit (Some n) = Raise (VemorakSdkError msg).
Proof.
  intros H. unfold assert_limit.
  destruct ((n <? 1) || (n >? 500)) eqn:E; [eauto |].
  apply orb_false_iff in E. destruct E as [E1 E2]. lia.
Qed.

Lemma check_positive_limit_below (n : Z) :
  n < 1 ->
  exists msg, check_positive_limit (Some n) = Raise (VemorakSdkError msg).
Proof.
  intros H. unfold check_positive_limit.
  destruct (n <? 1) eqn:E; [eauto | lia].
Qed.

Lemma scoped_checks (self : VmpClient) (scope : option string) :
  checks match scope with
         | Some s => (assert_scope s ;;; _enforce_scope_prefix self s)%exc
         | None => Return tt
         end.
Proof.
  destruct scope as [s |]; [| left; reflexivity].
  destruct (assert_scope_checks s) as [-> | [msg ->]]; simpl.
  - apply _enforce_scope_prefix_checks.
  - right. eauto.
Qed.

(** [C1] (amended) [admin_list_events] raises a validation error before
    any network call for every limit outside [1,500];
    [admin_list_batches], [admin_list_deletion_receipts] and
    [list_api_keys] raise a validation error before any network call for
    every limit below 1. *)
Theorem limit_checks_reject_before_network :
  forall (self : VmpClient) (prov : ProvisioningClient) (tenant_id : string)
         (scope : option string) (n : Z),
    (n < 1 \/ 500 < n ->
     rejected_before_network
       (admin_list_events server json_loads self tenant_id scope (Some n))) /\
    (n < 1 ->
     rejected_before_network
       (admin_list_batches server json_loads int_of_str self tenant_id
          (Some n)) /\
     rejected_before_network
       (admin_list_deletion_receipts server json_loads self tenant_id scope
          (Some n)) /\
     rejected_before_network
       (list_api_keys server json_loads prov tenant_id (Some n))).
Proof.
  intros self prov tenant_id scope n. split.
  - intros H. unfold admin_list_events.
    apply rejected_next; [apply _enforce_tenant_checks |].
    apply rejected_next; [apply scoped_checks |].
    apply rejected_raise. now apply assert_limit_out_of_range.
  - intros H. pose proof (check_positive_limit_below n H) as Hl.
    repeat split.
    + unfold admin_list_batches.
      apply rejected_next; [apply _enforce_tenant_checks |].
      apply rejected_raise. exact Hl.
    + unfold admin_list_deletion_receipts.
      apply rejected_next; [apply _enforce_tenant_checks |].
      apply rejected_next; [apply scoped_checks |].
      apply rejected_raise. exact Hl.
    + unfold list_api_keys.
      apply rejected_next; [apply assert_tenant_id_checks |].
      apply rejected_raise. exact Hl.
Qed.

(** *** Requests and response classification *)

Lemma _request_json_answer (self : VmpClient) (method path : string)
  (query : option pydict) (body : option pyval)
  (idempotency_key : option string) (auth : bool) (w : World) :
  exists r,
    _request_json server json_loads self method path query body
      idempotency_key auth w
    = ((w ++ [EvRequest r])%list, answer json_loads (server w r)).
Proof.
  unfold _request_json, mbind, try_except, httpx_request, lift, raise.
  match goal with
  | |- context [server w ?R] => exists R; destruct (server w R)
  end; reflexivity.
Qed.

Lemma Provisioning_request_json_answer (self : ProvisioningClient)
  (method path : string) (query : option pydict) (body : option pyval)
  (w : World) :
  exists r,
    Provisioning_request_json server json_loads self method path query body w
    = ((w ++ [EvRequest r])%list, answer json_loads (server w r)).
Proof.
  unfold Provisioning_request_json, mbind, try_except, httpx_request, lift,
    raise.
  match goal with
  | |- context [server w ?R] => exists R; destruct (server w R)
  end; reflexivity.
Qed.

Lemma issues_answer {A : Type} (m : M A) (w : World) (r r' : Request)
  (o : Request -> outcome A) :
  m w = ((w ++ [EvRequest r'])%list, o r') ->
  issues m w r ->
  snd (m w) = o r.
Proof.
  unfold issues. intros E H. rewrite E in *. simpl in *.
  apply app_inj_tail in H. destruct H as [_ H]. inversion H. reflexivity.
Qed.

Lemma strip_blank (s : string) :
  PyStr.all PyStr.isspace s = true -> PyStr.strip s = EmptyString.
Proof.
  unfold PyStr.strip. intros H.
  assert (E : PyStr.lstrip s = EmptyString).
  { induction s as [| c s IH]; [reflexivity |].
    simpl in *. apply andb_true_iff in H. destruct H as [Hc Hs].
    rewrite Hc. now apply IH. }
  rewrite E. reflexivity.
Qed.

Lemma fallback_message_eq (body : string) :
  (if PyStr.truthy (PyStr.strip body) then PyStr.strip body
   else "unknown error") = fallback_message body.
Proof. unfold fallback_message. destruct (PyStr.strip body); reflexivity. Qed.

(** The error contract of a non-2xx response. *)
Lemma classify_non_2xx (status : Z) (body : string) :
  status < 200 \/ 300 <= status ->
  exists msg details,
    classify_response json_loads (mkResponse status body)
    = Raise (VmpHttpError status msg body details) /\
    (forall d e,
        json_loads body = Some (PyDict d) ->
        dict_lookup d "error" = Some (PyStr e) ->
        msg = e) /\
    (forall d,
        json_loads body = Some (PyDict d) ->
        details = match dict_lookup d "details" with
                  | Some x => x
                  | None => PyNone
                  end) /\
    ((forall d e, json_loads body = Some (PyDict d) ->
                  dict_lookup d "error" <> Some (PyStr e)) ->
     msg = fallback_message body) /\
    ((forall d, json_loads body <> Some (PyDict d)) -> details = PyNone).
Proof.
  intros Hst. unfold classify_response. simpl.
  replace ((status <? 200) || (status >=? 300)) with true
    by (symmetry; apply orb_true_iff; lia).
  unfold http_error_of, Response_json. simpl.
  rewrite fallback_message_eq.
  destruct (json_loads body) as [v |] eqn:Ej.
  - destruct v as [| b | n | m e | s | l | d];
      try (exists (fallback_message body), PyNone;
           repeat split; intros; solve [discriminate | reflexivity]).
    do 2 eexists. split; [reflexivity |]. repeat split.
    + intros d0 e H1 H2. injection H1 as <-. rewrite H2. reflexivity.
    + intros d0 H1. injection H1 as <-. reflexivity.
    + intros H.
      destruct (dict_lookup d "error") as [[]|] eqn:E; try reflexivity.
      exfalso. eapply H; eauto.
    + intros H. exfalso. eapply H; eauto.
  - exists (fallback_message body), PyNone.
    repeat split; intros; solve [discriminate | reflexivity].
Qed.

(** [C4] For every non-2xx response, either client raises a
    [VmpHttpError] carrying the status code and the raw body; its message
    is the string [error] field when the body parses as a JSON object that
    has one, otherwise the trimmed body text, or [unknown error] when
    nothing is left of the body; its details are the object's [details]
    field.  A 422 response with the body of [body_422] yields status 422,
    message [invalid input] and details [details_422]. *)
Theorem non_2xx_raises_protocol_error :
  forall (self : VmpClient) (prov : ProvisioningClient) (method path : string)
         (query : option pydict) (body : option pyval)
         (idempotency_key : option string) (auth : bool)
         (w : World) (r : Request) (status : Z) (body_text : string)
         (res : outcome pyval),
    status < 200 \/ 300 <= status ->
    server w r = Responded status body_text ->
    (issues (_request_json server json_loads self method path query body
               idempotency_key auth) w r /\
     res = snd (_request_json server json_loads self method path query body
                  idempotency_key auth w)) \/
    (issues (Provisioning_request_json server json_loads prov method path
               query body) w r /\
     res = snd (Provisioning_request_json server json_loads prov method path
                  query body w)) ->
    exists msg details,
      res = Raise (VmpHttpError status msg body_text details) /\
      (forall d e,
          json_loads body_text = Some (PyDict d) ->
          dict_lookup d "error" = Some (PyStr e) ->
          msg = e) /\
      (forall d,
          json_loads body_text = Some (PyDict d) ->
          details = match dict_lookup d "details" with
                    | Some x => x
                    | None => PyNone
                    end) /\
      ((forall d e, json_loads body_text = Some (PyDict d) ->
                    dict_lookup d "error" <> Some (PyStr e)) ->
       msg = fallback_message body_text) /\
      (status = 422 -> body_text = body_422 ->
       json_loads body_422 = Some parsed_422 ->
       msg = "invalid input" /\ details = details_422).
Proof.
  intros self prov method path query body idem auth w r status body_text res
    Hst Hsrv Hres.
  assert (Hr : res = answer json_loads (server w r)).
  { destruct Hres as [[Hi ->] | [Hi ->]].
    - destruct (_request_json_answer self method path query body idem auth w)
        as [r' E].
      exact (issues_answer _ w r r'
               (fun x => answer json_loads (server w x)) E Hi).
    - destruct (Provisioning_request_json_answer prov method path query body w)
        as [r' E].
      exact (issues_answer _ w r r'
               (fun x => answer json_loads (server w x)) E Hi). }
  rewrite Hsrv in Hr. simpl in Hr. subst res.
  destruct (classify_non_2xx status body_text Hst)
    as (msg & details & E & Hmsg & Hdet & Hfall & _).
  exists msg, details.
  split; [exact E |]. split; [exact Hmsg |]. split; [exact Hdet |].
  split; [exact Hfall |].
  intros _ -> Hp. split.
  - eapply Hmsg; [exact Hp | reflexivity].
  - rewrite (Hdet _ Hp). reflexivity.
Qed.

(** [C6] For either client, a response with a 2xx status code and an
    empty or whitespace-only body is decoded to the empty object; no
    parse error is raised. *)
Theorem empty_2xx_body_decodes_to_empty_object :
  forall (self : VmpClient) (prov : ProvisioningClient) (method path : string)
         (query : option pydict) (body : option pyval)
         (idempotency_key : option string) (auth : bool)
         (w : World) (r : Request) (status : Z) (body_text : string),
    200 <= status < 300 ->
    PyStr.all PyStr.isspace body_text = true ->
    server w r = Responded status body_text ->
    (issues (_request_json server json_loads self method path query body
               idempotency_key auth) w r ->
     snd (_request_json server json_loads self method path query body
            idempotency_key auth w) = Return (PyDict [])) /\
    (issues (Provisioning_request_json server json_loads prov method path
               query body) w r ->
     snd (Provisioning_request_json server json_loads prov method path query
            body w) = Return (PyDict [])).
Proof.
  intros self prov method path query body idem auth w r status body_text
    Hst Hblank Hsrv.
  assert (Ha : answer json_loads (server w r) = Return (PyDict [])).
  { rewrite Hsrv. unfold answer, classify_response. simpl.
    replace ((status <? 200) || (status >=? 300)) with false
      by (symmetry; apply orb_false_iff; lia).
    rewrite (strip_blank body_text Hblank). reflexivity. }
  split; intros Hi.
  - destruct (_request_json_answer self method path query body idem auth w)
      as [r' E].
    rewrite (issues_answer _ w r r'
               (fun x => answer json_loads (server w x)) E Hi).
    exact Ha.
  - destruct (Provisioning_request_json_answer prov method path query body w)
      as [r' E].
    rewrite (issues_answer _ w r r'
               (fun x => answer json_loads (server w x)) E Hi).
    exact Ha.
Qed.

(** *** The offline verify endpoints *)

(** The headers [_request_json] passes to [httpx] with [auth=False] have
    no [Authorization] entry. *)
Lemma unauthenticated_headers_have_no_authorization :
  header_get [("Accept", "application/json")] "Authorization" = None.
Proof. reflexivity. Qed.

(** The client's own headers survive the merge unless the request
    overrides them. *)
Lemma merge_keeps_client_authorization (api_key : string) :
  merge_headers
    [("Accept", "application/json"); ("Authorization", "Bearer " ++ api_key)]
    [("Accept", "application/json")]
  = [("Accept", "application/json"); ("Authorization", "Bearer " ++ api_key)].
Proof. reflexivity. Qed.

(** [C2] The requests issued by [verify_event_bundle_offline] and
    [verify_deletion_bundle_offline] carry the header
    [Authorization: Bearer <api_key>] of the client they are issued
    through: the header is absent from the per-request headers but is
    among the headers the [httpx] client was constructed with. *)
Theorem offline_verify_requests_carry_authorization :
  forall (base_url api_key : string) (tenant_id : option string)
         (timeout_ms : Z) (scope_prefix : option string) (self : VmpClient)
         (bundle : pyval) (w : World),
    VmpClient_init httpx_init_error base_url api_key tenant_id timeout_ms scope_prefix
    = Return self ->
    (exists r,
        issues (verify_event_bundle_offline server json_loads self bundle) w r /\
        req_path r = "/v1/verify/bundle" /\
        header_get (req_headers r) "Authorization"
        = Some ("Bearer " ++ api_key)) /\
    (exists r,
        issues (verify_deletion_bundle_offline server json_loads self bundle)
          w r /\
        req_path r = "/v1/verify/deletion-bundle" /\
        header_get (req_headers r) "Authorization"
        = Some ("Bearer " ++ api_key)).
Proof.
  intros base_url api_key tenant_id timeout_ms scope_prefix self bundle w Hinit.
  apply VmpClient_init_inv in Hinit. destruct Hinit as (t & _ & _ & ->).
  split.
  - unfold issues, verify_event_bundle_offline, _request_json, mbind,
      try_except, httpx_request, lift, raise. simpl.
    match goal with
    | |- context [server w ?R] => exists R; destruct (server w R)
    end; simpl.
    + match goal with
      | |- context [classify_response ?j ?x] =>
          destruct (classify_response j x)
      end; repeat split; reflexivity.
    + repeat split; reflexivity.
    + repeat split; reflexivity.
  - unfold issues, verify_deletion_bundle_offline, _request_json, mbind,
      try_except, httpx_request, lift, raise. simpl.
    match goal with
    | |- context [server w ?R] => exists R; destruct (server w R)
    end; simpl.
    + match goal with
      | |- context [classify_response ?j ?x] =>
          destruct (classify_response j x)
      end; repeat split; reflexivity.
    + repeat split; reflexivity.
    + repeat split; reflexivity.
Qed.

(** *** Bundles *)

Lemma obind_return_inv {A B : Type} (m : outcome A) (f : A -> outcome B)
  (b : B) :
  obind m f = Return b -> exists a, m = Return a /\ f a = Return b.
Proof.
  destruct m as [a | e]; simpl; [eauto | discriminate].
Qed.

Ltac obind_inv H :=
  let a := fresh "a" in
  let E := fresh "E" in
  apply obind_return_inv in H; destruct H as (a & E & H).

(** The mapping written out in [get_event_bundle] is the one of
    [_parse_event_bundle_from_dict], errors included. *)
Lemma get_event_bundle_mapping (self : VmpClient) (event_id : string)
  (w w1 : World) (data : pyval) :
  assert_uuid_like "event_id" event_id = Return tt ->
  _request_json server json_loads self "GET"
    ("/v1/events/" ++ event_id ++ "/bundle") None None None true w
  = (w1, Return data) ->
  get_event_bundle server json_loads self event_id w
  = (w1, _parse_event_bundle_from_dict data).
Proof.
  intros Hid Hreq. unfold get_event_bundle.
  rewrite Hid, mbind_lift_return.
  unfold mbind at 1. rewrite Hreq. reflexivity.
Qed.

(** [C5] The field mapping that [get_event_bundle] applies to a top-level
    event bundle and the mapping that [_parse_event_bundle_from_dict]
    applies to the [delete_event_bundle] nested in the response of
    [get_deletion_receipt_bundle] are extensionally equal: on the same
    JSON value they produce the same [EventBundleResponse], or raise the
    same error. *)
Theorem bundle_decoders_agree :
  forall (self : VmpClient) (event_id receipt_id : string) (w w1 : World)
         (data : pyval),
    assert_uuid_like "event_id" event_id = Return tt ->
    _request_json server json_loads self "GET"
      ("/v1/events/" ++ event_id ++ "/bundle") None None None true w
    = (w1, Return data) ->
    get_event_bundle server json_loads self event_id w
    = (w1, _parse_event_bundle_from_dict data) /\
    (forall (w' w1' : World) (data' : pyval)
            (b : DeletionReceiptBundleResponse),
        _request_json server json_loads self "GET"
          ("/v1/deletion-receipts/" ++ receipt_id ++ "/bundle") None None None
          true w'
        = (w1', Return data') ->
        subscript data' "delete_event_bundle" = Return data ->
        get_deletion_receipt_bundle server json_loads self receipt_id w'
        = (w1', Return b) ->
        get_event_bundle server json_loads self event_id w
        = (w1, Return (db_delete_event_bundle b))).
Proof.
  intros self event_id receipt_id w w1 data Hid Hreq.
  pose proof (get_event_bundle_mapping self event_id w w1 data Hid Hreq) as Hm.
  split; [exact Hm |].
  intros w' w1' data' b Hreq' Hsub Hb.
  rewrite Hm. f_equal.
  unfold get_deletion_receipt_bundle in Hb.
  destruct (assert_uuid_like "receipt_id" receipt_id) as [[] | e];
    [rewrite mbind_lift_return in Hb | rewrite mbind_lift_raise in Hb;
                                        inversion Hb].
  unfold mbind in Hb. rewrite Hreq' in Hb. unfold lift in Hb.
  injection Hb as Hb.
  obind_inv Hb. obind_inv Hb. obind_inv Hb.
  rewrite Hsub in E1. injection E1 as <-.
  obind_inv Hb. obind_inv Hb. obind_inv Hb. obind_inv Hb.
  injection Hb as <-. simpl. assumption.
Qed.

(** *** [wait_for_batch] *)

Lemma get_proof_trace (self : VmpClient) (event_id : string) (w : World) :
  fst (get_proof server json_loads self event_id w) = w \/
  exists r,
    fst (get_proof server json_loads self event_id w)
    = (w ++ [EvRequest r])%list.
Proof.
  unfold get_proof.
  destruct (assert_uuid_like "event_id" event_id) as [[] | e].
  - right. rewrite mbind_lift_return. unfold mbind.
    destruct (_request_json_answer self "GET" ("/v1/proof/" ++ event_id)
                None None None true w) as [r ->].
    exists r. destruct (answer json_loads (server w r)); reflexivity.
  - left. reflexivity.
Qed.

Lemma clock_reads_app (w1 w2 : World) :
  clock_reads (w1 ++ w2)%list = (clock_reads w1 + clock_reads w2)%nat.
Proof.
  induction w1 as [| e w1 IH]; [reflexivity |].
  destruct e; simpl; rewrite IH; reflexivity.
Qed.

Lemma get_proof_reads_no_clock (self : VmpClient) (event_id : string)
  (w : World) :
  clock_reads (fst (get_proof server json_loads self event_id w))
  = clock_reads w.
Proof.
  destruct (get_proof_trace self event_id w) as [-> | [r ->]];
    [reflexivity |].
  rewrite clock_reads_app. simpl. lia.
Qed.

Lemma wait_for_batch_loop_extends (self : VmpClient) (event_id : string)
  (options : WaitForBatchOptions) (deadline : pyfloat) (fuel : nat) :
  forall (w w' : World) (res : outcome ProofResponse),
    wait_for_batch_loop server clock json_loads sleep_error fuel self event_id
      options deadline w = Some (w', res) ->
    exists rest,
      w' = (fst (get_proof server json_loads self event_id w) ++ rest)%list.
Proof.
  induction fuel as [| fuel IH]; intros w w' res H; [discriminate |].
  simpl in H.
  destruct (get_proof server json_loads self event_id w) as [w1 [proof | e]]
    eqn:Eg; simpl.
  - destruct (negb (is_none (pr_batch_id proof))).
    + injection H as <- _. exists []. now rewrite app_nil_r.
    + unfold time_time in H.
      destruct (float_gt (clock w1) deadline).
      * injection H as <- _. eauto.
      * destruct (ms_to_seconds (poll_interval_ms options)) as [secs | e].
        -- unfold time_sleep in H.
           destruct (sleep_error secs) as [e |].
           ++ injection H as <- _. eauto.
           ++ apply IH in H. destruct H as [rest ->].
              destruct (get_proof_trace self event_id
                          ((w1 ++ [EvTime]) ++ [EvSleep secs])%list)
                as [-> | [r ->]]; rewrite <- !app_assoc; eauto.
        -- injection H as <- _. eauto.
  - injection H as <- _. exists []. now rewrite app_nil_r.
Qed.

Lemma wait_for_batch_loop_pending (self : VmpClient) (event_id : string)
  (options : WaitForBatchOptions) (deadline : pyfloat) (n : nat)
  (w w' : World) :
  polls_pending server clock json_loads sleep_error self event_id options
    deadline n w w' ->
  forall fuel,
    wait_for_batch_loop server clock json_loads sleep_error (n + fuel) self
      event_id options deadline w
    = wait_for_batch_loop server clock json_loads sleep_error fuel self
        event_id options deadline w'.
Proof.
  induction 1 as [w | n w w1 proof secs w' Hg Hn Hd Hs He Hp IH];
    intros fuel; [reflexivity |].
  simpl. rewrite Hg, Hn. simpl. rewrite Hd, Hs.
  unfold time_sleep. rewrite He. apply IH.
Qed.

(** [C3] (amended) For every event id and every options whose
    [timeout_ms] converts to seconds, and as long as each sleep between
    two polls is performed ([poll_interval_ms] converts to seconds and
    [time.sleep] accepts it), [wait_for_batch] returns the first proof
    returned by [get_proof] whose [batch_id] is not [None]; when the
    polled proofs have no batch and the clock read after a poll is past
    the deadline, it raises a plain [VemorakSdkError] saying that the wait
    timed out, which is not a [VmpTimeoutError]. *)
Theorem wait_for_batch_first_batched_proof_or_timeout :
  forall (self : VmpClient) (event_id : string)
         (opts : option WaitForBatchOptions) (w w' w1 : World) (n fuel : nat)
         (proof : ProofResponse) (secs : pyfloat),
    let options :=
      match opts with Some o => o | None => WaitForBatchOptions_default end in
    ms_to_seconds (timeout_ms options) = Return secs ->
    let deadline := float_add (clock w) secs in
    polls_pending server clock json_loads sleep_error self event_id options
      deadline n (w ++ [EvTime])%list w' ->
    get_proof server json_loads self event_id w' = (w1, Return proof) ->
    (n < fuel)%nat ->
    (is_none (pr_batch_id proof) = false ->
     wait_for_batch server clock json_loads sleep_error fuel self event_id
       opts w
     = Some (w1, Return proof)) /\
    (is_none (pr_batch_id proof) = true ->
     float_gt (clock w1) deadline = true ->
     exists e,
       wait_for_batch server clock json_loads sleep_error fuel self event_id
         opts w
       = Some ((w1 ++ [EvTime])%list, Raise e) /\
       e = VemorakSdkError ("wait_for_batch timed out for event_id=" ++ event_id) /\
       is_VmpTimeoutError e = false /\
       is_sdk_error e = true).
Proof.
  intros self event_id opts w w' w1 n fuel proof secs options Hsecs deadline
    Hp Hg Hf.
  assert (Hrun :
    wait_for_batch server clock json_loads sleep_error fuel self event_id
      opts w
    = wait_for_batch_loop server clock json_loads sleep_error (fuel - n) self
        event_id options deadline w').
  { unfold wait_for_batch, time_time. fold options. rewrite Hsecs.
    fold deadline.
    replace fuel with (n + (fuel - n))%nat at 1 by lia.
    now apply wait_for_batch_loop_pending. }
  destruct (fuel - n)%nat as [| k] eqn:Ek; [lia |].
  rewrite Hrun. simpl. rewrite Hg. split.
  - intros Hb. rewrite Hb. reflexivity.
  - intros Hb Hd. rewrite Hb. simpl. rewrite Hd.
    eexists. repeat split.
Qed.

(** [C9] (amended) For every event id and every options whose
    [timeout_ms] converts to seconds, also with [timeout_ms <= 0],
    [wait_for_batch] calls [get_proof] right after it has computed the
    deadline: when that call ends, the clock has been read once, for the
    deadline, and never to check it; every completed run continues the
    trace of that call; and if the call raises, or returns a proof whose
    [batch_id] is not [None], that is the result of [wait_for_batch]
    whatever the timeout. *)
Theorem wait_for_batch_polls_before_checking_deadline :
  forall (self : VmpClient) (event_id : string)
         (opts : option WaitForBatchOptions) (fuel : nat) (w : World)
         (secs : pyfloat),
  ms_to_seconds
    (timeout_ms
       match opts with Some o => o | None => WaitForBatchOptions_default end)
  = Return secs ->
  exists (w1 : World) (r1 : outcome ProofResponse),
    get_proof server json_loads self event_id (w ++ [EvTime])%list = (w1, r1) /\
    clock_reads w1 = S (clock_reads w) /\
    (forall w' res,
        wait_for_batch server clock json_loads sleep_error (S fuel) self
          event_id opts w
        = Some (w', res) ->
        exists rest, w' = (w1 ++ rest)%list) /\
    (forall e,
        r1 = Raise e ->
        wait_for_batch server clock json_loads sleep_error (S fuel) self
          event_id opts w
        = Some (w1, Raise e)) /\
    (forall proof,
        r1 = Return proof ->
        is_none (pr_batch_id proof) = false ->
        wait_for_batch server clock json_loads sleep_error (S fuel) self
          event_id opts w
        = Some (w1, Return proof)).
Proof.
  intros self event_id opts fuel w secs Hsecs.
  destruct (get_proof server json_loads self event_id (w ++ [EvTime])%list)
    as [w1 r1] eqn:Eg.
  exists w1, r1. split; [reflexivity |]. split; [| split; [| split]].
  - pose proof (get_proof_reads_no_clock self event_id (w ++ [EvTime])%list)
      as H.
    rewrite Eg in H. simpl in H. rewrite H, clock_reads_app. simpl. lia.
  - intros w' res H. unfold wait_for_batch, time_time in H.
    rewrite Hsecs in H.
    apply wait_for_batch_loop_extends in H. rewrite Eg in H. exact H.
  - intros e ->. unfold wait_for_batch, time_time. rewrite Hsecs. simpl.
    rewrite Eg. reflexivity.
  - intros proof -> Hb. unfold wait_for_batch, time_time. rewrite Hsecs.
    simpl. rewrite Eg, Hb. reflexivity.
Qed.

End Properties.

(* ===================================================================== *)
(** ** Concrete runs                                                      *)
(* ===================================================================== *)

(** A scope without separator, and a scope outside the prefix [user:]. *)
Lemma scope_checks_reject_before_network_witness :
  (PyStr.contains ":"%char "nocolon" = false /\
   rejected_before_network
     (ingest Mock.ok_server Json.loads
        (Mock.vmp_client "secret" (Some "acme") (Some "user:"))
        "acme" "nocolon" [] None "write" None) /\
   rejected_before_network
     (admin_list_events Mock.ok_server Json.loads
        (Mock.vmp_client "secret" (Some "acme") (Some "user:"))
        "acme" (Some "nocolon") None)) /\
  (_scope_prefix_guardrail
     (Mock.vmp_client "secret" (Some "acme") (Some "user:")) = Some "user:" /\
   PyStr.startswith "team:1" "user:" = false /\
   rejected_before_network
     (delete Mock.ok_server Json.loads
        (Mock.vmp_client "secret" (Some "acme") (Some "user:"))
        "acme" "team:1" Mock.an_event_id None)).
Proof.
  split.
  - split; [reflexivity |].
    pose proof (scope_checks_reject_before_network
                  Mock.ok_server Json.loads
                  (Mock.vmp_client "secret" (Some "acme") (Some "user:"))
                  "acme" "nocolon" [] None "write" None Mock.an_event_id None
                  (or_introl eq_refl)) as (H1 & _ & H3 & _).
    split; assumption.
  - split; [reflexivity |]. split; [reflexivity |].
    refine (proj1 (proj2 (scope_checks_reject_before_network
                  Mock.ok_server Json.loads
                  (Mock.vmp_client "secret" (Some "acme") (Some "user:"))
                  "acme" "team:1" [] None "write" None Mock.an_event_id None
                  (or_intror (ex_intro _ "user:" (conj eq_refl eq_refl)))))).
Defined.

(** A client bound to tenant [acme], called for tenant [other]. *)
Lemma tenant_guardrail_rejects_before_network_witness :
  _tenant_guardrail Mock.acme_client = Some "acme" /\
  "acme" <> EmptyString /\ "other" <> "acme" /\
  rejected_before_network
    (ingest Mock.ok_server Json.loads
       Mock.acme_client
       "other" "user:1" [] None "write" None).
Proof.
  split; [reflexivity |]. split; [discriminate |]. split; [discriminate |].
  refine (proj1 (tenant_guardrail_rejects_before_network
                   Mock.ok_server Json.loads Mock.no_int_of_str
                   Mock.acme_client
                   "acme" "other" "user:1" [] None "write" None
                   Mock.an_event_id None None eq_refl _ _)); discriminate.
Defined.

(** A client constructed with the empty string as [tenant_id]: a request
    for tenant [acme] reaches the network. *)
Lemma empty_tenant_guardrail_lets_mismatch_through :
  VmpClient_init Mock.httpx_ok "https://vmp.example/" "secret" (Some EmptyString) 15000 None
  = Return (Mock.vmp_client "secret" (Some EmptyString) None) /\
  _tenant_guardrail (Mock.vmp_client "secret" (Some EmptyString) None) = Some EmptyString /\
  "acme" <> EmptyString /\
  ~ rejected_before_network
      (ingest Mock.ok_server Json.loads
         (Mock.vmp_client "secret" (Some EmptyString) None)
         "acme" "user:1" [] None "write" None) /\
  exists r,
    issues (ingest Mock.ok_server Json.loads
              (Mock.vmp_client "secret" (Some EmptyString) None)
              "acme" "user:1" [] None "write" None) [] r /\
    req_path r = "/v1/ingest".
Proof.
  split; [reflexivity |]. split; [reflexivity |]. split; [discriminate |].
  split.
  - intros H. destruct (H []) as [msg E]. vm_compute in E. discriminate.
  - eexists. split; [vm_compute; reflexivity | reflexivity].
Qed.

(** The limit 501 passes the inline checks and is sent in the query. *)
Lemma limit_above_500_is_sent :
  (501 < 1 \/ 500 < 501) /\
  ~ rejected_before_network
      (admin_list_batches Mock.ok_server Json.loads
         Mock.no_int_of_str Mock.acme_client
         "acme" (Some 501)) /\
  ~ rejected_before_network
      (admin_list_deletion_receipts Mock.ok_server Json.loads
         Mock.acme_client "acme" None (Some 501)) /\
  ~ rejected_before_network
      (list_api_keys Mock.ok_server Json.loads
         Mock.prov_client "acme" (Some 501)) /\
  exists r,
    issues (admin_list_batches Mock.ok_server Json.loads
              Mock.no_int_of_str Mock.acme_client
              "acme" (Some 501)) [] r /\
    req_params r = Some [("tenant_id", PyStr "acme"); ("limit", PyInt 501)].
Proof.
  split; [lia |].
  split; [intros H; destruct (H []) as [msg E]; vm_compute in E; discriminate |].
  split; [intros H; destruct (H []) as [msg E]; vm_compute in E; discriminate |].
  split; [intros H; destruct (H []) as [msg E]; vm_compute in E; discriminate |].
  eexists. split; [vm_compute; reflexivity | reflexivity].
Qed.

(** The limits 501 and 0. *)
Lemma limit_checks_reject_before_network_witness :
  (501 < 1 \/ 500 < 501) /\ 0 < 1 /\
  rejected_before_network
    (admin_list_events Mock.ok_server Json.loads
       Mock.acme_client "acme" None (Some 501)) /\
  rejected_before_network
    (admin_list_batches Mock.ok_server Json.loads
       Mock.no_int_of_str Mock.acme_client
       "acme" (Some 0)) /\
  rejected_before_network
    (list_api_keys Mock.ok_server Json.loads
       Mock.prov_client "acme" (Some 0)).
Proof.
  split; [lia |]. split; [lia |].
  split.
  - apply (proj1 (limit_checks_reject_before_network
                    Mock.ok_server Json.loads Mock.no_int_of_str
                    Mock.acme_client
                    Mock.prov_client "acme" None 501)). lia.
  - destruct (proj2 (limit_checks_reject_before_network
                    Mock.ok_server Json.loads Mock.no_int_of_str
                    Mock.acme_client
                    Mock.prov_client "acme" None 0)) as (H1 & _ & H3); [lia |].
    split; assumption.
Defined.

(** The 422 response of the error contract, read by [Json.loads]. *)
Lemma non_2xx_raises_protocol_error_witness :
  (422 < 200 \/ 300 <= 422) /\
  Json.loads body_422 = Some parsed_422 /\
  snd (_request_json (Mock.constant_server 422 body_422) Json.loads
         Mock.client "POST" "/v1/ingest" None
         (Some (PyDict [])) None true [])
  = Raise (VmpHttpError 422 "invalid input" body_422 details_422).
Proof.
  split; [lia |]. split; [vm_compute; reflexivity |].
  destruct (non_2xx_raises_protocol_error
              (Mock.constant_server 422 body_422) Json.loads
              Mock.client Mock.prov_client
              "POST" "/v1/ingest" None (Some (PyDict [])) None true []
              (mkRequest "POST" "https://vmp.example" "/v1/ingest" None
                 (Some (PyDict []))
                 [("Accept", "application/json");
                  ("Authorization", "Bearer secret")])
              422 body_422
              (snd (_request_json (Mock.constant_server 422 body_422)
                      Json.loads Mock.client "POST"
                      "/v1/ingest" None (Some (PyDict [])) None true [])))
    as (msg & details & E & _ & _ & _ & H422).
  - right. lia.
  - reflexivity.
  - left. split; [vm_compute; reflexivity | reflexivity].
  - destruct H422 as [-> ->];
      [reflexivity | reflexivity | vm_compute; reflexivity |].
    exact E.
Defined.

(** A 200 response whose body is two spaces. *)
Lemma empty_2xx_body_decodes_to_empty_object_witness :
  200 <= 200 < 300 /\
  PyStr.all PyStr.isspace "  " = true /\
  snd (_request_json (Mock.constant_server 200 "  ") Json.loads
         Mock.client "GET" "/v1/whoami" None None
         None true [])
  = Return (PyDict []) /\
  snd (Provisioning_request_json (Mock.constant_server 200 "  ") Json.loads
         Mock.prov_client "GET" "/v1/admin/api-keys" None None [])
  = Return (PyDict []).
Proof.
  split; [lia |]. split; [reflexivity |].
  split.
  - eapply (proj1 (empty_2xx_body_decodes_to_empty_object
                     (Mock.constant_server 200 "  ") Json.loads
                     Mock.client Mock.prov_client
                     "GET" "/v1/whoami" None None None true []
                     (mkRequest "GET" "https://vmp.example" "/v1/whoami" None
                        None
                        [("Accept", "application/json");
                         ("Authorization", "Bearer secret")])
                     200 "  " ltac:(lia) eq_refl eq_refl)).
    vm_compute. reflexivity.
  - eapply (proj2 (empty_2xx_body_decodes_to_empty_object
                     (Mock.constant_server 200 "  ") Json.loads
                     Mock.client Mock.prov_client
                     "GET" "/v1/admin/api-keys" None None None true []
                     (mkRequest "GET" "https://vmp.example"
                        "/v1/admin/api-keys" None None
                        [("Accept", "application/json");
                         ("Authorization", "Bearer console-token")])
                     200 "  " ltac:(lia) eq_refl eq_refl)).
    vm_compute. reflexivity.
Defined.

(** The request of an offline verification through a client built with
    the key [secret]. *)
Lemma offline_verify_requests_carry_authorization_witness :
  VmpClient_init Mock.httpx_ok "https://vmp.example/" "secret" None 15000 None
  = Return Mock.client /\
  exists r,
    issues (verify_event_bundle_offline Mock.ok_server
              Json.loads Mock.client
              Mock.event_bundle) [] r /\
    req_path r = "/v1/verify/bundle" /\
    header_get (req_headers r) "Authorization" = Some "Bearer secret".
Proof.
  split; [reflexivity |].
  exact (proj1 (offline_verify_requests_carry_authorization
                  Mock.ok_server Json.loads Mock.httpx_ok
                  "https://vmp.example/" "secret" None 15000 None
                  Mock.client Mock.event_bundle []
                  eq_refl)).
Defined.

(** Two clients that differ only in their API key issue different
    requests for the offline verifications. *)
Lemma offline_verify_depends_on_api_key :
  requests (fst (verify_event_bundle_offline Mock.ok_server
                   Json.loads (Mock.vmp_client "key-one" None None)
                   Mock.event_bundle []))
  <> requests (fst (verify_event_bundle_offline Mock.ok_server
                      Json.loads (Mock.vmp_client "key-two" None None)
                      Mock.event_bundle [])) /\
  requests (fst (verify_deletion_bundle_offline Mock.ok_server
                   Json.loads (Mock.vmp_client "key-one" None None)
                   Mock.deletion_bundle []))
  <> requests (fst (verify_deletion_bundle_offline
                      Mock.ok_server Json.loads
                      (Mock.vmp_client "key-two" None None)
                      Mock.deletion_bundle [])).
Proof.
  split; vm_compute; intros H; discriminate.
Qed.

(** The empty tenant guardrail accepts tenant [acme]. *)
Lemma empty_tenant_guardrail_is_no_guardrail_witness :
  VmpClient_init Mock.httpx_ok "https://vmp.example/" "secret" (Some EmptyString) 15000 None
  = Return (Mock.vmp_client "secret" (Some EmptyString) None) /\
  assert_tenant_id "acme" = Return tt /\
  _enforce_tenant (Mock.vmp_client "secret" (Some EmptyString) None) "acme" = Return tt.
Proof.
  split; [reflexivity |]. split; [reflexivity |].
  apply (proj1 (proj2 (empty_tenant_guardrail_is_no_guardrail
                  Mock.ok_server Json.loads Mock.no_int_of_str Mock.httpx_ok
                  "https://vmp.example/" "secret" 15000 None
                  (Mock.vmp_client "secret" (Some EmptyString) None) eq_refl "acme"))).
  reflexivity.
Defined.

(** One pending poll followed by a batched proof; and one pending poll
    followed by a pending poll read at 31 s, past the 30 s deadline. *)
Lemma wait_for_batch_first_batched_proof_or_timeout_witness :
  ms_to_seconds (timeout_ms WaitForBatchOptions_default)
  = Return Mock.seconds_30 /\
  (exists w1 proof,
    wait_for_batch Mock.poll_server Mock.poll_clock Json.loads
      Mock.sleep_error 5 Mock.client Mock.an_event_id None []
    = Some (w1, Return proof) /\
    pr_batch_id proof = PyStr "batch-1" /\
    length (requests w1) = 2%nat) /\
  (exists w1,
    wait_for_batch Mock.pending_server Mock.poll_clock Json.loads
      Mock.sleep_error 5 Mock.client Mock.an_event_id None []
    = Some (w1, Raise (VemorakSdkError
                         "wait_for_batch timed out for event_id=0123456789abcdef")) /\
    length (requests w1) = 2%nat).
Proof.
  assert (Hsecs : ms_to_seconds (timeout_ms WaitForBatchOptions_default)
                  = Return Mock.seconds_30) by reflexivity.
  split; [exact Hsecs |]. split.
  - eassert (Hp : polls_pending Mock.poll_server Mock.poll_clock Json.loads
                    Mock.sleep_error Mock.client Mock.an_event_id
                    WaitForBatchOptions_default
                    (float_add (Mock.poll_clock []) Mock.seconds_30)
                    1 [EvTime] _).
    { eapply polls_again;
        [vm_compute; reflexivity | reflexivity | vm_compute; reflexivity
        | vm_compute; reflexivity | vm_compute; reflexivity
        | apply polls_done]. }
    match type of Hp with
    | polls_pending _ _ _ _ _ _ _ _ _ _ ?w' =>
        eassert (Hg : get_proof Mock.poll_server Json.loads Mock.client
                        Mock.an_event_id w' = (_, Return _))
          by (vm_compute; reflexivity)
    end.
    destruct (wait_for_batch_first_batched_proof_or_timeout
                Mock.poll_server Mock.poll_clock Json.loads Mock.sleep_error
                Mock.client Mock.an_event_id None [] _ _ 1 5 _ _ Hsecs Hp Hg
                ltac:(lia)) as [Hret _].
    do 2 eexists. split; [exact (Hret eq_refl) | split; reflexivity].
  - eassert (Hp : polls_pending Mock.pending_server Mock.poll_clock
                    Json.loads Mock.sleep_error Mock.client Mock.an_event_id
                    WaitForBatchOptions_default
                    (float_add (Mock.poll_clock []) Mock.seconds_30)
                    1 [EvTime] _).
    { eapply polls_again;
        [vm_compute; reflexivity | reflexivity | vm_compute; reflexivity
        | vm_compute; reflexivity | vm_compute; reflexivity
        | apply polls_done]. }
    match type of Hp with
    | polls_pending _ _ _ _ _ _ _ _ _ _ ?w' =>
        eassert (Hg : get_proof Mock.pending_server Json.loads Mock.client
                        Mock.an_event_id w' = (_, Return _))
          by (vm_compute; reflexivity)
    end.
    destruct (wait_for_batch_first_batched_proof_or_timeout
                Mock.pending_server Mock.poll_clock Json.loads
                Mock.sleep_error Mock.client Mock.an_event_id None [] _ _ 1 5
                _ _ Hsecs Hp Hg ltac:(lia)) as [_ Hto].
    destruct (Hto eq_refl ltac:(vm_compute; reflexivity))
      as (e & Hrun & -> & _ & _).
    eexists. split; [exact Hrun | reflexivity].
Defined.

(** With a poll interval of -1 ms the wait ends after the first pending
    poll, 1 s into a 30 s timeout: [time.sleep] raises [ValueError], no
    proof is returned and the error is not the timeout of the wait. *)
Lemma negative_poll_interval_ends_the_wait :
  exists r,
    wait_for_batch Mock.pending_server Mock.poll_clock Json.loads
      Mock.sleep_error 5 Mock.client Mock.an_event_id
      (Some (mkWaitForBatchOptions 30000 (-1))) []
    = Some ([EvTime; EvRequest r; EvTime], Raise ValueError) /\
    float_gt (Mock.poll_clock [EvTime; EvRequest r])
      (float_add (Mock.poll_clock []) Mock.seconds_30) = false /\
    is_sdk_error ValueError = false.
Proof.
  eexists. split; [vm_compute; reflexivity |].
  split; [vm_compute; reflexivity | reflexivity].
Qed.

(** A negative timeout and a proof that is already batched. *)
Lemma wait_for_batch_polls_before_checking_deadline_witness :
  ms_to_seconds (-5)
  = Return (SpecFloat.SFdiv 53 1024 (nearest_float (-5)) (nearest_float 1000)) /\
  exists w1 proof,
    wait_for_batch Mock.batched_server Mock.poll_clock Json.loads
      Mock.sleep_error 1 Mock.client Mock.an_event_id
      (Some (mkWaitForBatchOptions (-5) 800)) []
    = Some (w1, Return proof) /\
    pr_batch_id proof = PyStr "batch-1" /\
    clock_reads w1 = 1%nat.
Proof.
  assert (Hsecs : ms_to_seconds (-5)
                  = Return (SpecFloat.SFdiv 53 1024 (nearest_float (-5))
                              (nearest_float 1000))) by reflexivity.
  split; [exact Hsecs |].
  destruct (wait_for_batch_polls_before_checking_deadline
              Mock.batched_server Mock.poll_clock Json.loads Mock.sleep_error
              Mock.client Mock.an_event_id
              (Some (mkWaitForBatchOptions (-5) 800)) 0 [] _ Hsecs)
    as (w1 & r1 & Hg & Hreads & _ & _ & Hret).
  vm_compute in Hg. inversion Hg; subst w1 r1.
  do 2 eexists. split; [apply Hret; reflexivity | split; reflexivity].
Defined.

(** A timeout of -10^400 ms does not convert to seconds: the wait raises
    [OverflowError] when it computes the deadline, before any poll, also
    when the proof is already batched. *)
Lemma huge_timeout_ends_the_wait_before_the_first_poll :
  - 10 ^ 400 <= 0 /\
  wait_for_batch Mock.batched_server Mock.poll_clock Json.loads
    Mock.sleep_error 5 Mock.client Mock.an_event_id
    (Some (mkWaitForBatchOptions (- 10 ^ 400) 800)) []
  = Some ([EvTime], Raise OverflowError) /\
  requests [EvTime] = [] /\
  (exists proof,
      snd (get_proof Mock.batched_server Json.loads Mock.client
             Mock.an_event_id [EvTime]) = Return proof /\
      is_none (pr_batch_id proof) = false).
Proof.
  split; [vm_compute; discriminate |].
  split; [vm_compute; reflexivity |]. split; [reflexivity |].
  eexists. split; [vm_compute; reflexivity | reflexivity].
Qed.

(** The event bundle fetched on its own and nested in a deletion bundle. *)
Lemma bundle_decoders_agree_witness :
  assert_uuid_like "event_id" Mock.an_event_id = Return tt /\
  exists w1 : World,
    _request_json Mock.bundle_server Json.loads Mock.client "GET"
      ("/v1/events/" ++ Mock.an_event_id ++ "/bundle") None None None true []
    = (w1, Return Mock.event_bundle) /\
    get_event_bundle Mock.bundle_server Json.loads Mock.client Mock.an_event_id []
    = (w1, _parse_event_bundle_from_dict Mock.event_bundle) /\
    exists (w2 : World) (b : DeletionReceiptBundleResponse),
      get_deletion_receipt_bundle Mock.bundle_server Json.loads Mock.client
        Mock.a_receipt_id w1 = (w2, Return b) /\
      get_event_bundle Mock.bundle_server Json.loads Mock.client Mock.an_event_id []
      = (w1, Return (db_delete_event_bundle b)).
Proof.
  split; [reflexivity |].
  eassert (Hreq : _request_json Mock.bundle_server Json.loads Mock.client "GET"
                    ("/v1/events/" ++ Mock.an_event_id ++ "/bundle") None None
                    None true []
                  = (_, Return Mock.event_bundle))
    by (vm_compute; reflexivity).
  destruct (bundle_decoders_agree Mock.bundle_server Json.loads Mock.client
              Mock.an_event_id Mock.a_receipt_id [] _ Mock.event_bundle
              eq_refl Hreq) as [Hm Hn].
  match type of Hreq with
  | _ = (?w1, _) =>
      eassert (Hreq' : _request_json Mock.bundle_server Json.loads Mock.client "GET"
                         ("/v1/deletion-receipts/" ++ Mock.a_receipt_id
                          ++ "/bundle") None None None true w1
                       = (_, Return Mock.deletion_bundle))
        by (vm_compute; reflexivity);
      eassert (Hb : get_deletion_receipt_bundle Mock.bundle_server Json.loads
                      Mock.client Mock.a_receipt_id w1 = (_, Return _))
        by (vm_compute; reflexivity)
  end.
  eexists. split; [exact Hreq |]. split; [exact Hm |].
  do 2 eexists. split; [exact Hb |].
  exact (Hn _ _ _ _ Hreq' eq_refl Hb).
Defined.

(* ===================================================================== *)
(** ** Further properties: the validators                                 *)
(* ===================================================================== *)

Lemma rstrip_with_empty (p : ascii -> bool) (s : string) :
  PyStr.rstrip_with p s = EmptyString <-> PyStr.all p s = true.
Proof.
  induction s as [| c s IH]; simpl; [tauto |].
  destruct (PyStr.rstrip_with p s) eqn:E.
  - destruct (p c); simpl; split; intros H; try discriminate.
    + now apply IH.
    + reflexivity.
  - split; [discriminate |]. intros H.
    apply andb_true_iff in H. destruct H as [_ H].
    apply IH in H. discriminate.
Qed.

Lemma all_lstrip (s : string) :
  PyStr.all PyStr.isspace (PyStr.lstrip s) = PyStr.all PyStr.isspace s.
Proof.
  induction s as [| c s IH]; [reflexivity |].
  simpl. destruct (PyStr.isspace c) eqn:E; simpl; [exact IH |].
  rewrite E. reflexivity.
Qed.

Lemma strip_empty_iff (s : string) :
  PyStr.strip s = EmptyString <-> PyStr.all PyStr.isspace s = true.
Proof.
  unfold PyStr.strip, PyStr.rstrip.
  rewrite rstrip_with_empty, all_lstrip. tauto.
Qed.

Lemma assert_non_empty_iff (name value : string) :
  assert_non_empty name value = Return tt <->
  PyStr.all PyStr.isspace value = false.
Proof.
  unfold assert_non_empty, PyStr.truthy, PyStr.is_empty.
  destruct (PyStr.strip value) eqn:E; simpl.
  - apply strip_empty_iff in E. rewrite E. split; discriminate.
  - split; [| reflexivity]. intros _.
    destruct (PyStr.all PyStr.isspace value) eqn:Ea; [| reflexivity].
    apply strip_empty_iff in Ea. congruence.
Qed.

Lemma any_false_all_false (p : ascii -> bool) (s : string) :
  s <> EmptyString -> PyStr.any p s = false -> PyStr.all p s = false.
Proof.
  destruct s as [| c s]; [congruence |]. simpl. intros _ H.
  apply orb_false_iff in H. destruct H as [-> _]. reflexivity.
Qed.

Lemma any_excludes_all (p q : ascii -> bool) (s : string) :
  (forall c, p c = true -> q c = false) ->
  PyStr.any p s = true -> PyStr.all q s = false.
Proof.
  intros Hpq. induction s as [| c s IH]; simpl; [discriminate |].
  intros H. apply orb_true_iff in H. destruct H as [H | H].
  - rewrite (Hpq c H). reflexivity.
  - rewrite (IH H). apply andb_false_r.
Qed.

Lemma last_char_any (p : ascii -> bool) (s : string) (c : ascii) :
  PyStr.last_char s = Some c -> p c = true -> PyStr.any p s = true.
Proof.
  induction s as [| d s IH]; simpl; [discriminate |].
  destruct s as [| d' s'].
  - intros H Hp. injection H as ->. rewrite Hp. reflexivity.
  - intros H Hp. rewrite (IH H Hp). apply orb_true_r.
Qed.

Lemma separator_is_not_space (c : ascii) :
  Ascii.eqb ":"%char c = true -> PyStr.isspace c = false.
Proof.
  intros H. apply Ascii.eqb_eq in H. subst c. reflexivity.
Qed.

Lemma endswith_contains (s : string) (c : ascii) :
  PyStr.endswith_char s c = true -> PyStr.contains c s = true.
Proof.
  unfold PyStr.endswith_char, PyStr.contains.
  destruct (PyStr.last_char s) as [d |] eqn:E; [| discriminate].
  intros H. eapply last_char_any; [exact E |].
  rewrite Ascii.eqb_sym. exact H.
Qed.

Lemma prefix_any (p : ascii -> bool) (pre s : string) :
  String.prefix pre s = true -> PyStr.any p pre = true -> PyStr.any p s = true.
Proof.
  revert s. induction pre as [| c pre IH]; intros s Hpre H;
    [discriminate H |].
  destruct s as [| d s]; [discriminate Hpre |]. simpl in *.
  destruct (Ascii.ascii_dec c d) as [-> | Hn]; [| discriminate Hpre].
  apply orb_true_iff in H. destruct H as [-> | H]; [reflexivity |].
  rewrite (IH s Hpre H). apply orb_true_r.
Qed.

Lemma assert_tenant_id_iff :
  forall tenant_id : string,
    assert_tenant_id tenant_id = Return tt <->
    tenant_id <> EmptyString /\ PyStr.len tenant_id <= 128 /\
    PyStr.any PyStr.isspace tenant_id = false.
Proof.
  intros t. unfold assert_tenant_id, obind.
  destruct (assert_non_empty "tenant_id" t) as [[] | e] eqn:En.
  - apply assert_non_empty_iff in En.
    destruct (PyStr.len t >? 128) eqn:El.
    + split; [discriminate | lia].
    + destruct (PyStr.any PyStr.isspace t) eqn:Ea.
      * split; [discriminate | intros (_ & _ & H); discriminate].
      * split; [| reflexivity]. intros _.
        repeat split; [| lia]. intros ->. discriminate.
  - split; [discriminate |]. intros (Hne & _ & Ha).
    pose proof (any_false_all_false _ t Hne Ha) as H.
    apply (assert_non_empty_iff "tenant_id") in H. congruence.
Qed.

Lemma assert_scope_iff :
  forall scope : string,
    assert_scope scope = Return tt <->
    PyStr.contains ":"%char scope = true /\ PyStr.len scope <= 128.
Proof.
  intros s. unfold assert_scope, obind.
  destruct (assert_non_empty "scope" s) as [[] | e] eqn:En.
  - destruct (PyStr.len s >? 128) eqn:El.
    + split; [discriminate | lia].
    + destruct (PyStr.contains ":"%char s); simpl.
      * split; [intros _; split; [reflexivity | lia] | reflexivity].
      * split; [discriminate | intros [H _]; discriminate].
  - split; [discriminate |]. intros [Hc _].
    pose proof (any_excludes_all _ PyStr.isspace s separator_is_not_space Hc)
      as H.
    apply (assert_non_empty_iff "scope") in H. congruence.
Qed.

Lemma assert_scope_prefix_iff :
  forall scope_prefix : string,
    assert_scope_prefix scope_prefix = Return tt <->
    PyStr.endswith_char scope_prefix ":"%char = true.
Proof.
  intros p. unfold assert_scope_prefix, obind.
  destruct (assert_non_empty "scope_prefix" p) as [[] | e] eqn:En.
  - destruct (PyStr.endswith_char p ":"%char); simpl;
      split; try reflexivity; discriminate.
  - split; [discriminate |]. intros He.
    pose proof (any_excludes_all _ PyStr.isspace p separator_is_not_space
                  (endswith_contains p _ He)) as H.
    apply (assert_non_empty_iff "scope_prefix") in H. congruence.
Qed.

(** [X1] [assert_tenant_id] accepts exactly the non-empty strings of at
    most 128 characters without whitespace, and raises [VemorakSdkError]
    for every other string. *)
Theorem assert_tenant_id_accepts :
  forall tenant_id : string,
    (assert_tenant_id tenant_id = Return tt <->
     tenant_id <> EmptyString /\ PyStr.len tenant_id <= 128 /\
     PyStr.any PyStr.isspace tenant_id = false) /\
    (~ (tenant_id <> EmptyString /\ PyStr.len tenant_id <= 128 /\
        PyStr.any PyStr.isspace tenant_id = false) ->
     exists msg, assert_tenant_id tenant_id = Raise (VemorakSdkError msg)).
Proof.
  intros t. split; [apply assert_tenant_id_iff |].
  intros Hn. destruct (assert_tenant_id_checks t) as [H | H]; [| exact H].
  apply assert_tenant_id_iff in H. contradiction.
Qed.

(** [X2] [assert_scope] accepts exactly the strings of at most 128
    characters that contain the [:] separator; its non-empty check never
    decides. *)
Theorem assert_scope_accepts :
  forall scope : string,
    assert_scope scope = Return tt <->
    PyStr.contains ":"%char scope = true /\ PyStr.len scope <= 128.
Proof. exact assert_scope_iff. Qed.

(** [X3] [assert_scope_prefix] accepts exactly the strings that end with
    [:]. *)
Theorem assert_scope_prefix_accepts :
  forall scope_prefix : string,
    assert_scope_prefix scope_prefix = Return tt <->
    PyStr.endswith_char scope_prefix ":"%char = true.
Proof. exact assert_scope_prefix_iff. Qed.

Lemma hex_or_dash_is_not_space (c : ascii) :
  is_hex_or_dash c = true -> PyStr.isspace c = false.
Proof.
  destruct c as [[] [] [] [] [] [] [] []]; vm_compute; congruence.
Qed.

Lemma all_drop_last (p : ascii -> bool) (s : string) :
  PyStr.all p s = true -> PyStr.all p (PyStr.drop_last s) = true.
Proof.
  induction s as [| c s IH]; [reflexivity |].
  simpl. intros H. apply andb_true_iff in H. destruct H as [Hc Hs].
  destruct s as [| d s']; [reflexivity |].
  change (PyStr.all p (String c (PyStr.drop_last (String d s'))) = true).
  simpl PyStr.all at 1. rewrite Hc. exact (IH Hs).
Qed.

Lemma all_both_empty (p q : ascii -> bool) (s : string) :
  (forall c, p c = true -> q c = false) ->
  PyStr.all p s = true -> PyStr.all q s = true -> s = EmptyString.
Proof.
  intros Hpq. destruct s as [| c s]; [reflexivity |]. simpl.
  intros H1 H2. apply andb_true_iff in H1. apply andb_true_iff in H2.
  destruct H1 as [H1 _]. destruct H2 as [H2 _].
  rewrite (Hpq c H1) in H2. discriminate.
Qed.

Lemma len_drop_last_le (s : string) : PyStr.len (PyStr.drop_last s) <= PyStr.len s.
Proof.
  unfold PyStr.len. apply inj_le.
  induction s as [| c s IH]; [apply le_n |].
  destruct s as [| d s']; [simpl; lia |].
  change (S (String.length (PyStr.drop_last (String d s')))
          <= S (String.length (String d s')))%nat.
  lia.
Qed.

Lemma uuid_match_not_blank (value : string) :
  _UUID_LIKE_match value = true -> PyStr.all PyStr.isspace value = false.
Proof.
  unfold _UUID_LIKE_match. intros H. apply andb_true_iff in H.
  destruct H as [Hall Hlen]. apply Z.leb_le in Hlen.
  destruct (PyStr.all PyStr.isspace value) eqn:Es; [| reflexivity].
  exfalso.
  assert (Hc : forall core,
             PyStr.all is_hex_or_dash core = true ->
             PyStr.all PyStr.isspace core = true -> 16 <= PyStr.len core ->
             False).
  { intros core H1 H2 H3.
    rewrite (all_both_empty _ _ core hex_or_dash_is_not_space H1 H2) in H3.
    unfold PyStr.len in H3. simpl in H3. lia. }
  destruct (PyStr.endswith_char value "010"%char).
  - apply (Hc _ Hall); [now apply all_drop_last | exact Hlen].
  - exact (Hc _ Hall Es Hlen).
Qed.

Lemma assert_uuid_like_iff (name value : string) :
  assert_uuid_like name value = Return tt <-> _UUID_LIKE_match value = true.
Proof.
  unfold assert_uuid_like, obind.
  destruct (assert_non_empty name value) as [[] | e] eqn:En.
  - destruct (_UUID_LIKE_match value); simpl; split; try reflexivity;
      discriminate.
  - split; [discriminate |]. intros H.
    apply uuid_match_not_blank in H.
    apply (assert_non_empty_iff name) in H. congruence.
Qed.

Lemma endswith_app_char (s : string) (c : ascii) :
  PyStr.endswith_char (s ++ String c EmptyString) c = true.
Proof.
  unfold PyStr.endswith_char.
  assert (E : PyStr.last_char (s ++ String c EmptyString) = Some c).
  { induction s as [| d s IH]; [reflexivity |].
    simpl. destruct (s ++ String c EmptyString) eqn:Ea; [| exact IH].
    destruct s; discriminate. }
  rewrite E. apply Ascii.eqb_refl.
Qed.

Lemma drop_last_app_char (s : string) (c : ascii) :
  PyStr.drop_last (s ++ String c EmptyString) = s.
Proof.
  induction s as [| d s IH]; [reflexivity |].
  simpl. destruct (s ++ String c EmptyString) eqn:Ea.
  - destruct s; discriminate.
  - rewrite IH. reflexivity.
Qed.

Lemma last_char_all (p : ascii -> bool) (s : string) (c : ascii) :
  PyStr.last_char s = Some c -> PyStr.all p s = true -> p c = true.
Proof.
  induction s as [| d s IH]; simpl; [discriminate |].
  intros H Ha. apply andb_true_iff in Ha. destruct Ha as [Hd Hs].
  destruct s as [| d' s'].
  - injection H as <-. exact Hd.
  - exact (IH H Hs).
Qed.

(** [X4] [assert_uuid_like] accepts exactly the values [_UUID_LIKE]
    matches, whatever the name: its non-empty check never decides; an
    accepted value has at least 16 characters. *)
Theorem assert_uuid_like_accepts :
  forall name value : string,
    (assert_uuid_like name value = Return tt <->
     _UUID_LIKE_match value = true) /\
    (assert_uuid_like name value = Return tt -> 16 <= PyStr.len value).
Proof.
  intros name v. split; [apply assert_uuid_like_iff |].
  intros H. apply assert_uuid_like_iff in H. unfold _UUID_LIKE_match in H.
  apply andb_true_iff in H. destruct H as [_ H]. apply Z.leb_le in H.
  destruct (PyStr.endswith_char v "010"%char); [| exact H].
  pose proof (len_drop_last_le v). lia.
Qed.

(** [X5] An id made of at least 16 hex digits and dashes is accepted by
    [assert_uuid_like], and so is the same id followed by one newline:
    without [re.MULTILINE], [$] matches before a final newline. *)
Theorem assert_uuid_like_accepts_trailing_newline :
  forall name value : string,
    PyStr.all is_hex_or_dash value = true ->
    16 <= PyStr.len value ->
    assert_uuid_like name value = Return tt /\
    assert_uuid_like name (value ++ String "010"%char EmptyString) = Return tt.
Proof.
  intros name v Hall Hlen. split; apply assert_uuid_like_iff;
    unfold _UUID_LIKE_match.
  - destruct (PyStr.endswith_char v "010"%char) eqn:E.
    + exfalso. unfold PyStr.endswith_char in E.
      destruct (PyStr.last_char v) as [d |] eqn:El; [| discriminate].
      apply Ascii.eqb_eq in E. subst d.
      pose proof (last_char_all _ _ _ El Hall) as H. discriminate H.
    + rewrite Hall. simpl. now apply Z.leb_le.
  - rewrite endswith_app_char, drop_last_app_char, Hall. simpl.
    now apply Z.leb_le.
Qed.

Lemma rstrip_with_last (p : ascii -> bool) (s : string) (c : ascii) :
  PyStr.last_char (PyStr.rstrip_with p s) = Some c -> p c = false.
Proof.
  induction s as [| d s IH]; simpl; [discriminate |].
  destruct (PyStr.rstrip_with p s) as [| e r] eqn:E.
  - destruct (p d) eqn:Ed; simpl; [discriminate |].
    intros H. injection H as <-. exact Ed.
  - intros H. apply IH. exact H.
Qed.

Lemma ms_to_seconds_raises (ms : Z) (e : exn) :
  ms_to_seconds ms = Raise e -> e = OverflowError.
Proof.
  unfold ms_to_seconds, float_of_int, obind.
  destruct (nearest_float ms); intros H; inversion H; reflexivity.
Qed.

(** [X6] [VmpClient(...)] succeeds exactly when [base_url] and [api_key]
    have a character that is not whitespace, [scope_prefix], when given,
    ends with [:], [timeout_ms / 1000.0] is a float and [httpx.Client]
    accepts the stripped base URL, that timeout and the two headers;
    [tenant_id] is not checked.  The client keeps the arguments as given,
    except that its base URL has the trailing slashes removed and so never
    ends with one.  A failure is a [VemorakSdkError] of the checks, the
    [OverflowError] of the division, or the error of [httpx.Client]. *)
Theorem VmpClient_init_succeeds :
  forall (httpx_init_error :
            string -> pyfloat -> list (string * string) -> option exn)
         (base_url api_key : string) (tenant_id : option string)
         (timeout_ms : Z) (scope_prefix : option string),
    ((exists self,
         VmpClient_init httpx_init_error base_url api_key tenant_id
           timeout_ms scope_prefix
         = Return self) <->
     PyStr.all PyStr.isspace base_url = false /\
     PyStr.all PyStr.isspace api_key = false /\
     (forall p, scope_prefix = Some p ->
                PyStr.endswith_char p ":"%char = true) /\
     (exists timeout,
         ms_to_seconds timeout_ms = Return timeout /\
         httpx_init_error (PyStr.rstrip_slash base_url) timeout
           [("Accept", "application/json");
            ("Authorization", "Bearer " ++ api_key)] = None)) /\
    (forall self,
        VmpClient_init httpx_init_error base_url api_key tenant_id
          timeout_ms scope_prefix
        = Return self ->
        _api_key self = api_key /\
        _tenant_guardrail self = tenant_id /\
        _scope_prefix_guardrail self = scope_prefix /\
        _base_url self = PyStr.rstrip_slash base_url /\
        hc_base_url (_client self) = _base_url self /\
        ms_to_seconds timeout_ms = Return (_timeout self) /\
        PyStr.endswith_char (_base_url self) "/"%char = false) /\
    (forall e,
        VmpClient_init httpx_init_error base_url api_key tenant_id
          timeout_ms scope_prefix
        = Raise e ->
        (exists msg, e = VemorakSdkError msg) \/
        (e = OverflowError /\ ms_to_seconds timeout_ms = Raise OverflowError) \/
        (exists timeout,
            ms_to_seconds timeout_ms = Return timeout /\
            httpx_init_error (PyStr.rstrip_slash base_url) timeout
              [("Accept", "application/json");
               ("Authorization", "Bearer " ++ api_key)] = Some e)).
Proof.
  intros httpx_init_error base_url api_key tenant_id timeout_ms scope_prefix.
  split; [| split].
  - split.
    + intros [self H]. pose proof H as Hinv.
      apply VmpClient_init_inv in Hinv. destruct Hinv as (t & Ht & Hh & _).
      unfold VmpClient_init, obind in H.
      destruct (assert_non_empty "base_url" base_url) as [[] |] eqn:Eb;
        [| discriminate].
      destruct (assert_non_empty "api_key" api_key) as [[] |] eqn:Ek;
        [| discriminate].
      apply assert_non_empty_iff in Eb, Ek.
      split; [exact Eb |]. split; [exact Ek |].
      split; [| exists t; split; assumption].
      intros p ->.
      destruct (assert_scope_prefix p) as [[] |] eqn:Ep; [| discriminate].
      now apply assert_scope_prefix_iff.
    + intros (Hb & Hk & Hp & t & Ht & Hh).
      apply (assert_non_empty_iff "base_url") in Hb.
      apply (assert_non_empty_iff "api_key") in Hk.
      unfold VmpClient_init, httpx_Client_new, obind.
      rewrite Hb, Hk.
      destruct scope_prefix as [p |];
        [rewrite (proj2 (assert_scope_prefix_iff p) (Hp p eq_refl)) |];
        rewrite Ht, Hh; eauto.
  - intros self H. apply VmpClient_init_inv in H.
    destruct H as (t & Ht & _ & ->). simpl.
    repeat split; [exact Ht |].
    unfold PyStr.endswith_char, PyStr.rstrip_slash.
    destruct (PyStr.last_char _) as [c |] eqn:E; [| reflexivity].
    apply rstrip_with_last in E. exact E.
  - intros e. unfold VmpClient_init, httpx_Client_new, obind.
    destruct (assert_non_empty_checks "base_url" base_url)
      as [-> | [msg ->]]; [| intros H; injection H as <-; eauto].
    destruct (assert_non_empty_checks "api_key" api_key)
      as [-> | [msg ->]]; [| intros H; injection H as <-; eauto].
    assert (Hrest :
      match ms_to_seconds timeout_ms with
      | Return x =>
          match
            match httpx_init_error (PyStr.rstrip_slash base_url) x
                    [("Accept", "application/json");
                     ("Authorization", "Bearer " ++ api_key)] with
            | Some e0 => Raise e0
            | None =>
                Return (mkHttpxClient (PyStr.rstrip_slash base_url) x
                          [("Accept", "application/json");
                           ("Authorization", "Bearer " ++ api_key)])
            end
          with
          | Return x0 =>
              Return (mkVmpClient (PyStr.rstrip_slash base_url) api_key
                        tenant_id scope_prefix x x0)
          | Raise e0 => Raise e0
          end
      | Raise e0 => Raise e0
      end = Raise e ->
      (exists msg, e = VemorakSdkError msg) \/
      (e = OverflowError /\ ms_to_seconds timeout_ms = Raise OverflowError) \/
      (exists timeout,
          ms_to_seconds timeout_ms = Return timeout /\
          httpx_init_error (PyStr.rstrip_slash base_url) timeout
            [("Accept", "application/json");
             ("Authorization", "Bearer " ++ api_key)] = Some e)).
    { destruct (ms_to_seconds timeout_ms) as [t | e0] eqn:Et.
      - destruct (httpx_init_error _ t _) as [e1 |] eqn:Eh;
          [| discriminate].
        intros H. injection H as <-. right; right. eauto.
      - intros H. injection H as <-.
        pose proof (ms_to_seconds_raises _ _ Et) as ->.
        right; left. split; reflexivity. }
    destruct scope_prefix as [p |]; [| exact Hrest].
    unfold assert_scope_prefix, obind.
    destruct (assert_non_empty_checks "scope_prefix" p)
      as [-> | [msg ->]]; [| intros H; injection H as <-; eauto].
    destruct (negb (PyStr.endswith_char p ":"%char));
      [intros H; injection H as <-; eauto | exact Hrest].
Qed.

(** [X7] With a non-empty tenant guardrail [t0], [_enforce_tenant]
    accepts a tenant id exactly when it is [t0] and [t0] itself passes
    [assert_tenant_id]; the constructor does not check [t0], so a client
    bound to a malformed tenant id rejects every tenant id. *)
Theorem _enforce_tenant_accepts :
  forall (self : VmpClient) (t0 tenant_id : string),
    _tenant_guardrail self = Some t0 -> t0 <> EmptyString ->
    (_enforce_tenant self tenant_id = Return tt <->
     tenant_id = t0 /\ assert_tenant_id t0 = Return tt) /\
    (assert_tenant_id t0 <> Return tt ->
     _enforce_tenant self tenant_id <> Return tt).
Proof.
  intros self t0 t Hg Hne.
  assert (Hiff : _enforce_tenant self t = Return tt <->
                 t = t0 /\ assert_tenant_id t0 = Return tt).
  { unfold _enforce_tenant, obind, tenant_mismatch. rewrite Hg.
    destruct t0 as [| c t0']; [congruence |]. simpl.
    destruct (String.eqb_spec t (String c t0')) as [-> | Hn]; simpl.
    - destruct (assert_tenant_id (String c t0')) as [[] | e];
        split; try tauto; try discriminate;
        intros [_ H]; discriminate.
    - destruct (assert_tenant_id t) as [[] | e]; split; try discriminate;
        intros [H _]; congruence. }
  split; [exact Hiff |]. intros Hbad H. apply Hiff in H. tauto.
Qed.

(** [X8] A scope that passes a configured scope-prefix guardrail contains
    the [:] separator, because the constructor only accepts prefixes that
    end with [:]; for such a scope [assert_scope] decides on the length
    alone. *)
Theorem scope_within_prefix_is_namespaced :
  forall (base_url api_key : string) (tenant_id : option string)
         (timeout_ms : Z) (p : string) (self : VmpClient) (scope : string)
         (httpx_init_error :
            string -> pyfloat -> list (string * string) -> option exn),
    VmpClient_init httpx_init_error base_url api_key tenant_id timeout_ms
      (Some p)
    = Return self ->
    _enforce_scope_prefix self scope = Return tt ->
    PyStr.startswith scope p = true /\
    PyStr.contains ":"%char scope = true /\
    (assert_scope scope = Return tt <-> PyStr.len scope <= 128).
Proof.
  intros base_url api_key tenant_id timeout_ms p self scope httpx_init_error
    Hinit Hs.
  assert (Hp : PyStr.endswith_char p ":"%char = true).
  { unfold VmpClient_init, obind in Hinit.
    destruct (assert_non_empty "base_url" base_url); [| discriminate].
    destruct (assert_non_empty "api_key" api_key); [| discriminate].
    destruct (assert_scope_prefix p) as [[] |] eqn:Ep; [| discriminate].
    now apply assert_scope_prefix_iff. }
  apply VmpClient_init_inv in Hinit. destruct Hinit as (t & _ & _ & ->).
  unfold _enforce_scope_prefix, assert_scope_matches_prefix in Hs.
  simpl in Hs.
  destruct (PyStr.startswith scope p) eqn:Est; [| discriminate].
  assert (Hc : PyStr.contains ":"%char scope = true).
  { unfold PyStr.contains. eapply prefix_any; [exact Est |].
    now apply endswith_contains. }
  split; [reflexivity |]. split; [exact Hc |].
  rewrite assert_scope_iff. tauto.
Qed.

(* ===================================================================== *)
(** ** Further properties: requests and answers                           *)
(* ===================================================================== *)

Section Requests.

Variable server : World -> Request -> transport_result.
Variable json_loads : string -> option pyval.
Variable httpx_init_error :
  string -> pyfloat -> list (string * string) -> option exn.

(** The headers [VmpClient._request_json] passes to [httpx]. *)
Lemma _request_json_request (self : VmpClient) (method path : string)
  (query : option pydict) (body : option pyval)
  (idempotency_key : option string) (auth : bool) (w : World) (r : Request) :
  issues (_request_json server json_loads self method path query body
            idempotency_key auth) w r ->
  exists headers,
    r = mkRequest method (hc_base_url (_client self)) path query
          (if negb (String.eqb (PyStr.upper method) "GET") then body
           else None)
          (merge_headers (hc_headers (_client self)) headers) /\
    header_get headers "Accept" = Some "application/json" /\
    header_get headers "Authorization"
    = (if auth then Some ("Bearer " ++ _api_key self) else None) /\
    header_get headers "x-idempotency-key"
    = (if opt_truthy idempotency_key then idempotency_key else None) /\
    snd (_request_json server json_loads self method path query body
           idempotency_key auth w)
    = answer json_loads (server w r).
Proof.
  unfold issues, _request_json, mbind, try_except, httpx_request, lift, raise.
  match goal with
  | |- context [server w ?R] => set (R0 := R)
  end.
  intros H.
  assert (Hr : r = R0).
  { destruct (server w R0); simpl in H; apply app_inj_tail in H;
      destruct H as [_ H]; congruence. }
  subst r.
  match goal with
  | R0 := mkRequest _ _ _ _ _ (merge_headers _ ?h) |- _ => exists h
  end.
  split; [reflexivity |].
  split; [destruct auth, idempotency_key as [[| c k] |]; reflexivity |].
  split; [destruct auth, idempotency_key as [[| c k] |]; reflexivity |].
  split; [destruct auth, idempotency_key as [[| c k] |]; reflexivity |].
  destruct (server w R0); reflexivity.
Qed.

Lemma Provisioning_request_json_request (self : ProvisioningClient)
  (method path : string) (query : option pydict) (body : option pyval)
  (w : World) (r : Request) :
  issues (Provisioning_request_json server json_loads self method path query
            body) w r ->
  r = mkRequest method (hc_base_url (_prov_client self)) path query
        (if negb (String.eqb method "GET") then body else None)
        (hc_headers (_prov_client self)) /\
  snd (Provisioning_request_json server json_loads self method path query
         body w)
  = answer json_loads (server w r).
Proof.
  unfold issues, Provisioning_request_json, mbind, try_except, httpx_request,
    lift, raise.
  match goal with
  | |- context [server w ?R] => set (R0 := R)
  end.
  intros H.
  assert (Hr : r = R0).
  { destruct (server w R0); simpl in H; apply app_inj_tail in H;
      destruct H as [_ H]; congruence. }
  subst r. split; [reflexivity |].
  destruct (server w R0); reflexivity.
Qed.

(** [X9] Every request that [VmpClient._request_json] issues through a
    constructed client goes to the client's base URL with the method, path
    and query it was given, and carries [Accept: application/json], the
    bearer credential of the client, and the [x-idempotency-key] header
    exactly when a non-empty idempotency key was passed. *)
Theorem vmp_request_carries_client_headers :
  forall (base_url api_key : string) (tenant_id : option string)
         (timeout_ms : Z) (scope_prefix : option string) (self : VmpClient)
         (method path : string) (query : option pydict) (body : option pyval)
         (idempotency_key : option string) (auth : bool)
         (w : World) (r : Request),
    VmpClient_init httpx_init_error base_url api_key tenant_id timeout_ms scope_prefix
    = Return self ->
    issues (_request_json server json_loads self method path query body
              idempotency_key auth) w r ->
    req_method r = method /\ req_path r = path /\ req_params r = query /\
    req_base_url r = PyStr.rstrip_slash base_url /\
    header_get (req_headers r) "Accept" = Some "application/json" /\
    header_get (req_headers r) "Authorization" = Some ("Bearer " ++ api_key) /\
    header_get (req_headers r) "x-idempotency-key"
    = (if opt_truthy idempotency_key then idempotency_key else None).
Proof.
  intros base_url api_key tenant_id timeout_ms scope_prefix self method path
    query body idem auth w r Hinit Hi.
  apply VmpClient_init_inv in Hinit. destruct Hinit as (t & _ & _ & ->).
  unfold issues, _request_json, mbind, try_except, httpx_request, lift, raise
    in Hi.
  match type of Hi with
  | context [server w ?R] => set (R0 := R) in Hi
  end.
  assert (Hr : r = R0).
  { destruct (server w R0); simpl in Hi; apply app_inj_tail in Hi;
      destruct Hi as [_ Hi]; congruence. }
  subst r. clear Hi.
  destruct auth, idem as [[| c k] |]; repeat split; reflexivity.
Qed.

(** [X10] A request whose method is [GET] never carries a JSON body.
    [VmpClient] compares the upper-cased method, [ProvisioningClient] the
    method as given: with any other spelling it sends the body. *)
Theorem get_requests_carry_no_body :
  forall (self : VmpClient) (prov : ProvisioningClient) (method path : string)
         (query : option pydict) (body : option pyval)
         (idempotency_key : option string) (auth : bool)
         (w : World) (r : Request),
    (issues (_request_json server json_loads self method path query body
               idempotency_key auth) w r ->
     (PyStr.upper method = "GET" -> req_json r = None) /\
     (PyStr.upper method <> "GET" -> req_json r = body)) /\
    (issues (Provisioning_request_json server json_loads prov method path
               query body) w r ->
     (method = "GET" -> req_json r = None) /\
     (method <> "GET" -> req_json r = body)).
Proof.
  intros self prov method path query body idem auth w r. split; intros Hi.
  - apply _request_json_request in Hi.
    destruct Hi as (headers & -> & _). simpl.
    destruct (String.eqb_spec (PyStr.upper method) "GET"); simpl;
      split; intros; congruence.
  - apply Provisioning_request_json_request in Hi.
    destruct Hi as (-> & _). simpl.
    destruct (String.eqb_spec method "GET"); simpl;
      split; intros; congruence.
Qed.

(** [X11] When the transport times out, either client raises
    [VmpTimeoutError]; any other transport failure is raised as it is and
    is not an SDK error. *)
Theorem transport_failures_surface :
  forall (self : VmpClient) (prov : ProvisioningClient) (method path : string)
         (query : option pydict) (body : option pyval)
         (idempotency_key : option string) (auth : bool)
         (w : World) (r : Request) (res : outcome pyval),
    (issues (_request_json server json_loads self method path query body
               idempotency_key auth) w r /\
     res = snd (_request_json server json_loads self method path query body
                  idempotency_key auth w)) \/
    (issues (Provisioning_request_json server json_loads prov method path
               query body) w r /\
     res = snd (Provisioning_request_json server json_loads prov method path
                  query body w)) ->
    (server w r = TimedOut ->
     res = Raise (VmpTimeoutError "VMP request timed out")) /\
    (forall name,
        server w r = TransportFailed name ->
        res = Raise (HttpxError name) /\ is_sdk_error (HttpxError name) = false).
Proof.
  intros self prov method path query body idem auth w r res Hres.
  assert (Hr : res = answer json_loads (server w r)).
  { destruct Hres as [[Hi ->] | [Hi ->]].
    - apply _request_json_request in Hi. destruct Hi as (h & _ & _ & _ & _ & E).
      exact E.
    - apply Provisioning_request_json_request in Hi. exact (proj2 Hi). }
  subst res. split.
  - intros ->. reflexivity.
  - intros name ->. split; reflexivity.
Qed.

(** [X12] For a 2xx response whose body is not blank, either client
    returns whatever the body decodes to, an object or not; when the body
    is not JSON the decoder's error is raised as it is and is not an SDK
    error. *)
Theorem success_body_is_decoded :
  forall (self : VmpClient) (prov : ProvisioningClient) (method path : string)
         (query : option pydict) (body : option pyval)
         (idempotency_key : option string) (auth : bool)
         (w : World) (r : Request) (status : Z) (body_text : string)
         (res : outcome pyval),
    200 <= status < 300 ->
    PyStr.all PyStr.isspace body_text = false ->
    server w r = Responded status body_text ->
    (issues (_request_json server json_loads self method path query body
               idempotency_key auth) w r /\
     res = snd (_request_json server json_loads self method path query body
                  idempotency_key auth w)) \/
    (issues (Provisioning_request_json server json_loads prov method path
               query body) w r /\
     res = snd (Provisioning_request_json server json_loads prov method path
                  query body w)) ->
    (forall v, json_loads body_text = Some v -> res = Return v) /\
    (json_loads body_text = None ->
     res = Raise JSONDecodeError /\ is_sdk_error JSONDecodeError = false).
Proof.
  intros self prov method path query body idem auth w r status body_text res
    Hst Hnb Hsrv Hres.
  assert (Hr : res = answer json_loads (server w r)).
  { destruct Hres as [[Hi ->] | [Hi ->]].
    - apply _request_json_request in Hi. destruct Hi as (h & _ & _ & _ & _ & E).
      exact E.
    - apply Provisioning_request_json_request in Hi. exact (proj2 Hi). }
  subst res. rewrite Hsrv. unfold answer, classify_response. simpl.
  replace ((status <? 200) || (status >=? 300)) with false
    by (symmetry; apply orb_false_iff; lia).
  assert (Hs : PyStr.truthy (PyStr.strip body_text) = true).
  { unfold PyStr.truthy, PyStr.is_empty.
    destruct (PyStr.strip body_text) eqn:E; [| reflexivity].
    apply strip_empty_iff in E. congruence. }
  rewrite Hs. simpl. unfold Response_json. simpl. split.
  - intros v ->. reflexivity.
  - intros ->. split; reflexivity.
Qed.

End Requests.

(* ===================================================================== *)
(** ** Further properties: the endpoint methods                           *)
(* ===================================================================== *)

Section Endpoints.

Variable server : World -> Request -> transport_result.
Variable json_loads : string -> option pyval.
Variable int_of_str : string -> option Z.
Variable str_of : pyval -> string.

Lemma assert_uuid_like_checks (name value : string) :
  checks (assert_uuid_like name value).
Proof.
  unfold assert_uuid_like, obind.
  destruct (assert_non_empty_checks name value) as [-> | [msg ->]];
    [| right; eauto].
  destruct (negb (_UUID_LIKE_match value)); [right | left]; eauto.
Qed.

Lemma assert_limit_checks (limit : option Z) : checks (assert_limit limit).
Proof.
  unfold assert_limit. destruct limit as [n |]; [| left; reflexivity].
  destruct ((n <? 1) || (n >? 500)); [right | left]; eauto.
Qed.

Lemma check_positive_limit_checks (limit : option Z) :
  checks (check_positive_limit limit).
Proof.
  unfold check_positive_limit. destruct limit as [n |]; [| left; reflexivity].
  destruct (n <? 1); [right | left]; eauto.
Qed.

Lemma not_issued_in_place (w : World) (r : Request) :
  w <> (w ++ [EvRequest r])%list.
Proof.
  intros H. apply (f_equal (@length event)) in H.
  rewrite length_app in H. simpl in H. lia.
Qed.

(** *** The shape of a call *)

Lemma call_shape_request {A : Type} (self : VmpClient) (method path : string)
  (query : option pydict) (body : option pyval)
  (idempotency_key : option string) (auth : bool) (f : pyval -> outcome A) :
  call_shape server json_loads
    (mbind (_request_json server json_loads self method path query body
              idempotency_key auth)
       (fun data => lift (f data))).
Proof.
  intros w. right.
  destruct (_request_json_answer server json_loads self method path query body
              idempotency_key auth w) as [r E].
  exists r, f. unfold mbind. rewrite E.
  destruct (answer json_loads (server w r)); reflexivity.
Qed.

Lemma call_shape_prov_request {A : Type} (self : ProvisioningClient)
  (method path : string) (query : option pydict) (body : option pyval)
  (f : pyval -> outcome A) :
  call_shape server json_loads
    (mbind (Provisioning_request_json server json_loads self method path query
              body)
       (fun data => lift (f data))).
Proof.
  intros w. right.
  destruct (Provisioning_request_json_answer server json_loads self method
              path query body w) as [r E].
  exists r, f. unfold mbind. rewrite E.
  destruct (answer json_loads (server w r)); reflexivity.
Qed.

Lemma call_shape_next {A : Type} (o : outcome unit) (k : unit -> M A) :
  checks o ->
  call_shape server json_loads (k tt) ->
  call_shape server json_loads (mbind (lift o) k).
Proof.
  intros [-> | [msg ->]] Hk w.
  - rewrite mbind_lift_return. apply Hk.
  - left. exists msg. apply mbind_lift_raise.
Qed.

Lemma call_shape_one_request {A : Type} (m : M A) :
  call_shape server json_loads m -> one_request_or_rejected m.
Proof.
  intros H w. destruct (H w) as [Hr | (r & decode & E)]; [left; exact Hr |].
  right. exists r. rewrite E. reflexivity.
Qed.

Lemma call_shape_propagates {A : Type} (m : M A) :
  call_shape server json_loads m -> propagates server json_loads m.
Proof.
  intros H w r e Hi Ha. unfold issues in Hi.
  destruct (H w) as [[msg E] | (r' & decode & E)]; rewrite E in *; simpl in *.
  - exfalso. exact (not_issued_in_place w r Hi).
  - apply app_inj_tail in Hi. destruct Hi as [_ Hi]. injection Hi as ->.
    rewrite Ha. reflexivity.
Qed.

Ltac shape :=
  repeat (apply call_shape_next;
          [first [ apply _enforce_tenant_checks
                 | apply assert_scope_checks
                 | apply _enforce_scope_prefix_checks
                 | apply assert_uuid_like_checks
                 | apply assert_limit_checks
                 | apply check_positive_limit_checks
                 | apply assert_non_empty_checks
                 | apply assert_tenant_id_checks
                 | apply scoped_checks ] |]);
  first [apply call_shape_request | apply call_shape_prov_request].

Lemma whoami_shape (self : VmpClient) :
  call_shape server json_loads (whoami server json_loads str_of self).
Proof. unfold whoami. shape. Qed.

Lemma ingest_shape (self : VmpClient) (tenant_id scope : string)
  (fields : pydict) (meta : option pydict) (op : string)
  (idempotency_key : option string) :
  call_shape server json_loads
    (ingest server json_loads self tenant_id scope fields meta op
       idempotency_key).
Proof. unfold ingest. shape. Qed.

Lemma delete_shape (self : VmpClient) (tenant_id scope target : string)
  (meta : option pydict) :
  call_shape server json_loads
    (delete server json_loads self tenant_id scope target meta).
Proof. unfold delete. shape. Qed.

Lemma get_proof_shape (self : VmpClient) (event_id : string) :
  call_shape server json_loads (get_proof server json_loads self event_id).
Proof. unfold get_proof. shape. Qed.

Lemma get_deletion_receipt_shape (self : VmpClient) (receipt_id : string) :
  call_shape server json_loads
    (get_deletion_receipt server json_loads self receipt_id).
Proof. unfold get_deletion_receipt. shape. Qed.

Lemma verify_deletion_shape (self : VmpClient) (receipt_id : string) :
  call_shape server json_loads
    (verify_deletion server json_loads self receipt_id).
Proof. unfold verify_deletion. shape. Qed.

Lemma get_event_bundle_shape (self : VmpClient) (event_id : string) :
  call_shape server json_loads
    (get_event_bundle server json_loads self event_id).
Proof. unfold get_event_bundle. shape. Qed.

Lemma get_deletion_receipt_bundle_shape (self : VmpClient)
  (receipt_id : string) :
  call_shape server json_loads
    (get_deletion_receipt_bundle server json_loads self receipt_id).
Proof. unfold get_deletion_receipt_bundle. shape. Qed.

Lemma verify_event_bundle_offline_shape (self : VmpClient) (bundle : pyval) :
  call_shape server json_loads
    (verify_event_bundle_offline server json_loads self bundle).
Proof. unfold verify_event_bundle_offline. shape. Qed.

Lemma verify_deletion_bundle_offline_shape (self : VmpClient)
  (bundle : pyval) :
  call_shape server json_loads
    (verify_deletion_bundle_offline server json_loads self bundle).
Proof. unfold verify_deletion_bundle_offline. shape. Qed.

Lemma admin_list_events_shape (self : VmpClient) (tenant_id : string)
  (scope : option string) (limit : option Z) :
  call_shape server json_loads
    (admin_list_events server json_loads self tenant_id scope limit).
Proof. unfold admin_list_events. shape. Qed.

Lemma admin_list_batches_shape (self : VmpClient) (tenant_id : string)
  (limit : option Z) :
  call_shape server json_loads
    (admin_list_batches server json_loads int_of_str self tenant_id limit).
Proof. unfold admin_list_batches. shape. Qed.

Lemma admin_list_deletion_receipts_shape (self : VmpClient)
  (tenant_id : string) (scope : option string) (limit : option Z) :
  call_shape server json_loads
    (admin_list_deletion_receipts server json_loads self tenant_id scope
       limit).
Proof. unfold admin_list_deletion_receipts. shape. Qed.

Lemma admin_stats_shape (self : VmpClient) :
  call_shape server json_loads (admin_stats server json_loads int_of_str self).
Proof. unfold admin_stats. shape. Qed.

Lemma get_pubkey_shape (self : VmpClient) (pubkey_id : string) :
  call_shape server json_loads (get_pubkey server json_loads self pubkey_id).
Proof. unfold get_pubkey. shape. Qed.

Lemma revoke_api_key_shape (prov : ProvisioningClient) (key_id : string) :
  call_shape server json_loads (revoke_api_key server json_loads prov key_id).
Proof. unfold revoke_api_key. shape. Qed.

Lemma list_api_keys_shape (prov : ProvisioningClient) (tenant_id : string)
  (limit : option Z) :
  call_shape server json_loads
    (list_api_keys server json_loads prov tenant_id limit).
Proof. unfold list_api_keys. shape. Qed.

End Endpoints.

Section EndpointProperties.

Variable server : World -> Request -> transport_result.
Variable json_loads : string -> option pyval.
Variable int_of_str : string -> option Z.
Variable str_of : pyval -> string.

(** [X13] Every endpoint method of [VmpClient], and [revoke_api_key] and
    [list_api_keys] of [ProvisioningClient], either raises a validation
    error and leaves the trace untouched, or adds exactly one request to
    the trace: there is no retry and no second call. *)
Theorem endpoints_issue_at_most_one_request :
  forall (self : VmpClient) (prov : ProvisioningClient),
    one_request_or_rejected (whoami server json_loads str_of self) /\
    (forall tenant_id scope fields meta op idempotency_key,
        one_request_or_rejected
          (ingest server json_loads self tenant_id scope fields meta op
             idempotency_key)) /\
    (forall tenant_id scope target_event_id meta,
        one_request_or_rejected
          (delete server json_loads self tenant_id scope target_event_id
             meta)) /\
    (forall event_id,
        one_request_or_rejected (get_proof server json_loads self event_id)) /\
    (forall receipt_id,
        one_request_or_rejected
          (get_deletion_receipt server json_loads self receipt_id)) /\
    (forall receipt_id,
        one_request_or_rejected
          (verify_deletion server json_loads self receipt_id)) /\
    (forall event_id,
        one_request_or_rejected
          (get_event_bundle server json_loads self event_id)) /\
    (forall receipt_id,
        one_request_or_rejected
          (get_deletion_receipt_bundle server json_loads self receipt_id)) /\
    (forall bundle,
        one_request_or_rejected
          (verify_event_bundle_offline server json_loads self bundle)) /\
    (forall bundle,
        one_request_or_rejected
          (verify_deletion_bundle_offline server json_loads self bundle)) /\
    (forall tenant_id scope limit,
        one_request_or_rejected
          (admin_list_events server json_loads self tenant_id scope limit)) /\
    (forall tenant_id limit,
        one_request_or_rejected
          (admin_list_batches server json_loads int_of_str self tenant_id
             limit)) /\
    (forall tenant_id scope limit,
        one_request_or_rejected
          (admin_list_deletion_receipts server json_loads self tenant_id scope
             limit)) /\
    one_request_or_rejected (admin_stats server json_loads int_of_str self) /\
    (forall pubkey_id,
        one_request_or_rejected
          (get_pubkey server json_loads self pubkey_id)) /\
    (forall key_id,
        one_request_or_rejected
          (revoke_api_key server json_loads prov key_id)) /\
    (forall tenant_id limit,
        one_request_or_rejected
          (list_api_keys server json_loads prov tenant_id limit)).
Proof.
  intros self prov.
  repeat match goal with |- _ /\ _ => split end; intros;
    apply (call_shape_one_request server json_loads).
  - apply whoami_shape.
  - apply ingest_shape.
  - apply delete_shape.
  - apply get_proof_shape.
  - apply get_deletion_receipt_shape.
  - apply verify_deletion_shape.
  - apply get_event_bundle_shape.
  - apply get_deletion_receipt_bundle_shape.
  - apply verify_event_bundle_offline_shape.
  - apply verify_deletion_bundle_offline_shape.
  - apply admin_list_events_shape.
  - apply admin_list_batches_shape.
  - apply admin_list_deletion_receipts_shape.
  - apply admin_stats_shape.
  - apply get_pubkey_shape.
  - apply revoke_api_key_shape.
  - apply list_api_keys_shape.
Qed.

Lemma propagates_next {A B : Type} (o : outcome B) (k : B -> M A) :
  (forall b, propagates server json_loads (k b)) ->
  propagates server json_loads (mbind (lift o) k).
Proof.
  intros Hk w r e Hi Ha. unfold issues in *. destruct o as [b | e0].
  - rewrite mbind_lift_return in *. exact (Hk b w r e Hi Ha).
  - rewrite mbind_lift_raise in Hi. simpl in Hi.
    exfalso. exact (not_issued_in_place w r Hi).
Qed.

Lemma create_api_key_propagates (prov : ProvisioningClient) (payload : pydict) :
  propagates server json_loads
    (create_api_key server json_loads prov payload).
Proof.
  unfold create_api_key.
  apply propagates_next. intros t.
  apply propagates_next. intros _.
  apply propagates_next. intros _.
  apply call_shape_propagates, call_shape_prov_request.
Qed.

(** [X14] No endpoint method handles a failed request: when the answer to
    the request it issued makes [_request_json] raise (a [VmpHttpError]
    for a non-2xx status, a [VmpTimeoutError], a transport or decoding
    error), the method raises that same error. *)
Theorem endpoints_propagate_request_errors :
  forall (self : VmpClient) (prov : ProvisioningClient),
    propagates server json_loads (whoami server json_loads str_of self) /\
    (forall tenant_id scope fields meta op idempotency_key,
        propagates server json_loads
          (ingest server json_loads self tenant_id scope fields meta op
             idempotency_key)) /\
    (forall tenant_id scope target_event_id meta,
        propagates server json_loads
          (delete server json_loads self tenant_id scope target_event_id
             meta)) /\
    (forall event_id,
        propagates server json_loads
          (get_proof server json_loads self event_id)) /\
    (forall receipt_id,
        propagates server json_loads
          (get_deletion_receipt server json_loads self receipt_id)) /\
    (forall receipt_id,
        propagates server json_loads
          (verify_deletion server json_loads self receipt_id)) /\
    (forall event_id,
        propagates server json_loads
          (get_event_bundle server json_loads self event_id)) /\
    (forall receipt_id,
        propagates server json_loads
          (get_deletion_receipt_bundle server json_loads self receipt_id)) /\
    (forall bundle,
        propagates server json_loads
          (verify_event_bundle_offline server json_loads self bundle)) /\
    (forall bundle,
        propagates server json_loads
          (verify_deletion_bundle_offline server json_loads self bundle)) /\
    (forall tenant_id scope limit,
        propagates server json_loads
          (admin_list_events server json_loads self tenant_id scope limit)) /\
    (forall tenant_id limit,
        propagates server json_loads
          (admin_list_batches server json_loads int_of_str self tenant_id
             limit)) /\
    (forall tenant_id scope limit,
        propagates server json_loads
          (admin_list_deletion_receipts server json_loads self tenant_id scope
             limit)) /\
    propagates server json_loads (admin_stats server json_loads int_of_str self) /\
    (forall pubkey_id,
        propagates server json_loads
          (get_pubkey server json_loads self pubkey_id)) /\
    (forall payload,
        propagates server json_loads
          (create_api_key server json_loads prov payload)) /\
    (forall key_id,
        propagates server json_loads
          (revoke_api_key server json_loads prov key_id)) /\
    (forall tenant_id limit,
        propagates server json_loads
          (list_api_keys server json_loads prov tenant_id limit)).
Proof.
  intros self prov.
  repeat match goal with |- _ /\ _ => split end; intros;
    try apply create_api_key_propagates;
    apply (call_shape_propagates server json_loads).
  - apply whoami_shape.
  - apply ingest_shape.
  - apply delete_shape.
  - apply get_proof_shape.
  - apply get_deletion_receipt_shape.
  - apply verify_deletion_shape.
  - apply get_event_bundle_shape.
  - apply get_deletion_receipt_bundle_shape.
  - apply verify_event_bundle_offline_shape.
  - apply verify_deletion_bundle_offline_shape.
  - apply admin_list_events_shape.
  - apply admin_list_batches_shape.
  - apply admin_list_deletion_receipts_shape.
  - apply admin_stats_shape.
  - apply get_pubkey_shape.
  - apply revoke_api_key_shape.
  - apply list_api_keys_shape.
Qed.

Lemma assert_uuid_like_rejects (name value : string) :
  _UUID_LIKE_match value = false ->
  exists msg, assert_uuid_like name value = Raise (VemorakSdkError msg).
Proof.
  intros H. unfold assert_uuid_like, obind.
  destruct (assert_non_empty_checks name value) as [-> | [msg ->]];
    [| eauto].
  rewrite H. simpl. eauto.
Qed.

(** [X15] An id that [_UUID_LIKE] does not match never reaches the
    network: [get_proof], [get_deletion_receipt], [verify_deletion],
    [get_event_bundle], [get_deletion_receipt_bundle], [delete] (for its
    target) and [revoke_api_key] raise a validation error first. *)
Theorem malformed_ids_are_rejected_before_network :
  forall (self : VmpClient) (prov : ProvisioningClient) (id : string)
         (tenant_id scope : string) (meta : option pydict),
    _UUID_LIKE_match id = false ->
    rejected_before_network (get_proof server json_loads self id) /\
    rejected_before_network (get_deletion_receipt server json_loads self id) /\
    rejected_before_network (verify_deletion server json_loads self id) /\
    rejected_before_network (get_event_bundle server json_loads self id) /\
    rejected_before_network
      (get_deletion_receipt_bundle server json_loads self id) /\
    rejected_before_network
      (delete server json_loads self tenant_id scope id meta) /\
    rejected_before_network (revoke_api_key server json_loads prov id).
Proof.
  intros self prov id tenant_id scope meta H.
  repeat match goal with |- _ /\ _ => split end;
    try (apply rejected_raise; now apply assert_uuid_like_rejects).
  unfold delete.
  apply rejected_next; [apply _enforce_tenant_checks |].
  apply rejected_next; [apply assert_scope_checks |].
  apply rejected_next; [apply _enforce_scope_prefix_checks |].
  apply rejected_raise. now apply assert_uuid_like_rejects.
Qed.

End EndpointProperties.

Section Decoding.

Variable server : World -> Request -> transport_result.
Variable json_loads : string -> option pyval.
Variable int_of_str : string -> option Z.

Lemma issues_next {A B : Type} (o : outcome B) (k : B -> M A) (w : World)
  (r : Request) :
  issues (mbind (lift o) k) w r ->
  exists b, issues (k b) w r /\ mbind (lift o) k w = k b w.
Proof.
  unfold issues. destruct o as [b | e].
  - rewrite mbind_lift_return. eauto.
  - rewrite mbind_lift_raise. simpl. intros H.
    exfalso. exact (not_issued_in_place w r H).
Qed.

Lemma request_run {A : Type} (self : VmpClient) (method path : string)
  (query : option pydict) (body : option pyval)
  (idempotency_key : option string) (auth : bool) (f : pyval -> outcome A)
  (w : World) (r : Request) :
  issues (mbind (_request_json server json_loads self method path query body
                   idempotency_key auth)
            (fun data => lift (f data))) w r ->
  snd (mbind (_request_json server json_loads self method path query body
                idempotency_key auth)
         (fun data => lift (f data)) w)
  = obind (answer json_loads (server w r)) f.
Proof.
  unfold issues, mbind.
  destruct (_request_json_answer server json_loads self method path query body
              idempotency_key auth w) as [r' E].
  rewrite E.
  destruct (answer json_loads (server w r')) eqn:Ea; simpl; intros H;
    apply app_inj_tail in H; destruct H as [_ H]; injection H as <-;
    rewrite Ea; reflexivity.
Qed.

Lemma prov_request_run {A : Type} (self : ProvisioningClient)
  (method path : string) (query : option pydict) (body : option pyval)
  (f : pyval -> outcome A) (w : World) (r : Request) :
  issues (mbind (Provisioning_request_json server json_loads self method path
                   query body)
            (fun data => lift (f data))) w r ->
  snd (mbind (Provisioning_request_json server json_loads self method path
                query body)
         (fun data => lift (f data)) w)
  = obind (answer json_loads (server w r)) f.
Proof.
  unfold issues, mbind.
  destruct (Provisioning_request_json_answer server json_loads self method
              path query body w) as [r' E].
  rewrite E.
  destruct (answer json_loads (server w r')) eqn:Ea; simpl; intros H;
    apply app_inj_tail in H; destruct H as [_ H]; injection H as <-;
    rewrite Ea; reflexivity.
Qed.

(** The answer to a 2xx response with a blank body, and with a body that
    decodes to [v]. *)
Lemma answer_blank (status : Z) (body_text : string) :
  200 <= status < 300 ->
  PyStr.all PyStr.isspace body_text = true ->
  answer json_loads (Responded status body_text) = Return (PyDict []).
Proof.
  intros Hst Hb. unfold answer, classify_response. simpl.
  replace ((status <? 200) || (status >=? 300)) with false
    by (symmetry; apply orb_false_iff; lia).
  rewrite (strip_blank body_text Hb). reflexivity.
Qed.

Lemma answer_decoded (status : Z) (body_text : string) (v : pyval) :
  200 <= status < 300 ->
  PyStr.all PyStr.isspace body_text = false ->
  json_loads body_text = Some v ->
  answer json_loads (Responded status body_text) = Return v.
Proof.
  intros Hst Hb Hj. unfold answer, classify_response. simpl.
  replace ((status <? 200) || (status >=? 300)) with false
    by (symmetry; apply orb_false_iff; lia).
  assert (Hs : PyStr.truthy (PyStr.strip body_text) = true).
  { unfold PyStr.truthy, PyStr.is_empty.
    destruct (PyStr.strip body_text) eqn:E; [| reflexivity].
    apply strip_empty_iff in E. congruence. }
  rewrite Hs. simpl. unfold Response_json. simpl. rewrite Hj. reflexivity.
Qed.

Ltac run_call H :=
  repeat (let E := fresh "E" in
          apply issues_next in H; destruct H as (? & H & E);
          rewrite E in *; clear E; cbv beta zeta in * );
  first [apply request_run in H | apply prov_request_run in H].

(** [X16] When the server answers an [ingest] with a 2xx status and a
    JSON object that has [event_id], [event_hash_hex] and [created_at],
    [ingest] returns exactly these values, and [prev_hash_hex] when the
    object has it, else [None]. *)
Theorem ingest_returns_the_response_fields :
  forall (self : VmpClient) (tenant_id scope : string) (fields : pydict)
         (meta : option pydict) (op : string) (idempotency_key : option string)
         (w : World) (r : Request) (status : Z) (body_text : string)
         (d : pydict) (a b c : pyval),
    issues (ingest server json_loads self tenant_id scope fields meta op
              idempotency_key) w r ->
    server w r = Responded status body_text ->
    200 <= status < 300 ->
    PyStr.all PyStr.isspace body_text = false ->
    json_loads body_text = Some (PyDict d) ->
    dict_lookup d "event_id" = Some a ->
    dict_lookup d "event_hash_hex" = Some b ->
    dict_lookup d "created_at" = Some c ->
    snd (ingest server json_loads self tenant_id scope fields meta op
           idempotency_key w)
    = Return (mkIngestResponse a b
                match dict_lookup d "prev_hash_hex" with
                | Some x => x
                | None => PyNone
                end c).
Proof.
  intros self tenant_id scope fields meta op idem w r status body_text d a b c
    Hi Hsrv Hst Hnb Hj Ha Hb Hc.
  unfold ingest in *. run_call Hi. rewrite Hi, Hsrv.
  rewrite (answer_decoded status body_text _ Hst Hnb Hj). simpl.
  rewrite Ha, Hb, Hc. simpl.
  destruct (dict_lookup d "prev_hash_hex"); reflexivity.
Qed.

(** [X17] When the server answers with a 2xx status and a blank body, the
    decoded object is empty: the listing calls return no items and the
    offline verifications report [ok = False] with no checks, while
    [ingest], [delete], [get_proof] and [list_api_keys] raise [KeyError]
    for the first field they require. *)
Theorem blank_success_body_by_endpoint :
  forall (self : VmpClient) (prov : ProvisioningClient) (w : World)
         (r : Request) (status : Z) (body_text : string),
    server w r = Responded status body_text ->
    200 <= status < 300 ->
    PyStr.all PyStr.isspace body_text = true ->
    (forall tenant_id scope limit,
        issues (admin_list_events server json_loads self tenant_id scope
                  limit) w r ->
        snd (admin_list_events server json_loads self tenant_id scope limit w)
        = Return (mkAdminListEventsResponse [])) /\
    (forall tenant_id limit,
        issues (admin_list_batches server json_loads int_of_str self tenant_id
                  limit) w r ->
        snd (admin_list_batches server json_loads int_of_str self tenant_id
               limit w)
        = Return (mkAdminListBatchesResponse [])) /\
    (forall tenant_id scope limit,
        issues (admin_list_deletion_receipts server json_loads self tenant_id
                  scope limit) w r ->
        snd (admin_list_deletion_receipts server json_loads self tenant_id
               scope limit w)
        = Return (mkAdminListDeletionReceiptsResponse [])) /\
    (forall bundle,
        issues (verify_event_bundle_offline server json_loads self bundle)
          w r ->
        snd (verify_event_bundle_offline server json_loads self bundle w)
        = Return (mkVerifyBundleResponse false (PyDict []))) /\
    (forall bundle,
        issues (verify_deletion_bundle_offline server json_loads self bundle)
          w r ->
        snd (verify_deletion_bundle_offline server json_loads self bundle w)
        = Return (mkVerifyBundleResponse false (PyDict []))) /\
    (forall tenant_id scope fields meta op idempotency_key,
        issues (ingest server json_loads self tenant_id scope fields meta op
                  idempotency_key) w r ->
        snd (ingest server json_loads self tenant_id scope fields meta op
               idempotency_key w)
        = Raise (KeyError "event_id")) /\
    (forall tenant_id scope target_event_id meta,
        issues (delete server json_loads self tenant_id scope target_event_id
                  meta) w r ->
        snd (delete server json_loads self tenant_id scope target_event_id
               meta w)
        = Raise (KeyError "delete_event_id")) /\
    (forall event_id,
        issues (get_proof server json_loads self event_id) w r ->
        snd (get_proof server json_loads self event_id w)
        = Raise (KeyError "event_id")) /\
    (forall tenant_id limit,
        issues (list_api_keys server json_loads prov tenant_id limit) w r ->
        snd (list_api_keys server json_loads prov tenant_id limit w)
        = Raise (KeyError "tenant_id")).
Proof.
  intros self prov w r status body_text Hsrv Hst Hb.
  pose proof (answer_blank status body_text Hst Hb) as Ha.
  repeat match goal with |- _ /\ _ => split end; intros.
  - unfold admin_list_events in *. run_call H. rewrite H, Hsrv, Ha.
    reflexivity.
  - unfold admin_list_batches in *. run_call H. rewrite H, Hsrv, Ha.
    reflexivity.
  - unfold admin_list_deletion_receipts in *. run_call H.
    rewrite H, Hsrv, Ha. reflexivity.
  - unfold verify_event_bundle_offline in *. run_call H.
    rewrite H, Hsrv, Ha. reflexivity.
  - unfold verify_deletion_bundle_offline in *. run_call H.
    rewrite H, Hsrv, Ha. reflexivity.
  - unfold ingest in *. run_call H. rewrite H, Hsrv, Ha. reflexivity.
  - unfold delete in *. run_call H. rewrite H, Hsrv, Ha. reflexivity.
  - unfold get_proof in *. run_call H. rewrite H, Hsrv, Ha. reflexivity.
  - unfold list_api_keys in *. run_call H. rewrite H, Hsrv, Ha. reflexivity.
Qed.

Ltac bind_inv H :=
  let a := fresh "a" in
  let E := fresh "E" in
  apply obind_return_inv in H; destruct H as (a & E & H).

Lemma omap_Forall2 {A B : Type} (f : A -> outcome B) (l : list A)
  (bs : list B) :
  omap f l = Return bs -> Forall2 (fun a b => f a = Return b) l bs.
Proof.
  revert bs. induction l as [| a l IH]; simpl; intros bs H.
  - injection H as <-. constructor.
  - bind_inv H. bind_inv H. injection H as <-.
    constructor; [assumption | now apply IH].
Qed.

Lemma py_iter_or_list (l : list pyval) :
  py_iter (py_or (PyList l) (PyList [])) = Return l.
Proof. destruct l; reflexivity. Qed.

(** [X18] When the server answers [admin_list_events] with a 2xx status
    and a JSON object whose [items] is a list, a returned result has one
    item per element of that list, in the same order, each holding the
    [id], [tenant_id], [scope], [op] and [created_at] of its element. *)
Theorem admin_list_events_keeps_the_items :
  forall (self : VmpClient) (tenant_id : string) (scope : option string)
         (limit : option Z) (w : World) (r : Request) (status : Z)
         (body_text : string) (d : pydict) (l : list pyval)
         (res : AdminListEventsResponse),
    issues (admin_list_events server json_loads self tenant_id scope limit)
      w r ->
    server w r = Responded status body_text ->
    200 <= status < 300 ->
    PyStr.all PyStr.isspace body_text = false ->
    json_loads body_text = Some (PyDict d) ->
    dict_lookup d "items" = Some (PyList l) ->
    snd (admin_list_events server json_loads self tenant_id scope limit w)
    = Return res ->
    Forall2 (fun item it =>
               subscript item "id" = Return (ae_id it) /\
               subscript item "tenant_id" = Return (ae_tenant_id it) /\
               subscript item "scope" = Return (ae_scope it) /\
               subscript item "op" = Return (ae_op it) /\
               subscript item "created_at" = Return (ae_created_at it))
            l (ale_items res).
Proof.
  intros self tenant_id scope limit w r status body_text d l res
    Hi Hsrv Hst Hnb Hj Hitems Hres.
  unfold admin_list_events in *. run_call Hi. rewrite Hi, Hsrv in Hres.
  rewrite (answer_decoded status body_text _ Hst Hnb Hj) in Hres.
  simpl in Hres. unfold map_items in Hres. simpl in Hres.
  rewrite Hitems in Hres. simpl in Hres.
  rewrite py_iter_or_list in Hres. simpl in Hres.
  bind_inv Hres. injection Hres as <-. simpl.
  apply omap_Forall2 in E.
  eapply Forall2_impl; [| exact E]. clear.
  intros item it H.
  bind_inv H. bind_inv H. bind_inv H. bind_inv H. bind_inv H.
  bind_inv H. bind_inv H. injection H as <-. simpl. tauto.
Qed.

(** [X19] [create_api_key] checks its payload before any network call: a
    payload without [tenant_id] raises [KeyError]; a [tenant_id] that is
    not a well-formed tenant id, or a [scope_prefix] that is given, not
    [None] and not a string ending with [:], raises a validation
    error. *)
Theorem create_api_key_checks_payload :
  forall (prov : ProvisioningClient) (payload : pydict),
    (dict_lookup payload "tenant_id" = None ->
     forall w,
       create_api_key server json_loads prov payload w
       = (w, Raise (KeyError "tenant_id"))) /\
    (forall t,
        dict_lookup payload "tenant_id" = Some t ->
        (forall s, t = PyStr s -> assert_tenant_id s <> Return tt) ->
        rejected_before_network
          (create_api_key server json_loads prov payload)) /\
    (forall t p,
        dict_lookup payload "tenant_id" = Some t ->
        dict_lookup payload "scope_prefix" = Some p ->
        p <> PyNone ->
        (forall s, p = PyStr s -> PyStr.endswith_char s ":"%char = false) ->
        rejected_before_network
          (create_api_key server json_loads prov payload)).
Proof.
  intros prov payload. split; [| split].
  - intros H w. unfold create_api_key, subscript. rewrite H. reflexivity.
  - intros t Ht Hbad. unfold create_api_key, subscript. rewrite Ht.
    intros w. rewrite mbind_lift_return.
    apply rejected_raise. destruct t; simpl; eauto.
    destruct (assert_tenant_id_checks s) as [E | E]; [| exact E].
    exfalso. exact (Hbad s eq_refl E).
  - intros t p Ht Hp Hnn Hbad. unfold create_api_key, subscript.
    rewrite Ht, Hp. intros w. rewrite mbind_lift_return.
    apply rejected_next.
    { destruct t; simpl; try (right; eauto; fail).
      apply assert_tenant_id_checks. }
    apply rejected_raise. destruct p; simpl; eauto; try congruence.
    destruct (assert_scope_prefix s) as [[] | e] eqn:E.
    + apply assert_scope_prefix_iff in E. rewrite (Hbad s eq_refl) in E.
      discriminate.
    + unfold assert_scope_prefix, assert_non_empty, obind in E.
      destruct (negb (PyStr.truthy (PyStr.strip s))); [inversion E; eauto |].
      destruct (negb (PyStr.endswith_char s ":"%char)); inversion E; eauto.
Qed.

End Decoding.

(* ===================================================================== *)
(** ** Further properties: the polling loop                               *)
(* ===================================================================== *)

Section Polling.

Variable server : World -> Request -> transport_result.
Variable clock : World -> pyfloat.
Variable json_loads : string -> option pyval.
Variable sleep_error : pyfloat -> option exn.





(** [X21] An error raised by a poll ends [wait_for_batch] with that
    error, at once and whatever the deadline: when [timeout_ms] converts
    to seconds, after any number of pending polls each followed by a sleep
    that [time.sleep] performed, a failing [get_proof] (a validation
    error, a [VmpHttpError], a [VmpTimeoutError], a decoding error) is
    what [wait_for_batch] raises. *)
Theorem wait_for_batch_raises_poll_errors :
  forall (self : VmpClient) (event_id : string)
         (opts : option WaitForBatchOptions) (w w' w1 : World) (n fuel : nat)
         (e : exn) (secs : pyfloat),
    let options :=
      match opts with Some o => o | None => WaitForBatchOptions_default end in
    ms_to_seconds (timeout_ms options) = Return secs ->
    let deadline := float_add (clock w) secs in
    polls_pending server clock json_loads sleep_error self event_id options
      deadline n (w ++ [EvTime])%list w' ->
    get_proof server json_loads self event_id w' = (w1, Raise e) ->
    (n < fuel)%nat ->
    wait_for_batch server clock json_loads sleep_error fuel self event_id
      opts w
    = Some (w1, Raise e).
Proof.
  intros self event_id opts w w' w1 n fuel e secs options Hsecs deadline Hp
    Hg Hf.
  unfold wait_for_batch, time_time. fold options. rewrite Hsecs.
  fold deadline.
  replace fuel with (n + (fuel - n))%nat by lia.
  rewrite (wait_for_batch_loop_pending server clock json_loads sleep_error
             self event_id options deadline n _ _ Hp).
  destruct (fuel - n)%nat as [| k] eqn:Ek; [lia |].
  simpl. rewrite Hg. reflexivity.
Qed.



End Polling.

(* ===================================================================== *)
(** ** Further concrete runs                                              *)
(* ===================================================================== *)

(** A 16-digit id, alone and followed by a newline. *)
Lemma assert_uuid_like_accepts_trailing_newline_witness :
  PyStr.all is_hex_or_dash Mock.an_event_id = true /\
  16 <= PyStr.len Mock.an_event_id /\
  assert_uuid_like "event_id"
    (Mock.an_event_id ++ String "010"%char EmptyString) = Return tt.
Proof.
  split; [reflexivity |]. split; [vm_compute; discriminate |].
  apply (assert_uuid_like_accepts_trailing_newline "event_id"
           Mock.an_event_id eq_refl).
  vm_compute. discriminate.
Defined.

(** The client bound to [acme] accepts [acme]. *)
Lemma _enforce_tenant_accepts_witness :
  _tenant_guardrail Mock.acme_client = Some "acme" /\
  "acme" <> EmptyString /\
  _enforce_tenant Mock.acme_client "acme" = Return tt.
Proof.
  split; [reflexivity |]. split; [discriminate |].
  apply (proj1 (_enforce_tenant_accepts Mock.acme_client "acme" "acme"
                  eq_refl ltac:(discriminate))).
  split; reflexivity.
Defined.

(** A scope under the prefix [user:]. *)
Lemma scope_within_prefix_is_namespaced_witness :
  VmpClient_init Mock.httpx_ok "https://vmp.example/" "secret" None 15000 (Some "user:")
  = Return (Mock.vmp_client "secret" None (Some "user:")) /\
  _enforce_scope_prefix (Mock.vmp_client "secret" None (Some "user:"))
    "user:42" = Return tt /\
  PyStr.contains ":"%char "user:42" = true.
Proof.
  split; [reflexivity |]. split; [reflexivity |].
  exact (proj1 (proj2 (scope_within_prefix_is_namespaced
                         "https://vmp.example/" "secret" None 15000 "user:"
                         (Mock.vmp_client "secret" None (Some "user:"))
                         "user:42" Mock.httpx_ok eq_refl eq_refl))).
Defined.

(** An [ingest]-like request with an idempotency key. *)
Lemma vmp_request_carries_client_headers_witness :
  VmpClient_init Mock.httpx_ok "https://vmp.example/" "secret" None 15000 None
  = Return Mock.client /\
  exists r,
    issues (_request_json Mock.ok_server Json.loads Mock.client "POST"
              "/v1/ingest" None (Some (PyDict [])) (Some "idem-1") true)
      [] r /\
    header_get (req_headers r) "Authorization" = Some "Bearer secret" /\
    header_get (req_headers r) "x-idempotency-key" = Some "idem-1".
Proof.
  split; [reflexivity |].
  eexists. split; [vm_compute; reflexivity |].
  pose proof (vmp_request_carries_client_headers
                Mock.ok_server Json.loads Mock.httpx_ok
                "https://vmp.example/" "secret"
                None 15000 None Mock.client "POST" "/v1/ingest" None
                (Some (PyDict [])) (Some "idem-1") true [] _ eq_refl
                ltac:(vm_compute; reflexivity))
    as (_ & _ & _ & _ & _ & Ha & Hk).
  split; [exact Ha | exact Hk].
Defined.

(** A transport that times out. *)
Lemma transport_failures_surface_witness :
  Mock.timeout_server [] (Mock.request_of "GET" "/v1/whoami" None None)
  = TimedOut /\
  snd (_request_json Mock.timeout_server Json.loads Mock.client "GET"
         "/v1/whoami" None None None true [])
  = Raise (VmpTimeoutError "VMP request timed out").
Proof.
  split; [reflexivity |].
  refine (proj1 (transport_failures_surface
                   Mock.timeout_server Json.loads Mock.client Mock.prov_client
                   "GET" "/v1/whoami" None None None true []
                   (Mock.request_of "GET" "/v1/whoami" None None) _
                   (or_introl (conj _ eq_refl))) eq_refl).
  vm_compute. reflexivity.
Defined.

(** A 200 response whose body is a proof. *)
Lemma success_body_is_decoded_witness :
  200 <= 200 < 300 /\
  PyStr.all PyStr.isspace (Json.dumps Mock.proof_batched) = false /\
  snd (_request_json Mock.batched_server Json.loads Mock.client "GET"
         "/v1/proof/x" None None None true [])
  = Return Mock.proof_batched.
Proof.
  split; [lia |]. split; [vm_compute; reflexivity |].
  refine (proj1 (success_body_is_decoded
                   Mock.batched_server Json.loads Mock.client Mock.prov_client
                   "GET" "/v1/proof/x" None None None true []
                   (Mock.request_of "GET" "/v1/proof/x" None None)
                   200 (Json.dumps Mock.proof_batched) _
                   ltac:(lia) _ eq_refl (or_introl (conj _ eq_refl)))
            Mock.proof_batched _);
    vm_compute; reflexivity.
Defined.

(** An id that is too short. *)
Lemma malformed_ids_are_rejected_before_network_witness :
  _UUID_LIKE_match "not-a-uuid" = false /\
  rejected_before_network
    (get_proof Mock.ok_server Json.loads Mock.client "not-a-uuid").
Proof.
  split; [reflexivity |].
  exact (proj1 (malformed_ids_are_rejected_before_network
                  Mock.ok_server Json.loads Mock.client Mock.prov_client
                  "not-a-uuid" "acme" "user:1" None eq_refl)).
Defined.

(** An [ingest] answered with [Mock.ingest_response]. *)
Lemma ingest_returns_the_response_fields_witness :
  Json.loads (Json.dumps Mock.ingest_response) = Some Mock.ingest_response /\
  snd (ingest (Mock.constant_server 200 (Json.dumps Mock.ingest_response))
         Json.loads Mock.client "acme" "user:1" [] None "write" None [])
  = Return (mkIngestResponse (PyStr Mock.an_event_id) (PyStr "aa") PyNone
              (PyStr "2024-01-01T00:00:00Z")).
Proof.
  split; [vm_compute; reflexivity |].
  refine (ingest_returns_the_response_fields
            (Mock.constant_server 200 (Json.dumps Mock.ingest_response))
            Json.loads Mock.client "acme" "user:1" [] None "write" None []
            (Mock.request_of "POST" "/v1/ingest" None
               (Some (PyDict [("tenant_id", PyStr "acme");
                              ("scope", PyStr "user:1");
                              ("op", PyStr "write"); ("fields", PyDict []);
                              ("meta", PyDict [])])))
            200 (Json.dumps Mock.ingest_response)
            [("event_id", PyStr Mock.an_event_id);
             ("event_hash_hex", PyStr "aa");
             ("created_at", PyStr "2024-01-01T00:00:00Z")]
            _ _ _ _ eq_refl ltac:(lia) _ _ eq_refl eq_refl eq_refl);
    vm_compute; reflexivity.
Defined.

(** A blank 200 response to an offline verification and to a listing. *)
Lemma blank_success_body_by_endpoint_witness :
  200 <= 200 < 300 /\
  PyStr.all PyStr.isspace EmptyString = true /\
  snd (verify_event_bundle_offline Mock.ok_server Json.loads Mock.client
         Mock.event_bundle [])
  = Return (mkVerifyBundleResponse false (PyDict [])).
Proof.
  split; [lia |]. split; [reflexivity |].
  refine (proj1 (proj2 (proj2 (proj2
            (blank_success_body_by_endpoint
               Mock.ok_server Json.loads Mock.no_int_of_str Mock.client
               Mock.prov_client []
               (Mock.request_of "POST" "/v1/verify/bundle" None
                  (Some Mock.event_bundle))
               200 EmptyString eq_refl ltac:(lia) eq_refl))))
            Mock.event_bundle _).
  vm_compute. reflexivity.
Defined.

(** A page of two events. *)
Lemma admin_list_events_keeps_the_items_witness :
  exists res,
    snd (admin_list_events
           (Mock.constant_server 200 (Json.dumps Mock.events_page))
           Json.loads Mock.client "acme" None None [])
    = Return res /\
    List.map ae_id (ale_items res) = [PyStr "e1"; PyStr "e2"] /\
    Forall2 (fun item it => subscript item "id" = Return (ae_id it))
      [PyDict [("id", PyStr "e1"); ("tenant_id", PyStr "acme");
               ("scope", PyStr "user:1"); ("op", PyStr "write");
               ("created_at", PyStr "2024-01-01T00:00:00Z")];
       PyDict [("id", PyStr "e2"); ("tenant_id", PyStr "acme");
               ("scope", PyStr "user:2"); ("op", PyStr "delete");
               ("created_at", PyStr "2024-01-02T00:00:00Z");
               ("batch_id", PyStr "batch-1")]]
      (ale_items res).
Proof.
  eexists. split; [vm_compute; reflexivity |]. split; [reflexivity |].
  eapply Forall2_impl;
    [| eapply (admin_list_events_keeps_the_items
                 (Mock.constant_server 200 (Json.dumps Mock.events_page))
                 Json.loads Mock.client "acme" None None []
                 (Mock.request_of "GET" "/v1/admin/events"
                    (Some [("tenant_id", PyStr "acme")]) None)
                 200 (Json.dumps Mock.events_page))].
  - intros item it H. exact (proj1 H).
  - vm_compute. reflexivity.
  - reflexivity.
  - lia.
  - vm_compute. reflexivity.
  - vm_compute. reflexivity.
  - reflexivity.
  - vm_compute. reflexivity.
Defined.


(** One pending poll, then a transport timeout. *)
Lemma wait_for_batch_raises_poll_errors_witness :
  ms_to_seconds (timeout_ms WaitForBatchOptions_default)
  = Return Mock.seconds_30 /\
  exists w1,
    wait_for_batch Mock.flaky_server Mock.poll_clock Json.loads
      Mock.sleep_error 5 Mock.client Mock.an_event_id None []
    = Some (w1, Raise (VmpTimeoutError "VMP request timed out")).
Proof.
  assert (Hsecs : ms_to_seconds (timeout_ms WaitForBatchOptions_default)
                  = Return Mock.seconds_30) by reflexivity.
  split; [exact Hsecs |].
  eassert (Hp : polls_pending Mock.flaky_server Mock.poll_clock Json.loads
                  Mock.sleep_error Mock.client Mock.an_event_id
                  WaitForBatchOptions_default
                  (float_add (Mock.poll_clock []) Mock.seconds_30)
                  1 [EvTime] _).
  { eapply polls_again;
      [vm_compute; reflexivity | reflexivity | vm_compute; reflexivity
      | vm_compute; reflexivity | vm_compute; reflexivity
      | apply polls_done]. }
  match type of Hp with
  | polls_pending _ _ _ _ _ _ _ _ _ _ ?w' =>
      eassert (Hg : get_proof Mock.flaky_server Json.loads Mock.client
                      Mock.an_event_id w' = (_, Raise _))
        by (vm_compute; reflexivity)
  end.
  eexists.
  exact (wait_for_batch_raises_poll_errors
           Mock.flaky_server Mock.poll_clock Json.loads Mock.sleep_error
           Mock.client Mock.an_event_id None [] _ _ 1 5 _ _ Hsecs Hp Hg
           ltac:(lia)).
Defined.

